(** * TPOT steady-state estimator: a shallow embedding

    Embedded sources:
    - [src/tpot/builtin_modules/passthrough.py]
        ([Passthrough], [SkipTransformer]);
    - [src/tpot/tpot_estimator/steady_state_estimator.py]
        ([TPOTEstimatorSteadyState]: [__init__], [fit],
         [make_evaluated_individuals], [pareto_front]);
    - [src/setup.py] ([calculate_version]).

    Python floats are rationals ([Q]); exceptions are the [Raise]
    constructor of [result]; a pandas data frame is a list of rows, the
    row label being the position in the list. *)

From Stdlib Require Import List Bool Arith ZArith QArith String Lia.
From Stdlib Require Import Permutation Sorted Qround Lqa.
Import ListNotations.

Set Implicit Arguments.

(** ** Python exceptions *)

Inductive exn : Type :=
| ValueError
| IndexError
| KeyError
| AttributeError
| ZeroDivisionError.

Inductive result (A : Type) : Type :=
| Ok (a : A)
| Raise (e : exn).

Arguments Ok {A} a.
Arguments Raise {A} e.

Definition bind {A B : Type} (r : result A) (k : A -> result B) : result B :=
  match r with
  | Ok a => k a
  | Raise e => Raise e
  end.

Notation "x <- r ;; k" := (bind r (fun x => k))
  (at level 61, r at next level, right associativity).

Fixpoint mapM {A B : Type} (f : A -> result B) (l : list A)
  : result (list B) :=
  match l with
  | [] => Ok []
  | a :: l' => b <- f a ;; bs <- mapM f l' ;; Ok (b :: bs)
  end.

(** A method that updates the attributes of [self] and may raise: the
    attributes as they are when the exception leaves the method are part
    of the outcome. *)
Definition M (S A : Type) : Type := S -> result A * S.

Definition ret {S A : Type} (a : A) : M S A := fun s => (Ok a, s).

Definition bindM {S A B : Type} (m : M S A) (k : A -> M S B) : M S B :=
  fun s =>
    match m s with
    | (Ok a, s') => k a s'
    | (Raise e, s') => (Raise e, s')
    end.

Definition get_self {S : Type} : M S S := fun s => (Ok s, s).

Definition put_self {S : Type} (s : S) : M S unit := fun _ => (Ok tt, s).

Definition lift {S A : Type} (r : result A) : M S A := fun s => (r, s).

Notation "'do' x <- m ; k" := (bindM m (fun x => k))
  (at level 10, x name, m at level 100, k at level 200).
Notation "'do' ' ( x , y ) <- m ; k" := (bindM m (fun '(x, y) => k))
  (at level 10, x name, y name, m at level 100, k at level 200).

(** ** numpy arrays, as far as [passthrough.py] uses them *)

Module Numpy.

Record ndarray : Type := mk_ndarray {
  shape : list nat;
  data : list Q
}.

Definition size_of (sh : list nat) : nat := fold_right Nat.mul 1%nat sh.

(** [np.array(l)] for a flat Python list [l]. *)
Definition array (l : list Q) : ndarray :=
  {| shape := [List.length l]; data := l |}.

(** [a.reshape(newshape)]: a [ValueError] when the sizes differ. *)
Definition reshape (a : ndarray) (newshape : list nat) : result ndarray :=
  if Nat.eqb (size_of newshape) (List.length (data a))
  then Ok {| shape := newshape; data := data a |}
  else Raise ValueError.

(** [a.shape[i]]: an [IndexError] past the number of dimensions. *)
Definition shape_at (a : ndarray) (i : nat) : result nat :=
  match nth_error (shape a) i with
  | Some n => Ok n
  | None => Raise IndexError
  end.

Definition ndim (a : ndarray) : nat := List.length (shape a).

Definition well_formed (a : ndarray) : Prop :=
  List.length (data a) = size_of (shape a).

End Numpy.

(** ** [passthrough.py] *)

(** A method receives the state of [self] and returns the new state of
    [self] together with its return value; a returned [self] is the
    object's state. *)

Module Passthrough.
Section Methods.
Variable Self : Type.      (* instance attributes of the estimator *)
Variables XT YT : Type.

Definition fit (self : Self) (X : option XT) (y : option YT)
  : Self * Self := (self, self).

Definition transform (self : Self) (X : XT) : Self * XT := (self, X).

(** [TransformerMixin.fit_transform]: [self.fit(X, y).transform(X)]. *)
Definition fit_transform (self : Self) (X : XT) (y : option YT)
  : Self * XT :=
  let (self1, fitted) := fit self (Some X) y in
  transform fitted X.
End Methods.
End Passthrough.

Module SkipTransformer.
Import Numpy.
Section Methods.
Variable Self : Type.
Variable YT : Type.

Definition fit (self : Self) (X : option ndarray) (y : option YT)
  : Self * Self := (self, self).

Definition transform (self : Self) (X : ndarray)
  : Self * result ndarray :=
  (self, rows <- shape_at X 0 ;; reshape (array []) [rows; 0%nat]).
End Methods.
End SkipTransformer.

(** ** pandas data frames, as far as the estimator uses them *)

Module Pandas.

(** A cell of an objective column: a float, [NaN], or one of the two
    failure markers, the strings ["TIMEOUT"] and ["INVALID"]. *)
Inductive cell : Type :=
| Float (q : Q)
| NaN
| TIMEOUT
| INVALID.

Section Frame.
Variable Ind : Type.     (* the individuals of the search *)

(** A row: its [Individual] and its cells by column name; a column the
    row has no entry for reads as [NaN]. *)
Record row : Type := mk_row {
  Individual : Ind;
  values : list (string * cell)
}.

(** A frame with the index [0 .. len-1]: the label of a row is its
    position ([make_evaluated_individuals] sets this index, and the
    optuna rows are added with [ignore_index=True]). *)
Record frame : Type := mk_frame {
  columns : list string;
  rows : list row
}.

(** The result of a selection by a boolean mask: rows with the labels
    they had in the frame they were taken from. *)
Definition view (A : Type) : Type := list (nat * A).

Definition get (r : row) (name : string) : cell :=
  match find (fun kv => String.eqb (fst kv) name) (values r) with
  | Some kv => snd kv
  | None => NaN
  end.

(** [name in df] *)
Definition has_column (df : frame) (name : string) : bool :=
  existsb (String.eqb name) (columns df).

Definition labelled (df : frame) : view row :=
  combine (seq 0 (List.length (rows df))) (rows df).

(** [df.loc[label]] *)
Definition loc (df : frame) (label : nat) : result row :=
  match nth_error (rows df) label with
  | Some r => Ok r
  | None => Raise KeyError
  end.

(** [df[names]]: a [KeyError] when a name is not a column. *)
Definition select_columns (df : frame) (names : list string)
  : result (view (list cell)) :=
  if forallb (has_column df) names
  then Ok (map (fun lr => (fst lr, map (get (snd lr)) names))
               (labelled df))
  else Raise KeyError.

(** [df[df[name] == 1]] *)
Definition eq_one (c : cell) : bool :=
  match c with
  | Float q => Qeq_bool q 1
  | _ => false
  end.

Definition where_eq_one (df : frame) (name : string) : view row :=
  filter (fun lr => eq_one (get (snd lr) name)) (labelled df).

End Frame.

(** [isin(["TIMEOUT","INVALID"])] on one cell *)
Definition is_failure_marker (c : cell) : bool :=
  match c with
  | TIMEOUT | INVALID => true
  | _ => false
  end.

(** [astype(float)] on one cell: a marker string is not a float. *)
Definition astype_float (c : cell) : result (option Q) :=
  match c with
  | Float q => Ok (Some q)
  | NaN => Ok None
  | TIMEOUT | INVALID => Raise ValueError
  end.

(** What [astype(float)] gives where it does not raise. *)
Definition to_float (c : cell) : option Q :=
  match c with
  | Float q => Some q
  | _ => None
  end.

(** A float or [NaN] times a weight. *)
Definition fmul (x : option Q) (w : Q) : option Q :=
  match x with
  | Some q => Some (q * w)
  | None => None
  end.

Fixpoint zip_with {A B C : Type} (f : A -> B -> C)
         (l : list A) (m : list B) : list C :=
  match l, m with
  | a :: l', b :: m' => f a b :: zip_with f l' m'
  | _, _ => []
  end.

(** [frame * weights], the weights aligned with the [ncols] columns: a
    [ValueError] when there are not as many weights as columns. *)
Definition mul_columns (ncols : nat) (v : view (list (option Q)))
           (weights : list Q) : result (view (list (option Q))) :=
  if Nat.eqb (List.length weights) ncols
  then Ok (map (fun lr => (fst lr, zip_with fmul (snd lr) weights)) v)
  else Raise ValueError.

(** *** [sort_values(by=names, ascending=...)]

    One key: [NaN] sorts last in both directions ([na_position='last']);
    [Lt] means "comes first". *)
Definition key_cmp (ascending : bool) (a b : option Q) : comparison :=
  match a, b with
  | None, None => Eq
  | None, Some _ => Gt
  | Some _, None => Lt
  | Some x, Some y => if ascending then (x ?= y)%Q else (y ?= x)%Q
  end.

(** Several keys: the first column that differs decides. *)
Fixpoint lex_cmp (ascending : bool) (u v : list (option Q)) : comparison :=
  match u, v with
  | a :: u', b :: v' =>
      match key_cmp ascending a b with
      | Eq => lex_cmp ascending u' v'
      | c => c
      end
  | _, _ => Eq
  end.

Definition comes_not_after (ascending : bool)
           (x y : nat * list (option Q)) : bool :=
  match lex_cmp ascending (snd x) (snd y) with
  | Gt => false
  | _ => true
  end.

(** Rows with equal keys keep the order of the frame. *)
Fixpoint insert_sorted (ascending : bool) (x : nat * list (option Q))
         (l : view (list (option Q))) : view (list (option Q)) :=
  match l with
  | [] => [x]
  | y :: l' =>
      if comes_not_after ascending x y then x :: y :: l'
      else y :: insert_sorted ascending x l'
  end.

Definition sort_values (ascending : bool) (v : view (list (option Q)))
  : view (list (option Q)) :=
  fold_right (insert_sorted ascending) [] v.

(** [list(v.index)] *)
Definition index {A : Type} (v : view A) : list nat := map fst v.

(** The lexicographic order on score vectors, smaller first. *)
Fixpoint lex_le (u v : list Q) : Prop :=
  match u, v with
  | a :: u', b :: v' => (a < b)%Q \/ ((a == b)%Q /\ lex_le u' v')
  | _, _ => True
  end.

(** A row of [n] keys. *)
Definition width (n : nat) (x : nat * list (option Q)) : Prop :=
  List.length (snd x) = n.

(** Every row comes not after the rows behind it. *)
Definition ordered (ascending : bool) (v : list (nat * list (option Q)))
  : Prop :=
  StronglySorted (fun x y => comes_not_after ascending x y = true) v.

End Pandas.

(** ** [steady_state_estimator.py]: the constructor *)

Module Estimator.
Import Pandas.

(** A scorer object: one made by [make_scorer] has a [_score_func], any
    other callable is named by its own [__name__]. *)
Inductive scorer : Type :=
| MadeScorer (score_func_name : string)
| PlainCallable (name : string).

Inductive scoring : Type :=
| ByName (s : string)
| ByCallable (f : scorer).

(** The [scorers] argument: one string, one callable, or a list. *)
Inductive scorers_arg : Type :=
| ScorersStr (s : string)
| ScorersCallable (f : scorer)
| ScorersList (l : list scoring).

(** An early-stop tolerance argument: one value ([None] or a float) for
    all objectives, or a list with one entry per objective. *)
Inductive tol_arg : Type :=
| TolOne (t : option Q)
| TolList (l : list (option Q)).

(** An objective function is a callable with a [__name__]. *)
Record callable : Type := mk_callable { __name__ : string }.

(** The keyword arguments [fit] passes to the evolver's constructor
    (besides the collaborators: generator, objective, client, selectors). *)
Module EvolverArgs.
Record kwargs : Type := mk_kwargs {
  objective_function_weights : list Q;
  objective_names : list string;
  bigger_is_better : bool;
  population_size : nat;
  initial_population_size : nat;
  early_stop_tol : list (option Q);
  early_stop : option nat;
  early_stop_mins : option Q;
  budget_range : option (Q * Q);
  budget_scaling : Q;
  individuals_until_end_budget : nat;
  stepwise_steps : nat;
  crossover_probability : Q;
  mutate_probability : Q;
  mutate_then_crossover_probability : Q;
  crossover_then_mutate_probability : Q;
  max_evaluated_individuals : option nat;
  max_time_mins : option Q;
  max_eval_time_mins : option Q
}.
End EvolverArgs.

(** A [dask.distributed.Client] that the caller passes in. *)
Inductive dask_client : Type :=
| Client (address : string).

(** A fitted [sklearn.preprocessing.LabelEncoder]. *)
Record LabelEncoder : Type := mk_LabelEncoder { classes_ : list string }.

(** The arguments of [__init__] that the modelled code reads. *)
Record args : Type := mk_args {
  scorers : scorers_arg;
  scorers_weights : list Q;
  other_objective_functions : list callable;
  other_objective_functions_weights : list Q;
  objective_function_names : option (list string);
  bigger_is_better : bool;
  export_graphpipeline : bool;
  preprocessing : bool;
  validation_strategy : string;
  initial_population_size : option nat;
  population_size : nat;
  max_evaluated_individuals : option nat;
  max_time_mins : option Q;
  max_eval_time_mins : option Q;
  early_stop : option nat;
  early_stop_mins : option Q;
  scorers_early_stop_tol : tol_arg;
  other_objectives_early_stop_tol : tol_arg;
  crossover_probability : Q;
  mutate_probability : Q;
  mutate_then_crossover_probability : Q;
  crossover_then_mutate_probability : Q;
  budget_range : option (Q * Q);
  budget_scaling : Q;
  individuals_until_end_budget : nat;
  stepwise_steps : nat;
  warm_start : bool;
  optuna_optimize_pareto_front : bool;
  random_state : option Z;
  classification : bool;
  disable_label_encoder : bool;
  client : option dask_client
}.

(** The signature's defaults, for a given [search_space]. *)
Definition default_args : args :=
  {| scorers := ScorersList [];
     scorers_weights := [];
     other_objective_functions := [];
     other_objective_functions_weights := [];
     objective_function_names := None;
     bigger_is_better := true;
     export_graphpipeline := false;
     preprocessing := false;
     validation_strategy := "none";
     initial_population_size := Some 50%nat;
     population_size := 50%nat;
     max_evaluated_individuals := None;
     max_time_mins := None;
     max_eval_time_mins := Some 10;
     early_stop := None;
     early_stop_mins := None;
     scorers_early_stop_tol := TolOne (Some (1 # 1000));
     other_objectives_early_stop_tol := TolOne None;
     crossover_probability := 2 # 10;
     mutate_probability := 7 # 10;
     mutate_then_crossover_probability := 5 # 100;
     crossover_then_mutate_probability := 5 # 100;
     budget_range := None;
     budget_scaling := 5 # 10;
     individuals_until_end_budget := 1%nat;
     stepwise_steps := 5%nat;
     warm_start := false;
     optuna_optimize_pareto_front := false;
     random_state := None;
     classification := false;
     disable_label_encoder := false;
     client := None |}.

(** A string or a callable stands for the list with that one entry. *)
Definition scorers_as_list (s : scorers_arg) : list scoring :=
  match s with
  | ScorersStr s => [ByName s]
  | ScorersCallable f => [ByCallable f]
  | ScorersList l => l
  end.

(** [f._score_func.__name__ if hasattr(f,"_score_func") else f.__name__] *)
Definition scorer_name (f : scorer) : string :=
  match f with
  | MadeScorer n => n
  | PlainCallable n => n
  end.

(** [[tol for _ in range(n)]] unless the argument is a list already. *)
Definition broadcast_tol (t : tol_arg) (n : nat) : list (option Q) :=
  match t with
  | TolOne v => repeat v n
  | TolList l => l
  end.

Section Objects.
Variable Ind : Type.        (* individuals *)
Variable RngState : Type.   (* the state of a [numpy.random.Generator] *)
Variable Evolver : Type.    (* a [tpot.evolvers.SteadyStateEvolver] *)
Variable Data : Type.       (* the pair [X, y] *)

(** The attributes of the estimator: the arguments as passed
    ([params]) and the derived and fitted attributes. The generator
    [rng] is one object, shared with the evolver and with
    [ind_generator]: its state lives here and is threaded through every
    call that draws from it. *)
Record estimator : Type := mk_estimator {
  params : args;
  rng : RngState;
  _initial_population_size : nat;
  _scorers : list scorer;
  objective_function_weights : list Q;
  objective_names : list string;
  early_stop_tol : list (option Q);
  _evolver_instance : option Evolver;
  evaluated_individuals : option (frame Ind);
  objective_names_for_selection : option (list string);
  selected_best_score : option (nat * row Ind);
  (** the pipeline of an individual, and whether its [fit] returned *)
  fitted_pipeline_ : option (Ind * bool);
  label_encoder_ : option LabelEncoder;
  (** not an attribute: the clusters that [fit] has started and not shut
      down *)
  open_clusters : nat
}.

(** [sklearn.metrics.get_scorer]: a name is looked up in sklearn's
    registry (a [ValueError] when it is not there), a callable is
    returned as it is. *)
Variable scorer_registry : string -> option scorer.

Definition get_scorer (s : scoring) : result scorer :=
  match s with
  | ByName n =>
      match scorer_registry n with
      | Some f => Ok f
      | None => Raise ValueError
      end
  | ByCallable f => Ok f
  end.

(** [numpy.random.default_rng(random_state)]: an integer seed gives the
    state that belongs to it, a negative one a [ValueError]; for [None]
    the state is seeded from the entropy of the system, which a call
    receives as [entropy]. *)
Variable default_rng : Z -> RngState.

Definition seeded (entropy : RngState) (random_state : option Z)
  : result RngState :=
  match random_state with
  | Some seed =>
      if Z.ltb seed 0 then Raise ValueError else Ok (default_rng seed)
  | None => Ok entropy
  end.

Definition __init__ (entropy : RngState) (a : args) : result estimator :=
  rng <- seeded entropy (random_state a) ;;
  let _initial_population_size :=
    match initial_population_size a with
    | None => population_size a
    | Some n => n
    end in
  let _scorers := scorers_as_list (scorers a) in
  _scorers <- mapM get_scorer _scorers ;;
  let objective_function_weights :=
    scorers_weights a ++ other_objective_functions_weights a in
  let obj_names :=
    match objective_function_names a with
    | None => map __name__ (other_objective_functions a)
    | Some names => names
    end in
  let objective_names := map scorer_name _scorers ++ obj_names in
  let _other_objectives_early_stop_tol :=
    broadcast_tol (other_objectives_early_stop_tol a)
                  (List.length (other_objective_functions a)) in
  let _scorers_early_stop_tol :=
    broadcast_tol (scorers_early_stop_tol a) (List.length _scorers) in
  Ok {| params := a;
        rng := rng;
        _initial_population_size := _initial_population_size;
        _scorers := _scorers;
        objective_function_weights := objective_function_weights;
        objective_names := objective_names;
        early_stop_tol :=
          _scorers_early_stop_tol ++ _other_objectives_early_stop_tol;
        _evolver_instance := None;
        evaluated_individuals := None;
        objective_names_for_selection := None;
        selected_best_score := None;
        fitted_pipeline_ := None;
        label_encoder_ := None;
        open_clusters := 0%nat |}.

(** *** [fit]

    The collaborators of [fit] that are not part of this file's
    sources: the evolver, the helpers of [tpot.utils] and the fit of
    the exported pipeline. Each is a function of what it is passed;
    the data [X, y] stand for themselves and for what lines 584 and
    601-651 derive from them (the encoded labels, the split, the
    preprocessing). *)

(** [X.shape] *)
Variable shape : Data -> nat * nat.
(** [tpot.evolvers.SteadyStateEvolver] called with the keyword arguments, drawing from the shared
    generator *)
Variable _evolver :
  EvolverArgs.kwargs -> Data -> RngState -> Evolver * RngState.
(** [evolver.optimize()], drawing from the shared generator *)
Variable optimize : Evolver -> RngState -> Evolver * RngState.
(** [evolver.population.evaluated_individuals], in row order *)
Variable population_evaluated_individuals : Evolver -> frame Ind.
(** [tpot.utils.get_pareto_frontier(df, column_names, weights)]: the
    frame as the call leaves it *)
Variable get_pareto_frontier :
  frame Ind -> list string -> list Q -> frame Ind.
(** [simple_parallel_optuna]: the graphs and their scores *)
Variable simple_parallel_optuna :
  Data -> list Ind -> list (Ind * list cell).
(** [parallel_eval_objective_list] on the validation objective, for the
    resolved validation strategy *)
Variable parallel_eval_objective_list :
  string -> Data -> list Ind -> list (list cell).
(** does [fitted_pipeline_.fit(X_original, y_original)] return? *)
Variable final_fit_ok : Data -> Ind -> bool.
(** [check_if_y_is_encoded(y)] of [estimator_utils] *)
Variable check_if_y_is_encoded : Data -> bool.
(** the labels of [y], as [LabelEncoder().fit(y).classes_] has them *)
Variable labels_of : Data -> list string.

Definition set_evaluated_individuals (self : estimator)
           (v : option (frame Ind)) : estimator :=
  {| params := params self; rng := rng self;
     _initial_population_size := _initial_population_size self;
     _scorers := _scorers self;
     objective_function_weights := objective_function_weights self;
     objective_names := objective_names self;
     early_stop_tol := early_stop_tol self;
     _evolver_instance := _evolver_instance self;
     evaluated_individuals := v;
     objective_names_for_selection := objective_names_for_selection self;
     selected_best_score := selected_best_score self;
     fitted_pipeline_ := fitted_pipeline_ self;
     label_encoder_ := label_encoder_ self;
     open_clusters := open_clusters self |}.

Definition set_evolver_instance (self : estimator)
           (inst : Evolver) (g : RngState) : estimator :=
  {| params := params self; rng := g;
     _initial_population_size := _initial_population_size self;
     _scorers := _scorers self;
     objective_function_weights := objective_function_weights self;
     objective_names := objective_names self;
     early_stop_tol := early_stop_tol self;
     _evolver_instance := Some inst;
     evaluated_individuals := evaluated_individuals self;
     objective_names_for_selection := objective_names_for_selection self;
     selected_best_score := selected_best_score self;
     fitted_pipeline_ := fitted_pipeline_ self;
     label_encoder_ := label_encoder_ self;
     open_clusters := open_clusters self |}.

Definition set_objective_names_for_selection (self : estimator)
           (names : list string) : estimator :=
  {| params := params self; rng := rng self;
     _initial_population_size := _initial_population_size self;
     _scorers := _scorers self;
     objective_function_weights := objective_function_weights self;
     objective_names := objective_names self;
     early_stop_tol := early_stop_tol self;
     _evolver_instance := _evolver_instance self;
     evaluated_individuals := evaluated_individuals self;
     objective_names_for_selection := Some names;
     selected_best_score := selected_best_score self;
     fitted_pipeline_ := fitted_pipeline_ self;
     label_encoder_ := label_encoder_ self;
     open_clusters := open_clusters self |}.

Definition set_selected (self : estimator) (best_idx : nat)
           (r : row Ind) (fitted : bool) : estimator :=
  {| params := params self; rng := rng self;
     _initial_population_size := _initial_population_size self;
     _scorers := _scorers self;
     objective_function_weights := objective_function_weights self;
     objective_names := objective_names self;
     early_stop_tol := early_stop_tol self;
     _evolver_instance := _evolver_instance self;
     evaluated_individuals := evaluated_individuals self;
     objective_names_for_selection := objective_names_for_selection self;
     selected_best_score := Some (best_idx, r);
     fitted_pipeline_ := Some (Individual r, fitted);
     label_encoder_ := label_encoder_ self;
     open_clusters := open_clusters self |}.

(** The keyword arguments of the evolver's constructor. *)
Definition evolver_kwargs (self : estimator) : EvolverArgs.kwargs :=
  let a := params self in
  {| EvolverArgs.objective_function_weights :=
       objective_function_weights self;
     EvolverArgs.objective_names := objective_names self;
     EvolverArgs.bigger_is_better := bigger_is_better a;
     EvolverArgs.population_size := population_size a;
     EvolverArgs.initial_population_size := _initial_population_size self;
     EvolverArgs.early_stop_tol := early_stop_tol self;
     EvolverArgs.early_stop := early_stop a;
     EvolverArgs.early_stop_mins := early_stop_mins a;
     EvolverArgs.budget_range := budget_range a;
     EvolverArgs.budget_scaling := budget_scaling a;
     EvolverArgs.individuals_until_end_budget :=
       individuals_until_end_budget a;
     EvolverArgs.stepwise_steps := stepwise_steps a;
     EvolverArgs.crossover_probability := crossover_probability a;
     EvolverArgs.mutate_probability := mutate_probability a;
     EvolverArgs.mutate_then_crossover_probability :=
       mutate_then_crossover_probability a;
     EvolverArgs.crossover_then_mutate_probability :=
       crossover_then_mutate_probability a;
     EvolverArgs.max_evaluated_individuals :=
       max_evaluated_individuals a;
     EvolverArgs.max_time_mins := max_time_mins a;
     EvolverArgs.max_eval_time_mins := max_eval_time_mins a |}.

(** Lines 588-599. *)
Definition resolve_validation_strategy (a : args) (XY : Data)
  : result string :=
  if String.eqb (validation_strategy a) "auto" then
    let (nrows, ncols) := shape XY in
    if Nat.eqb ncols 0 then Raise ZeroDivisionError
    else
      let ratio :=
        (inject_Z (Z.of_nat nrows) / inject_Z (Z.of_nat ncols))%Q in
      if Qlt_le_dec ratio 20 then Ok "reshuffled"%string
      else if Qlt_le_dec ratio 100 then Ok "split"%string
      else Ok "none"%string
  else Ok (validation_strategy a).

Definition with_instances (df : frame Ind) : frame Ind :=
  {| columns := columns df ++ ["Instance"%string]; rows := rows df |}.

(** [make_evaluated_individuals]: the copy gets the index
    [0 .. len-1] and the column [Instance] (the pipeline of each
    individual, which the frame does not hold as a cell). *)
Definition make_evaluated_individuals : M estimator (option (frame Ind)) :=
  do self <- get_self;
  match evaluated_individuals self with
  | None =>
      match _evolver_instance self with
      | None => lift (Raise AttributeError)
      | Some inst =>
          let df := with_instances
                      (population_evaluated_individuals inst) in
          do _ <- put_self (set_evaluated_individuals self (Some df));
          ret (Some df)
      end
  | Some df => ret (Some df)
  end.

(** The [pareto_front] property. *)
Definition pareto_front (self : estimator) : option (view (row Ind)) :=
  match evaluated_individuals self with
  | None => None
  | Some ei =>
      if negb (has_column ei "Pareto_Front")
      then Some (labelled ei)
      else Some (where_eq_one ei "Pareto_Front")
  end.

(** [pd.concat([ei, df], ignore_index=True)] for the frame [df] of the
    optuna rows, with the columns [Individual], the objectives and
    [Parents]. *)
Definition concat_optuna (ei : frame Ind) (names : list string)
           (graphs : list (Ind * list cell)) : frame Ind :=
  let new_columns := ("Individual" :: names ++ ["Parents"])%string in
  {| columns :=
       columns ei
       ++ filter (fun c => negb (has_column ei c)) new_columns;
     rows :=
       rows ei
       ++ map (fun g => {| Individual := fst g;
                           values := combine names (snd g) |}) graphs |}.

(** [df.loc[labels, names] = scores]: new columns are added, the rows
    that are not assigned read [NaN] there; a [ValueError] when the
    shape of [scores] is not that of the selection. *)
Definition set_cells (r : row Ind) (names : list string)
           (cs : list cell) : row Ind :=
  {| Individual := Individual r; values := combine names cs ++ values r |}.

Fixpoint assign_rows (rs : list (row Ind)) (pos : nat)
         (names : list string) (assignment : list (nat * list cell))
  : list (row Ind) :=
  match rs with
  | [] => []
  | r :: rs' =>
      (match find (fun lc => Nat.eqb (fst lc) pos) assignment with
       | Some lc => set_cells r names (snd lc)
       | None => r
       end) :: assign_rows rs' (S pos) names assignment
  end.

Definition loc_set (df : frame Ind) (labels : list nat)
           (names : list string) (scores : list (list cell))
  : result (frame Ind) :=
  if Nat.eqb (List.length scores) (List.length labels)
     && forallb (fun cs => Nat.eqb (List.length cs) (List.length names))
                scores
  then Ok {| columns :=
               columns df
               ++ filter (fun c => negb (has_column df c)) names;
             rows := assign_rows (rows df) 0 names
                                 (combine labels scores) |}
  else Raise ValueError.

Definition add_column (df : frame Ind) (name : string) : frame Ind :=
  if has_column df name then df
  else {| columns := columns df ++ [name]; rows := rows df |}.

(** Lines 780-792. *)
Definition optuna_step (XY : Data) : M estimator unit :=
  do self <- get_self;
  if optuna_optimize_pareto_front (params self) then
    match pareto_front self, evaluated_individuals self with
    | Some front, Some ei =>
        let all_graphs :=
          simple_parallel_optuna XY
            (map (fun lr => Individual (snd lr)) front) in
        if Nat.ltb 0 (List.length all_graphs) then
          put_self (set_evaluated_individuals self
                      (Some (concat_optuna ei (objective_names self)
                                           all_graphs)))
        else ret tt
    | _, _ => lift (Raise AttributeError)
    end
  else ret tt.

(** Line 794: the helper changes the frame it is passed. *)
Definition pareto_step : M estimator unit :=
  do self <- get_self;
  match evaluated_individuals self with
  | Some ei =>
      put_self (set_evaluated_individuals self
                  (Some (get_pareto_frontier ei (objective_names self)
                           (objective_function_weights self))))
  | None => lift (Raise AttributeError)
  end.

(** Lines 796-897. *)
Definition validation_step (validation_strategy : string) (XY : Data)
  : M estimator unit :=
  do self <- get_self;
  if String.eqb validation_strategy "reshuffled"
     || String.eqb validation_strategy "split"
  then
    match pareto_front self, evaluated_individuals self with
    | Some front, Some ei =>
        let best_pareto_front_idx := index front in
        let best_pareto_front :=
          map (fun lr => Individual (snd lr)) front in
        let val_scores :=
          parallel_eval_objective_list validation_strategy XY
                                       best_pareto_front in
        let val_objective_names :=
          map (String.append "validation_") (objective_names self) in
        let self :=
          set_objective_names_for_selection self val_objective_names in
        do _ <- put_self self;
        do ei <- lift (loc_set ei best_pareto_front_idx
                               val_objective_names val_scores);
        let ei := add_column ei "validation_start_times" in
        let ei := add_column ei "validation_end_times" in
        let ei := add_column ei "validation_eval_errors" in
        do _ <- put_self (set_evaluated_individuals self (Some ei));
        let ei := get_pareto_frontier ei val_objective_names
                    (objective_function_weights self) in
        let ei := add_column ei "Validation_Pareto_Front" in
        put_self (set_evaluated_individuals self (Some ei))
    | _, _ => lift (Raise AttributeError)
    end
  else
    put_self (set_objective_names_for_selection self
                (objective_names self)).

(** Line 899: the rows without a failure marker in the columns used
    for selection, as floats. *)
Definition no_failure_marker (lr : nat * list cell) : bool :=
  negb (existsb is_failure_marker (snd lr)).

Definition val_scores (ei : frame Ind) (names : list string)
  : result (view (list (option Q))) :=
  sub <- select_columns ei names ;;
  mapM (fun lr => v <- mapM astype_float (snd lr) ;; Ok (fst lr, v))
       (filter no_failure_marker sub).

(** The candidates of the final selection in closed form:
    the rows of the frame, in frame order, that carry no failure
    marker in the columns [names], each with its weighted score
    vector. *)
Definition candidates (ei : frame Ind) (names : list string)
           (weights : list Q) : view (list (option Q)) :=
  map (fun lr => (fst lr, zip_with fmul (map to_float (snd lr)) weights))
      (filter no_failure_marker
              (map (fun lr => (fst lr, map (get (snd lr)) names))
                   (labelled ei))).

(** Lines 899-905. *)
Definition best_indices (ei : frame Ind) (names : list string)
           (weights : list Q) (bigger_is_better : bool)
  : result (list nat) :=
  val_scores <- val_scores ei names ;;
  weighted_scores <-
    mul_columns (List.length names) val_scores weights ;;
  Ok (index (sort_values (negb bigger_is_better) weighted_scores)).

(** Lines 907-932: the candidates are tried in turn; the first whose
    fit returns ends the loop. *)
Fixpoint refit_loop (XY : Data) (ei : frame Ind)
         (best_indices : list nat) : M estimator unit :=
  match best_indices with
  | [] => ret tt
  | best_idx :: rest =>
      do r <- lift (loc ei best_idx);
      do self <- get_self;
      do _ <- put_self (set_selected self best_idx r false);
      if final_fit_ok XY (Individual r)
      then put_self (set_selected self best_idx r true)
      else refit_loop XY ei rest
  end.

Definition final_selection (XY : Data) : M estimator unit :=
  do self <- get_self;
  match evaluated_individuals self, objective_names_for_selection self with
  | Some ei, Some names =>
      do best_indices <-
         lift (best_indices ei names (objective_function_weights self)
                            (bigger_is_better (params self)));
      refit_loop XY ei best_indices
  | _, _ => lift (Raise AttributeError)
  end.

(** Lines 728-775. *)
Definition evolve_step (XY : Data) : M estimator unit :=
  do self <- get_self;
  do self <-
     (if negb (warm_start (params self)
               && match _evolver_instance self with
                  | Some _ => true
                  | None => false
                  end)
      then
        let (inst, g) := _evolver (evolver_kwargs self) XY (rng self) in
        let self := set_evolver_instance self inst g in
        do _ <- put_self self; ret self
      else ret self);
  match _evolver_instance self with
  | Some inst =>
      let (inst, g) := optimize inst (rng self) in
      put_self (set_evolver_instance self inst g)
  | None => lift (Raise AttributeError)
  end.

(** Lines 586-777: the search. The table of the last run is dropped
    whatever [warm_start] is; the new table is a copy of the
    evolver's. *)
Definition fit_search (XY : Data) : M estimator string :=
  do self <- get_self;
  do _ <- put_self (set_evaluated_individuals self None);
  do validation_strategy <-
     lift (resolve_validation_strategy (params self) XY);
  do _ <- evolve_step XY;
  do _ <- make_evaluated_individuals;
  ret validation_strategy.

(** Lines 563-584, the attributes after them: without a client passed
    in, a cluster is started; for a classification whose labels are not
    encoded, a new label encoder is fitted on [y] (unless disabled). *)
Definition set_up_state (XY : Data) (self : estimator) : estimator :=
  {| params := params self; rng := rng self;
     _initial_population_size := _initial_population_size self;
     _scorers := _scorers self;
     objective_function_weights := objective_function_weights self;
     objective_names := objective_names self;
     early_stop_tol := early_stop_tol self;
     _evolver_instance := _evolver_instance self;
     evaluated_individuals := evaluated_individuals self;
     objective_names_for_selection := objective_names_for_selection self;
     selected_best_score := selected_best_score self;
     fitted_pipeline_ := fitted_pipeline_ self;
     label_encoder_ :=
       if classification (params self)
          && negb (disable_label_encoder (params self))
          && negb (check_if_y_is_encoded XY)
       then Some {| classes_ := labels_of XY |}
       else label_encoder_ self;
     open_clusters :=
       match client (params self) with
       | Some _ => open_clusters self
       | None => S (open_clusters self)
       end |}.

Definition set_up (XY : Data) : M estimator unit :=
  do self <- get_self;
  put_self (set_up_state XY self).

(** Lines 935-945, reached when nothing raised: the cluster that this
    call started is shut down. *)
Definition shut_down_state (self : estimator) : estimator :=
  {| params := params self; rng := rng self;
     _initial_population_size := _initial_population_size self;
     _scorers := _scorers self;
     objective_function_weights := objective_function_weights self;
     objective_names := objective_names self;
     early_stop_tol := early_stop_tol self;
     _evolver_instance := _evolver_instance self;
     evaluated_individuals := evaluated_individuals self;
     objective_names_for_selection := objective_names_for_selection self;
     selected_best_score := selected_best_score self;
     fitted_pipeline_ := fitted_pipeline_ self;
     label_encoder_ := label_encoder_ self;
     open_clusters :=
       match client (params self) with
       | Some _ => open_clusters self
       | None => Nat.pred (open_clusters self)
       end |}.

Definition shut_down : M estimator unit :=
  do self <- get_self;
  put_self (shut_down_state self).

(** [fit]. Of the attributes that [fit] assigns, the record holds those
    above; [_preprocessing_pipeline], [cv_gen], [feature_names] and
    [_search_space], assigned between lines 618 and 712, are read by the
    collaborators only. *)
Definition fit (XY : Data) : M estimator unit :=
  do _ <- set_up XY;
  do validation_strategy <- fit_search XY;
  do _ <- optuna_step XY;
  do _ <- pareto_step;
  do _ <- validation_step validation_strategy XY;
  do _ <- final_selection XY;
  shut_down.

End Objects.
End Estimator.

(** ** The early-stop monitor

    The monitor is part of the evolver, which is not among the sources of
    this file; the estimator only assembles the list of tolerances
    ([early_stop_tol], lines 542-552) and passes it on with [early_stop]
    and [early_stop_mins]. *)

Module EarlyStop.

(** Modelled from the spec: the early-stop monitor of the evolver
    (section 4.5). One counter state per objective: the tolerance
    ([None] disables the objective), the best score seen, the number of
    records and the seconds since the last improvement. *)
Record objective_state : Type := mk_objective_state {
  tolerance : option Q;
  best_seen : option Q;
  since_improvement_count : nat;
  since_improvement_seconds : Q
}.

(** Modelled from the spec: the start of a run, from the list of
    tolerances the estimator passes ([early_stop_tol]). *)
Definition start (early_stop_tol : list (option Q)) : list objective_state :=
  map (fun tol => {| tolerance := tol; best_seen := None;
                     since_improvement_count := 0%nat;
                     since_improvement_seconds := 0 |})
      early_stop_tol.

(** Modelled from the spec: does the direction-adjusted score [score]
    improve on the best seen by more than the tolerance? A failure marker
    ([None]) improves on nothing; the first score improves on no score. *)
Definition improves (o : objective_state) (score : option Q) : bool :=
  match tolerance o, score with
  | Some tol, Some s =>
      match best_seen o with
      | Some b => if Qlt_le_dec tol (s - b) then true else false
      | None => true
      end
  | _, _ => false
  end.

(** Modelled from the spec: one objective on a new record that arrives
    [elapsed] seconds after the one before: an improvement beyond the
    tolerance resets both counters and updates the best seen, anything
    else increments them. *)
Definition observe_one (elapsed : Q) (score : option Q) (o : objective_state)
  : objective_state :=
  if improves o score then
    {| tolerance := tolerance o; best_seen := score;
       since_improvement_count := 0%nat;
       since_improvement_seconds := 0 |}
  else
    {| tolerance := tolerance o; best_seen := best_seen o;
       since_improvement_count := S (since_improvement_count o);
       since_improvement_seconds := since_improvement_seconds o + elapsed |}.

(** Modelled from the spec: all objectives on a new record, each with its
    own score (a missing score reads as a failure marker). *)
Fixpoint observe (elapsed : Q) (scores : list (option Q))
         (st : list objective_state) : list objective_state :=
  match st with
  | [] => []
  | o :: st' =>
      observe_one elapsed (hd None scores) o
        :: observe elapsed (tl scores) st'
  end.

(** Modelled from the spec: a run is the records in completion order,
    each with the seconds since the one before. *)
Fixpoint run (records : list (Q * list (option Q)))
         (st : list objective_state) : list objective_state :=
  match records with
  | [] => st
  | (elapsed, scores) :: rest => run rest (observe elapsed scores st)
  end.

(** Modelled from the spec: an objective has exceeded the patience
    [early_stop] (records) or [early_stop_mins] (minutes); an objective
    without tolerance is never stalled. *)
Definition stalled_count (patience : nat) (o : objective_state) : bool :=
  match tolerance o with
  | Some _ => Nat.ltb patience (since_improvement_count o)
  | None => false
  end.

Definition stalled_seconds (mins : Q) (o : objective_state) : bool :=
  match tolerance o with
  | Some _ =>
      if Qlt_le_dec (mins * 60) (since_improvement_seconds o)
      then true else false
  | None => false
  end.

(** Modelled from the spec: the global early stop, on the configured
    patience in records or in minutes: every objective is stalled. *)
Definition fires (early_stop : option nat) (early_stop_mins : option Q)
           (st : list objective_state) : bool :=
  match early_stop with
  | Some patience => forallb (stalled_count patience) st
  | None => false
  end
  || match early_stop_mins with
     | Some mins => forallb (stalled_seconds mins) st
     | None => false
     end.

End EarlyStop.

(** ** The budget controller

    The controller is part of the evolver, which is not among the sources
    of this file; the estimator passes [budget_range], [budget_scaling],
    [individuals_until_end_budget] and [stepwise_steps] on to it. *)

Module Budget.
Section Schedule.

(** The exponent of the schedule, [x |-> x ^ budget_scaling] on the unit
    interval; rationals have no such power, so the curve is what the
    schedule is given. *)
Variable scaling_curve : Q -> Q.

Definition of_nat (n : nat) : Q := inject_Z (Z.of_nat n).

(** Modelled from the spec: the progress of the run (section 4.4),
    [n / individuals_until_end_budget], frozen at 1 once that many
    individuals are submitted. *)
Definition progress (individuals_until_end_budget n : nat) : Q :=
  if Nat.leb individuals_until_end_budget n then 1
  else of_nat n / of_nat individuals_until_end_budget.

(** Modelled from the spec: the staircase with [stepwise_steps] plateaus
    (section 4.4). *)
Definition staircase (stepwise_steps : nat) (x : Q) : Q :=
  inject_Z (Qfloor (x * of_nat stepwise_steps)) / of_nat stepwise_steps.

(** Modelled from the spec: [f], the staircase under the exponent
    (section 4.4). *)
Definition f (stepwise_steps : nat) (x : Q) : Q :=
  scaling_curve (staircase stepwise_steps x).

(** Modelled from the spec: clamping to the interval of the two ends of
    [budget_range], whichever is the smaller (section 4.4). *)
Definition lower (start stop : Q) : Q :=
  if Qlt_le_dec stop start then stop else start.

Definition upper (start stop : Q) : Q :=
  if Qlt_le_dec stop start then start else stop.

Definition clamp (lo hi v : Q) : Q :=
  if Qlt_le_dec v lo then lo
  else if Qlt_le_dec hi v then hi
  else v.

(** Modelled from the spec: the budget in force for the [n]-th submitted
    individual (section 4.4),
    [start + (end - start) * f (n / individuals_until_end_budget)],
    clamped. *)
Definition budget (budget_range : Q * Q)
           (individuals_until_end_budget stepwise_steps n : nat) : Q :=
  let (start, stop) := budget_range in
  clamp (lower start stop) (upper start stop)
        (start + (stop - start)
                 * f stepwise_steps
                     (progress individuals_until_end_budget n)).

End Schedule.
End Budget.

(** ** The steady-state loop

    The loop is part of the evolver, which is not among the sources of
    this file. What the estimator fixes is the configuration of the loop,
    the keyword arguments of lines 730-771, and its generator: [fit]
    passes the one object [self.rng] both to [ind_generator] (lines
    714-717, where [default_rng] of a generator is that generator) and to
    the evolver (line 771), so that the loop has one generator state. *)

Module SteadyState.
Import Estimator.

(** Modelled from the spec: the result of an evaluation (sections 4.2 and
    7): a score vector, [TIMEOUT] for an evaluation past its deadline,
    [INVALID] for one that raised. *)
Inductive outcome : Type :=
| Scored (scores : list Q)
| Timeout
| Invalid.

(** Modelled from the spec: what a run meets from outside (sections 4.1,
    4.2 and 5), by the number [k] of records before a completion: the
    seconds the completing evaluation ran, the seconds since the
    completion before, and whether the cancellation signal has come. *)
Record world : Type := mk_world {
  duration : nat -> Q;
  elapsed : nat -> Q;
  cancelled : nat -> bool
}.

Section Loop.
Variables Ind RngState : Type.

(** [self._search_space.generate(rng)] *)
Variable generate : RngState -> Ind * RngState.
(** Modelled from the spec: parent selection and variation (sections 4.1
    and 4.3) on the records so far, drawing from the generator. *)
Variable vary : list (Ind * outcome) -> RngState -> Ind * RngState.
(** Modelled from the spec: the objective function on a worker (section
    6), which scores the individual or raises. *)
Variable objective : Ind -> outcome.
(** The keyword arguments that [fit] passes to the evolver. *)
Variable kw : EvolverArgs.kwargs.
Variable w : world.
Variable concurrency : nat.

(** Modelled from the spec: the state of the control loop (sections 4.1,
    4.5 and 5): the generator, the records in completion order, the
    evaluations in flight, the individuals in the order they were
    generated, the seconds since the start and the early-stop monitor. *)
Record state : Type := mk_state {
  rng : RngState;
  store : list (Ind * outcome);
  in_flight : list Ind;
  generated : list Ind;
  clock : Q;
  monitor : list EarlyStop.objective_state
}.

(** Modelled from the spec: the start of a run, from the state of the
    estimator's generator. *)
Definition init (g : RngState) : state :=
  {| rng := g; store := []; in_flight := []; generated := [];
     clock := 0;
     monitor := EarlyStop.start (EvolverArgs.early_stop_tol kw) |}.

(** Modelled from the spec: the dispatcher's deadline (section 4.2): an
    evaluation that ran longer than [max_eval_time_mins] resolves to
    [TIMEOUT], whatever the objective function would have returned. *)
Definition evaluate (k : nat) (ind : Ind) : outcome :=
  match EvolverArgs.max_eval_time_mins kw with
  | Some mins =>
      if Qlt_le_dec (mins * 60) (duration w k) then Timeout
      else objective ind
  | None => objective ind
  end.

(** Modelled from the spec: the direction-adjusted scores of a record for
    the monitor (sections 4.3 and 4.5); a failure has none. *)
Definition adjusted (o : outcome) : list (option Q) :=
  match o with
  | Scored scores =>
      map Some (Pandas.zip_with Qmult scores
                                (EvolverArgs.objective_function_weights kw))
  | _ => []
  end.

(** Modelled from the spec: the termination predicates (section 4.1):
    the wall-clock budget, the number of evaluated individuals, the early
    stop, the cancellation signal. *)
Definition terminating (s : state) : bool :=
  match EvolverArgs.max_time_mins kw with
  | Some mins => if Qlt_le_dec (clock s) (mins * 60) then false else true
  | None => false
  end
  || match EvolverArgs.max_evaluated_individuals kw with
     | Some n => Nat.leb n (List.length (store s))
     | None => false
     end
  || EarlyStop.fires (EvolverArgs.early_stop kw)
                     (EvolverArgs.early_stop_mins kw) (monitor s)
  || cancelled w (List.length (store s)).

(** Modelled from the spec: a completion (section 4.1, STEADY): the record
    is appended, the clock and the monitor are brought up to date. *)
Definition record (s : state) (ind : Ind) (others : list Ind) : state :=
  let k := List.length (store s) in
  {| rng := rng s;
     store := store s ++ [(ind, evaluate k ind)];
     in_flight := others;
     generated := generated s;
     clock := clock s + elapsed w k;
     monitor := EarlyStop.observe (elapsed w k) (adjusted (evaluate k ind))
                                  (monitor s) |}.

(** Modelled from the spec: after the record, past the warm-up and
    unless the run terminates, one offspring is made from the records
    and submitted. *)
Definition complete (s : state) (ind : Ind) (others : list Ind) : state :=
  let s' := record s ind others in
  if negb (terminating s')
     && Nat.leb (EvolverArgs.initial_population_size kw)
                (List.length (generated s))
  then
    let (child, g) := vary (store s') (rng s) in
    {| rng := g; store := store s';
       in_flight := others ++ [child];
       generated := generated s ++ [child];
       clock := clock s'; monitor := monitor s' |}
  else s'.

(** Modelled from the spec: one step of the loop (sections 4.1 and 5).
    During the warm-up a free worker gets a generated individual; any of
    the evaluations in flight may be the next to complete. *)
Inductive step : state -> state -> Prop :=
| step_warmup (s : state) (ind : Ind) (g : RngState) :
    terminating s = false ->
    (List.length (generated s) < EvolverArgs.initial_population_size kw)%nat ->
    (List.length (in_flight s) < concurrency)%nat ->
    generate (rng s) = (ind, g) ->
    step s {| rng := g; store := store s;
              in_flight := in_flight s ++ [ind];
              generated := generated s ++ [ind];
              clock := clock s; monitor := monitor s |}
| step_complete (s : state) (before : list Ind) (ind : Ind)
                (after : list Ind) :
    in_flight s = before ++ ind :: after ->
    step s (complete s ind (before ++ after)).

(** [n] steps. *)
Inductive steps : nat -> state -> state -> Prop :=
| steps_O (s : state) : steps 0 s s
| steps_S (n : nat) (s s' s'' : state) :
    step s s' -> steps n s' s'' -> steps (S n) s s''.

End Loop.
End SteadyState.

(** ** Dominance

    The column [Pareto_Front] is written by
    [tpot.utils.get_pareto_frontier] (line 794), which is not among the
    sources of this file; the estimator only reads it. *)

Module Pareto.
Import Pandas.
Section Dominance.
Variable Ind : Type.










End Dominance.
End Pareto.

(** ** A concrete run

    One objective, two individuals [0] and [1]: the evaluation of [0]
    scored 9/10, that of [1] timed out. The collaborators are as simple as
    the run allows: the evolver's state is its table, [optimize] draws once
    from the generator and leaves the table as it is, the front is the row
    with scores (there is one), validation scores every individual 8/10,
    and the final fit of individual [0] raises. *)

Module Example.
Import Pandas Estimator.

(** The defaults of the signature, but for one scorer (a callable named
    [score]), its weights, the validation strategy, [warm_start], the
    four probabilities and the seed. *)
Definition args_of (strategy : string) (warm : bool) (weights : list Q)
           (crossover mutate mutate_then_crossover crossover_then_mutate : Q)
  : args :=
  {| scorers := ScorersCallable (PlainCallable "score");
     scorers_weights := weights;
     other_objective_functions := other_objective_functions default_args;
     other_objective_functions_weights :=
       other_objective_functions_weights default_args;
     objective_function_names := objective_function_names default_args;
     bigger_is_better := bigger_is_better default_args;
     export_graphpipeline := export_graphpipeline default_args;
     preprocessing := preprocessing default_args;
     validation_strategy := strategy;
     initial_population_size := initial_population_size default_args;
     population_size := population_size default_args;
     max_evaluated_individuals := max_evaluated_individuals default_args;
     max_time_mins := max_time_mins default_args;
     max_eval_time_mins := max_eval_time_mins default_args;
     early_stop := early_stop default_args;
     early_stop_mins := early_stop_mins default_args;
     scorers_early_stop_tol := scorers_early_stop_tol default_args;
     other_objectives_early_stop_tol :=
       other_objectives_early_stop_tol default_args;
     crossover_probability := crossover;
     mutate_probability := mutate;
     mutate_then_crossover_probability := mutate_then_crossover;
     crossover_then_mutate_probability := crossover_then_mutate;
     budget_range := budget_range default_args;
     budget_scaling := budget_scaling default_args;
     individuals_until_end_budget :=
       individuals_until_end_budget default_args;
     stepwise_steps := stepwise_steps default_args;
     warm_start := warm;
     optuna_optimize_pareto_front :=
       optuna_optimize_pareto_front default_args;
     random_state := Some 42%Z;
     classification := classification default_args;
     disable_label_encoder := disable_label_encoder default_args;
     client := client default_args |}.

Definition args_with (strategy : string) (warm : bool) : args :=
  args_of strategy warm [1]
          (crossover_probability default_args)
          (mutate_probability default_args)
          (mutate_then_crossover_probability default_args)
          (crossover_then_mutate_probability default_args).

(** Probabilities that sum to 2, one of them negative, and no weight for
    the one objective. *)
Definition malformed_args : args :=
  args_of "none" false [] (7 # 10) (7 # 10) (7 # 10) (- (1 # 10)).

Definition scorer_registry (name : string) : option scorer := None.

Definition default_rng (seed : Z) : nat := 0%nat.

Definition scored : row nat :=
  {| Individual := 0%nat;
     values := [("score", Float (9 # 10)); ("Pareto_Front", Float 1)]
  |}%string.

Definition timed_out : row nat :=
  {| Individual := 1%nat;
     values := [("score", TIMEOUT); ("Pareto_Front", NaN)] |}%string.

Definition table : frame nat :=
  {| columns := ["Individual"; "score"; "Pareto_Front"]%string;
     rows := [scored; timed_out] |}.

(** A table whose column [Pareto_Front] holds the numbers 0 and 1. *)
Definition rank_zero : row nat :=
  {| Individual := 0%nat;
     values := [("score", Float (9 # 10)); ("Pareto_Front", Float 0)]
  |}%string.

Definition rank_one : row nat :=
  {| Individual := 1%nat;
     values := [("score", Float (5 # 10)); ("Pareto_Front", Float 1)]
  |}%string.

Definition ranked : frame nat :=
  {| columns := ["Individual"; "score"; "Pareto_Front"]%string;
     rows := [rank_zero; rank_one] |}.

(** Three scored rows, for the order of the candidates. *)
Definition with_score (ind : nat) (q : Q) : row nat :=
  {| Individual := ind; values := [("score"%string, Float q)] |}.

Definition three_scored : frame nat :=
  {| columns := ["Individual"; "score"]%string;
     rows := [with_score 0 (5 # 10); with_score 1 (9 # 10);
              with_score 2 (7 # 10)] |}.

Definition shape (XY : unit) : nat * nat := (100%nat, 5%nat).

Definition _evolver (kw : EvolverArgs.kwargs) (XY : unit) (g : nat)
  : frame nat * nat := (table, g).

Definition optimize (e : frame nat) (g : nat) : frame nat * nat :=
  (e, S g).

Definition population_evaluated_individuals (e : frame nat) : frame nat :=
  e.

Definition all_floats (r : row nat) (names : list string) : bool :=
  forallb (fun name => match get r name with
                       | Float _ => true
                       | _ => false
                       end) names.

Definition get_pareto_frontier (df : frame nat) (names : list string)
           (weights : list Q) : frame nat :=
  {| columns := columns (add_column df "Pareto_Front");
     rows :=
       map (fun r =>
              {| Individual := Individual r;
                 values :=
                   ("Pareto_Front"%string,
                    if all_floats r names then Float 1 else NaN)
                     :: filter (fun kv =>
                                  negb (String.eqb (fst kv) "Pareto_Front"))
                               (values r) |})
           (rows df) |}.

Definition simple_parallel_optuna (XY : unit) (inds : list nat)
  : list (nat * list cell) := [].

Definition parallel_eval_objective_list (strategy : string) (XY : unit)
           (inds : list nat) : list (list cell) :=
  map (fun _ => [Float (8 # 10)]) inds.

Definition final_fit_ok (XY : unit) (ind : nat) : bool := Nat.eqb ind 1.

Definition check_if_y_is_encoded (XY : unit) : bool := true.

Definition labels_of (XY : unit) : list string := [].

Definition fit :=
  Estimator.fit shape _evolver optimize population_evaluated_individuals
                get_pareto_frontier simple_parallel_optuna
                parallel_eval_objective_list final_fit_ok
                check_if_y_is_encoded labels_of.

Definition fit_search :=
  Estimator.fit_search shape _evolver optimize
                       population_evaluated_individuals.

Definition init (a : args) : result (estimator nat nat (frame nat)) :=
  __init__ nat (frame nat) scorer_registry default_rng 7%nat a.

(** A loop whose individuals are numbers: the generator hands out its
    state, an offspring is the state plus 100 for every record with
    scores, the score of an individual is the individual. In the world
    [on_time] every evaluation takes a second; in the world [first_late]
    the first takes eleven minutes. *)
Definition generate (g : nat) : nat * nat := (g, S g).

Definition has_scores (record : nat * SteadyState.outcome) : bool :=
  match snd record with
  | SteadyState.Scored _ => true
  | _ => false
  end.

Definition vary (records : list (nat * SteadyState.outcome)) (g : nat)
  : nat * nat :=
  ((g + 100 * List.length (filter has_scores records))%nat, S g).

Definition objective (ind : nat) : SteadyState.outcome :=
  SteadyState.Scored [inject_Z (Z.of_nat ind)].

Definition on_time : SteadyState.world :=
  {| SteadyState.duration := fun _ => 1;
     SteadyState.elapsed := fun _ => 1;
     SteadyState.cancelled := fun _ => false |}.

Definition first_late : SteadyState.world :=
  {| SteadyState.duration := fun k => if Nat.eqb k 0 then 660 else 1;
     SteadyState.elapsed := fun k => if Nat.eqb k 0 then 660 else 1;
     SteadyState.cancelled := fun _ => false |}.

(** The arguments of the concrete run with an initial population of two
    and at most three evaluated individuals. *)
Definition loop_args : args :=
  let a := args_with "none" false in
  {| scorers := scorers a;
     scorers_weights := scorers_weights a;
     other_objective_functions := other_objective_functions a;
     other_objective_functions_weights := other_objective_functions_weights a;
     objective_function_names := objective_function_names a;
     bigger_is_better := bigger_is_better a;
     export_graphpipeline := export_graphpipeline a;
     preprocessing := preprocessing a;
     validation_strategy := validation_strategy a;
     initial_population_size := Some 2%nat;
     population_size := population_size a;
     max_evaluated_individuals := Some 3%nat;
     max_time_mins := max_time_mins a;
     max_eval_time_mins := max_eval_time_mins a;
     early_stop := early_stop a;
     early_stop_mins := early_stop_mins a;
     scorers_early_stop_tol := scorers_early_stop_tol a;
     other_objectives_early_stop_tol := other_objectives_early_stop_tol a;
     crossover_probability := crossover_probability a;
     mutate_probability := mutate_probability a;
     mutate_then_crossover_probability := mutate_then_crossover_probability a;
     crossover_then_mutate_probability := crossover_then_mutate_probability a;
     budget_range := budget_range a;
     budget_scaling := budget_scaling a;
     individuals_until_end_budget := individuals_until_end_budget a;
     stepwise_steps := stepwise_steps a;
     warm_start := warm_start a;
     optuna_optimize_pareto_front := optuna_optimize_pareto_front a;
     random_state := random_state a;
     classification := classification a;
     disable_label_encoder := disable_label_encoder a;
     client := client a |}.

(** The loop of an estimator, in a world and with a limit on the
    evaluations in flight, from the state of the estimator's generator. *)
Definition loop_steps (self : estimator nat nat (frame nat))
           (w : SteadyState.world) (concurrency : nat) (n : nat)
           (s : SteadyState.state nat nat) : Prop :=
  SteadyState.steps generate vary objective (evolver_kwargs self) w
                    concurrency n
                    (SteadyState.init nat (evolver_kwargs self)
                                      (Estimator.rng self)) s.

(** The exponent 2 of the budget schedule. *)
Definition square (x : Q) : Q := x * x.

(** The scenario of the spec for the early stop: patience 3, tolerance 0,
    the scores 0.1, 0.2, 0.2, 0.2, 0.2 of one objective, a second apart. *)
Definition scenario : list (Q * list (option Q)) :=
  map (fun q => (1, [Some q]))
      [1 # 10; 2 # 10; 2 # 10; 2 # 10; 2 # 10].

(** The attributes with a given table, ready for the final selection
    on the columns [names]. *)
Definition ready (df : frame nat) (names : list string)
  : option (estimator nat nat (frame nat)) :=
  match init (args_with "none" false) with
  | Ok self =>
      Some (set_objective_names_for_selection
              (set_evaluated_individuals self (Some df)) names)
  | Raise _ => None
  end.

(** The attributes after [__init__] and one [fit]. *)
Definition fitted (a : args) : option (estimator nat nat (frame nat)) :=
  match init a with
  | Ok self =>
      match fit tt self with
      | (Ok _, self') => Some self'
      | _ => None
      end
  | Raise _ => None
  end.

End Example.

(** ** What a method leaves alone *)

Module Attributes.
Import Estimator.
Section Kept.
Variables Ind RngState Evolver : Type.

(** The attributes that [__init__] sets from the arguments: the
    parameters and what is derived from them. *)
Definition configuration (self : estimator Ind RngState Evolver)
  : args * nat * list scorer * list Q * list string * list (option Q) :=
  (params self, _initial_population_size self, _scorers self,
   objective_function_weights self, objective_names self,
   early_stop_tol self).

(** A method keeps the configuration, also when it raises. *)
Definition keeps {A : Type} (m : M (estimator Ind RngState Evolver) A)
  : Prop :=
  forall self, configuration (snd (m self)) = configuration self.

(** The attributes that a search leaves: an evolver and a table. *)
Definition searched (self : estimator Ind RngState Evolver) : Prop :=
  (exists inst, _evolver_instance self = Some inst) /\
  (exists ei, evaluated_individuals self = Some ei).

(** The columns of the final selection are the objectives or their
    validation columns. *)
Definition selection_on_objectives (self : estimator Ind RngState Evolver)
  : Prop :=
  objective_names_for_selection self = Some (objective_names self) \/
  objective_names_for_selection self
  = Some (map (String.append "validation_") (objective_names self)).

(** What the final selection does not write. *)
Definition search_result (self : estimator Ind RngState Evolver)
  : option Evolver * option (Pandas.frame Ind) * option (list string)
    * list string :=
  (_evolver_instance self, evaluated_individuals self,
   objective_names_for_selection self, objective_names self).

End Kept.
End Attributes.

(** ** [fit]: the set-up before the search *)

Module FitSetup.

(** Lines 567-572: the log level of the cluster that [fit] starts when
    no client was passed in. *)
Definition silence_logs (verbose : Z) : Z :=
  if Z.leb 4 verbose then 30
  else if Z.leb 5 verbose then 40
  else 50.

(** What a column transformer of [tpot.builtin_modules] is applied to:
    the columns given by name or index, or the columns of a kind. *)
Inductive columns_choice : Type :=
| Listed (features : list string)
| Numeric
| Categorical
| AllColumns.

(** A step of the default preprocessing pipeline. *)
Inductive transformer : Type :=
| ColumnSimpleImputer (columns : columns_choice) (strategy : string)
| ColumnOneHotEncoder (columns : columns_choice) (strategy : string).

(** The argument [preprocessing]: a bool, an estimator with its truth
    value (a [Pipeline] without steps is false), or any other object, of
    which only the truth value is read. *)
Inductive preprocessing_arg (P : Type) : Type :=
| PreBool (b : bool)
| PreEstimator (p : P) (truthy : bool)
| PreOther (truthy : bool).

Arguments PreBool {P} b.
Arguments PreEstimator {P} p truthy.
Arguments PreOther {P} truthy.

(** [self._preprocessing_pipeline]: [None], the estimator that was passed
    in, or a [Pipeline] of named steps. *)
Inductive preprocessing_pipeline (P : Type) : Type :=
| NoPipeline
| Given (p : P)
| Pipeline (steps : list (string * transformer)).

Arguments NoPipeline {P}.
Arguments Given {P} p.
Arguments Pipeline {P} steps.

(** [if self.preprocessing:] *)
Definition truth {P : Type} (a : preprocessing_arg P) : bool :=
  match a with
  | PreBool b => b
  | PreEstimator _ t => t
  | PreOther t => t
  end.

(** Lines 627-644: the steps of the default pipeline, for the argument
    [categorical_features] and for [X]: whether it is a data frame and
    which of its columns have the dtype [object]. *)
Definition pipeline_steps (categorical_features : option (list string))
           (X_is_DataFrame : bool) (object_columns : list string)
  : list (string * transformer) :=
  match categorical_features with
  | Some features =>
      [("impute_categorical",
        ColumnSimpleImputer (Listed features) "most_frequent");
       ("impute_numeric", ColumnSimpleImputer Numeric "mean");
       ("ColumnOneHotEncoder",
        ColumnOneHotEncoder (Listed features) "most_frequent")]%string
  | None =>
      if X_is_DataFrame then
        if Nat.ltb 0 (List.length object_columns) then
          [("impute_categorical",
            ColumnSimpleImputer Categorical "most_frequent");
           ("impute_numeric", ColumnSimpleImputer Numeric "mean");
           ("ColumnOneHotEncoder",
            ColumnOneHotEncoder Categorical "most_frequent")]%string
        else [("impute_numeric", ColumnSimpleImputer AllColumns "mean")]%string
      else [("impute_numeric", ColumnSimpleImputer AllColumns "mean")]%string
  end.

(** Lines 618-651. *)
Definition make_preprocessing_pipeline {P : Type}
           (preprocessing : preprocessing_arg P)
           (categorical_features : option (list string))
           (X_is_DataFrame : bool) (object_columns : list string)
  : preprocessing_pipeline P :=
  if truth preprocessing then
    match preprocessing with
    | PreEstimator p _ => Given p
    | _ => Pipeline (pipeline_steps categorical_features X_is_DataFrame
                                    object_columns)
    end
  else NoPipeline.

Definition is_imputer (t : transformer) : bool :=
  match t with
  | ColumnSimpleImputer _ _ => true
  | ColumnOneHotEncoder _ _ => false
  end.

Definition columns_of (t : transformer) : columns_choice :=
  match t with
  | ColumnSimpleImputer c _ => c
  | ColumnOneHotEncoder c _ => c
  end.

End FitSetup.

(** ** [setup.py] *)

Module Setup.

(** [s.split(sep)] for a separator of one character. *)
Fixpoint split (sep : Ascii.ascii) (s : string) : list string :=
  match s with
  | EmptyString => [EmptyString]
  | String c s' =>
      if Ascii.eqb c sep then EmptyString :: split sep s'
      else match split sep s' with
           | piece :: pieces => String c piece :: pieces
           | [] => [String c EmptyString]
           end
  end.

(** [sub in s] *)
Fixpoint contains (sub s : string) : bool :=
  String.prefix sub s
  || match s with
     | EmptyString => false
     | String _ s' => contains sub s'
     end.

Definition newline : Ascii.ascii := Ascii.ascii_of_nat 10.
Definition quote : Ascii.ascii := Ascii.ascii_of_nat 39.

(** [calculate_version], on the text of [tpot/_version.py]: the piece
    after the first quote of the first line that mentions [__version__];
    both [[0]] and [[1]] raise an [IndexError] past the end. *)
Definition calculate_version (text : string) : result string :=
  let initpy := split newline text in
  match filter (contains "__version__") initpy with
  | [] => Raise IndexError
  | line :: _ =>
      match split quote line with
      | _ :: version :: _ => Ok version
      | _ => Raise IndexError
      end
  end.

(** [sep.join(pieces)] for a separator of one character. *)
Fixpoint join (sep : Ascii.ascii) (pieces : list string) : string :=
  match pieces with
  | [] => EmptyString
  | [piece] => piece
  | piece :: rest => String.append piece (String sep (join sep rest))
  end.

(** [c in s] *)
Fixpoint has_char (c : Ascii.ascii) (s : string) : bool :=
  match s with
  | EmptyString => false
  | String c' s' => Ascii.eqb c' c || has_char c s'
  end.

End Setup.

(** ** Further concrete inputs *)

Module Samples.
Import Pandas Estimator.

(** Attributes without a run, for when the constructor raises. *)
Definition blank : estimator nat nat (frame nat) :=
  {| params := Example.args_with "none" false;
     rng := 0%nat;
     _initial_population_size := 50%nat;
     _scorers := [];
     objective_function_weights := [];
     objective_names := [];
     early_stop_tol := [];
     _evolver_instance := None;
     evaluated_individuals := None;
     objective_names_for_selection := None;
     selected_best_score := None;
     fitted_pipeline_ := None;
     label_encoder_ := None;
     open_clusters := 0%nat |}.

(** The estimator as the constructor returns it for a validation
    strategy. *)
Definition constructed (strategy : string) : estimator nat nat (frame nat) :=
  match Example.init (Example.args_with strategy false) with
  | Ok self => self
  | Raise _ => blank
  end.

(** The same with the table of the concrete run in place. *)
Definition with_table (strategy : string) : estimator nat nat (frame nat) :=
  set_evaluated_individuals (constructed strategy) (Some Example.table).

(** The estimator as the constructor returns it for the arguments of
    the loop. *)
Definition loop_estimator : estimator nat nat (frame nat) :=
  match Example.init Example.loop_args with
  | Ok self => self
  | Raise _ => blank
  end.






(** The estimator with the weight -1 for its one objective, ready for
    the final selection on the table [three_scored]. *)
Definition ready_negated : estimator nat nat (frame nat) :=
  match Example.init
          (Example.args_of "none" false [- (1)]
             (crossover_probability default_args)
             (mutate_probability default_args)
             (mutate_then_crossover_probability default_args)
             (crossover_then_mutate_probability default_args)) with
  | Ok self =>
      set_objective_names_for_selection
        (set_evaluated_individuals self (Some Example.three_scored))
        ["score"%string]
  | Raise _ => blank
  end.

(** A table of 90 rows and 5 columns, and one without columns. *)
Definition shape_90_5 (XY : unit) : nat * nat := (90%nat, 5%nat).
Definition shape_no_columns (XY : unit) : nat * nat := (90%nat, 0%nat).

(** The same arguments with optuna switched on. *)
Definition optuna_on (a : args) : args :=
  {| scorers := scorers a;
     scorers_weights := scorers_weights a;
     other_objective_functions := other_objective_functions a;
     other_objective_functions_weights := other_objective_functions_weights a;
     objective_function_names := objective_function_names a;
     bigger_is_better := bigger_is_better a;
     export_graphpipeline := export_graphpipeline a;
     preprocessing := preprocessing a;
     validation_strategy := validation_strategy a;
     initial_population_size := initial_population_size a;
     population_size := population_size a;
     max_evaluated_individuals := max_evaluated_individuals a;
     max_time_mins := max_time_mins a;
     max_eval_time_mins := max_eval_time_mins a;
     early_stop := early_stop a;
     early_stop_mins := early_stop_mins a;
     scorers_early_stop_tol := scorers_early_stop_tol a;
     other_objectives_early_stop_tol := other_objectives_early_stop_tol a;
     crossover_probability := crossover_probability a;
     mutate_probability := mutate_probability a;
     mutate_then_crossover_probability := mutate_then_crossover_probability a;
     crossover_then_mutate_probability := crossover_then_mutate_probability a;
     budget_range := budget_range a;
     budget_scaling := budget_scaling a;
     individuals_until_end_budget := individuals_until_end_budget a;
     stepwise_steps := stepwise_steps a;
     warm_start := warm_start a;
     optuna_optimize_pareto_front := true;
     random_state := random_state a;
     classification := classification a;
     disable_label_encoder := disable_label_encoder a;
     client := client a |}.

Definition with_table_and_optuna : estimator nat nat (frame nat) :=
  match Example.init (optuna_on (Example.args_with "none" false)) with
  | Ok self => set_evaluated_individuals self (Some Example.table)
  | Raise _ => blank
  end.

(** The same arguments for a classification. *)
Definition classification_on (a : args) : args :=
  {| scorers := scorers a;
     scorers_weights := scorers_weights a;
     other_objective_functions := other_objective_functions a;
     other_objective_functions_weights := other_objective_functions_weights a;
     objective_function_names := objective_function_names a;
     bigger_is_better := bigger_is_better a;
     export_graphpipeline := export_graphpipeline a;
     preprocessing := preprocessing a;
     validation_strategy := validation_strategy a;
     initial_population_size := initial_population_size a;
     population_size := population_size a;
     max_evaluated_individuals := max_evaluated_individuals a;
     max_time_mins := max_time_mins a;
     max_eval_time_mins := max_eval_time_mins a;
     early_stop := early_stop a;
     early_stop_mins := early_stop_mins a;
     scorers_early_stop_tol := scorers_early_stop_tol a;
     other_objectives_early_stop_tol := other_objectives_early_stop_tol a;
     crossover_probability := crossover_probability a;
     mutate_probability := mutate_probability a;
     mutate_then_crossover_probability := mutate_then_crossover_probability a;
     crossover_then_mutate_probability := crossover_then_mutate_probability a;
     budget_range := budget_range a;
     budget_scaling := budget_scaling a;
     individuals_until_end_budget := individuals_until_end_budget a;
     stepwise_steps := stepwise_steps a;
     warm_start := warm_start a;
     optuna_optimize_pareto_front := optuna_optimize_pareto_front a;
     random_state := random_state a;
     classification := true;
     disable_label_encoder := disable_label_encoder a;
     client := client a |}.

(** A classifier with the table of the concrete run, the strategy [auto]
    and labels [cat] and [dog], which are not encoded. *)
Definition classifier : estimator nat nat (frame nat) :=
  match Example.init (classification_on (Example.args_with "auto" false)) with
  | Ok self => set_evaluated_individuals self (Some Example.table)
  | Raise _ => blank
  end.

Definition not_encoded (XY : unit) : bool := false.

Definition cat_and_dog (XY : unit) : list string := ["cat"; "dog"]%string.

(** Optuna returns one graph, the individual 7 with the score 0.95. *)
Definition one_graph (XY : unit) (inds : list nat)
  : list (nat * list cell) := [(7%nat, [Float (95 # 100)])].

(** A table in which every evaluation failed. *)
Definition invalid : row nat :=
  {| Individual := 0%nat; values := [("score"%string, INVALID)] |}.

Definition all_failed : frame nat :=
  {| columns := ["Individual"; "score"]%string;
     rows := [invalid; Example.timed_out] |}.

Definition ready_all_failed : estimator nat nat (frame nat) :=
  set_objective_names_for_selection
    (set_evaluated_individuals (constructed "none") (Some all_failed))
    ["score"%string].

(** Tolerances passed as lists. *)
Definition args_with_tolerance_lists : args :=
  {| scorers := scorers (Example.args_with "none" false);
     scorers_weights := [1];
     other_objective_functions := [];
     other_objective_functions_weights := [];
     objective_function_names := None;
     bigger_is_better := true;
     export_graphpipeline := false;
     preprocessing := false;
     validation_strategy := "none";
     initial_population_size := None;
     population_size := 50%nat;
     max_evaluated_individuals := None;
     max_time_mins := None;
     max_eval_time_mins := Some 10;
     early_stop := Some 3%nat;
     early_stop_mins := None;
     scorers_early_stop_tol := TolList [Some (1 # 100); Some (1 # 10)];
     other_objectives_early_stop_tol := TolList [None];
     crossover_probability := 2 # 10;
     mutate_probability := 7 # 10;
     mutate_then_crossover_probability := 5 # 100;
     crossover_then_mutate_probability := 5 # 100;
     budget_range := None;
     budget_scaling := 5 # 10;
     individuals_until_end_budget := 1%nat;
     stepwise_steps := 5%nat;
     warm_start := false;
     optuna_optimize_pareto_front := false;
     random_state := None;
     classification := false;
     disable_label_encoder := false;
     client := None |}.

(** A row with [NaN] in the column of the selection, between two rows
    with scores. *)
Definition without_score : row nat :=
  {| Individual := 1%nat; values := [] |}.

Definition scored_and_not : frame nat :=
  {| columns := ["Individual"; "score"]%string;
     rows := [Example.with_score 0 (5 # 10); without_score;
              Example.with_score 2 (7 # 10)] |}.

(** The lines of a [_version.py]. *)
Definition version_line : string := "__version__ = '1.0.4'".
Definition double_quoted_line : string :=
  String.append "__version__ = "
                (String (Ascii.ascii_of_nat 34)
                        (String.append "1.0.4"
                                       (String (Ascii.ascii_of_nat 34) ""))).

End Samples.

(** * Theorems *)

(** C9: [Passthrough.transform] returns its input unchanged,
    [Passthrough.fit] returns [self] and leaves the state of [self] as it
    was, and fitting and then transforming is the identity on [X]. *)
Theorem C9_passthrough_identity :
  forall (Self XT YT : Type) (self : Self) (X : XT)
         (X0 : option XT) (y : option YT),
    Passthrough.transform self X = (self, X) /\
    Passthrough.fit self X0 y = (self, self) /\
    Passthrough.fit_transform self X y = (self, X).
Proof.
  intros; repeat split.
Qed.

(** C10: on an input with two dimensions, of shape [(r, c)],
    [SkipTransformer.transform] returns the array without elements of
    shape [(r, 0)], and [SkipTransformer.fit] returns [self] and leaves the
    state of [self] as it was. *)
Theorem C10_skip_transformer_shape :
  forall (Self YT : Type) (self : Self) (X : Numpy.ndarray) (r c : nat)
         (X0 : option Numpy.ndarray) (y : option YT),
    Numpy.shape X = [r; c] ->
    SkipTransformer.transform self X
      = (self, Ok {| Numpy.shape := [r; 0%nat]; Numpy.data := [] |}) /\
    SkipTransformer.fit self X0 y = (self, self).
Proof.
  intros Self YT self X r c X0 y Hshape.
  split; [| reflexivity].
  unfold SkipTransformer.transform, Numpy.shape_at.
  rewrite Hshape; cbn [nth_error bind].
  unfold Numpy.reshape, Numpy.size_of; cbn [fold_right Numpy.array Numpy.data List.length].
  rewrite Nat.mul_0_l, Nat.mul_0_r; reflexivity.
Qed.

Lemma C10_skip_transformer_shape_witness :
  SkipTransformer.transform tt
      (Numpy.mk_ndarray [2%nat; 3%nat] [1; 2; 3; 4; 5; 6]%Q)
    = (tt, Ok {| Numpy.shape := [2%nat; 0%nat]; Numpy.data := [] |}) /\
  SkipTransformer.fit tt (@None Numpy.ndarray) (@None unit) = (tt, tt).
Proof.
  apply (@C10_skip_transformer_shape unit unit tt
           (Numpy.mk_ndarray [2%nat; 3%nat] [1; 2; 3; 4; 5; 6]%Q)
           2%nat 3%nat None None).
  reflexivity.
Defined.

(** ** Sorting the candidates *)

Section SortFacts.
Import Pandas.

Lemma key_cmp_antisym (asc : bool) (a b : option Q) :
  key_cmp asc b a = CompOpp (key_cmp asc a b).
Proof.
  destruct a as [x|], b as [y|]; cbn; try reflexivity.
  destruct asc; symmetry; apply Qcompare_antisym.
Qed.

Lemma lex_cmp_antisym (asc : bool) (u : list (option Q)) :
  forall v, lex_cmp asc v u = CompOpp (lex_cmp asc u v).
Proof.
  induction u as [|a u IH]; intros [|b v]; cbn; try reflexivity.
  rewrite (key_cmp_antisym asc a b).
  destruct (key_cmp asc a b); cbn; auto.
Qed.

Lemma comes_not_after_total (asc : bool) (x y : nat * list (option Q)) :
  comes_not_after asc x y = false -> comes_not_after asc y x = true.
Proof.
  unfold comes_not_after.
  rewrite (lex_cmp_antisym asc (snd x) (snd y)).
  destruct (lex_cmp asc (snd x) (snd y)); cbn; congruence.
Qed.

(** [key_cmp] is the comparison of a total preorder. *)
Lemma key_cmp_Eq_l (asc : bool) (a b c : option Q) :
  key_cmp asc a b = Eq -> key_cmp asc a c = key_cmp asc b c.
Proof.
  destruct a as [x|], b as [y|], c as [z|]; cbn; try congruence.
  destruct asc; intros H; apply Qeq_alt in H.
  - rewrite H; reflexivity.
  - rewrite H; reflexivity.
Qed.

Lemma key_cmp_Lt_trans (asc : bool) (a b c : option Q) :
  key_cmp asc a b = Lt -> key_cmp asc b c <> Gt -> key_cmp asc a c = Lt.
Proof.
  destruct a as [x|], b as [y|], c as [z|]; cbn; try congruence.
  destruct asc; intros H1 H2.
  - apply Qlt_alt in H1. apply Qlt_alt.
    apply Qlt_le_trans with y; [assumption|].
    apply Qle_alt; assumption.
  - apply Qlt_alt in H1. apply Qlt_alt.
    apply Qle_lt_trans with y; [|assumption].
    apply Qle_alt; assumption.
Qed.

Lemma lex_cmp_trans (asc : bool) (u : list (option Q)) :
  forall v w,
    List.length u = List.length v -> List.length v = List.length w ->
    lex_cmp asc u v <> Gt -> lex_cmp asc v w <> Gt ->
    lex_cmp asc u w <> Gt.
Proof.
  induction u as [|a u IH]; intros [|b v] [|c w] Huv Hvw; cbn;
    try discriminate; try congruence.
  injection Huv as Huv; injection Hvw as Hvw.
  destruct (key_cmp asc a b) eqn:Hab.
  - rewrite (key_cmp_Eq_l asc a b c Hab).
    destruct (key_cmp asc b c) eqn:Hbc; try congruence.
    apply IH; assumption.
  - intros _ Hbc.
    assert (Hbc' : key_cmp asc b c <> Gt)
      by (destruct (key_cmp asc b c); congruence).
    rewrite (key_cmp_Lt_trans asc a b c Hab Hbc'); congruence.
  - congruence.
Qed.

Lemma comes_not_after_trans (asc : bool) (n : nat)
      (x y z : nat * list (option Q)) :
  width n x -> width n y -> width n z ->
  comes_not_after asc x y = true -> comes_not_after asc y z = true ->
  comes_not_after asc x z = true.
Proof.
  unfold width, comes_not_after; intros Hx Hy Hz Hxy Hyz.
  assert (H : lex_cmp asc (snd x) (snd z) <> Gt).
  { apply lex_cmp_trans with (snd y); try congruence.
    - destruct (lex_cmp asc (snd x) (snd y)); congruence.
    - destruct (lex_cmp asc (snd y) (snd z)); congruence. }
  destruct (lex_cmp asc (snd x) (snd z)); congruence.
Qed.

Lemma insert_sorted_perm (asc : bool) (x : nat * list (option Q)) :
  forall l, Permutation (x :: l) (insert_sorted asc x l).
Proof.
  induction l as [|y l IH]; cbn.
  - apply Permutation_refl.
  - destruct (comes_not_after asc x y).
    + apply Permutation_refl.
    + eapply perm_trans; [apply perm_swap|].
      apply perm_skip; exact IH.
Qed.

Lemma sort_values_perm (asc : bool) :
  forall v, Permutation v (sort_values asc v).
Proof.
  induction v as [|x v IH]; cbn.
  - constructor.
  - eapply perm_trans; [|apply insert_sorted_perm].
    apply perm_skip; exact IH.
Qed.

Lemma insert_sorted_ordered (asc : bool) (n : nat)
      (x : nat * list (option Q)) :
  width n x ->
  forall l, Forall (width n) l -> ordered asc l ->
            ordered asc (insert_sorted asc x l).
Proof.
  intros Hx; induction l as [|y l IH]; intros Hw Hs; cbn.
  - constructor; constructor.
  - inversion Hw as [|? ? Hy Hl]; subst.
    inversion Hs as [|? ? Hs' Hall]; subst.
    destruct (comes_not_after asc x y) eqn:Hxy.
    + constructor; [exact Hs|].
      constructor; [exact Hxy|].
      rewrite Forall_forall in *; intros z Hz.
      apply comes_not_after_trans with (n := n) (y := y); auto.
    + constructor; [apply IH; assumption|].
      apply (Permutation_Forall (insert_sorted_perm asc x l)).
      constructor; [|exact Hall].
      apply comes_not_after_total; exact Hxy.
Qed.

Lemma sort_values_ordered (asc : bool) (n : nat) :
  forall v, Forall (width n) v -> ordered asc (sort_values asc v).
Proof.
  induction v as [|x v IH]; intros Hw; cbn.
  - constructor.
  - inversion Hw; subst.
    apply insert_sorted_ordered with (n := n); auto.
    apply (Permutation_Forall (sort_values_perm asc v)); assumption.
Qed.

End SortFacts.

(** ** The candidates of the final selection *)

Section CandidateFacts.
Import Pandas Estimator.
Variable Ind : Type.

Lemma mapM_Ok {A B : Type} (f : A -> result B) (g : A -> B) :
  forall l, (forall a, In a l -> f a = Ok (g a)) ->
            mapM f l = Ok (map g l).
Proof.
  induction l as [|a l IH]; intros H; cbn.
  - reflexivity.
  - rewrite (H a (or_introl eq_refl)); cbn.
    rewrite IH by (intros; apply H; right; assumption).
    reflexivity.
Qed.

Lemma astype_float_Ok (c : cell) :
  is_failure_marker c = false -> astype_float c = Ok (to_float c).
Proof. destruct c; cbn; congruence. Qed.

Lemma combine_seq_In {A : Type} (l : list A) :
  forall s i x, In (i, x) (combine (seq s (List.length l)) l) ->
                (s <= i)%nat /\ nth_error l (i - s) = Some x.
Proof.
  induction l as [|a l IH]; intros s i x Hin; cbn in Hin.
  - contradiction.
  - destruct Hin as [Heq | Hin].
    + injection Heq as <- <-. rewrite Nat.sub_diag. split; [lia | reflexivity].
    + apply IH in Hin as [Hle Hnth]. split; [lia|].
      replace (i - s)%nat with (S (i - S s)) by lia. exact Hnth.
Qed.

(** A labelled row is the row [loc] finds under that label. *)
Lemma labelled_loc (df : frame Ind) (i : nat) (r : row Ind) :
  In (i, r) (labelled df) -> loc df i = Ok r.
Proof.
  unfold labelled, loc; intros Hin.
  apply combine_seq_In in Hin as [_ Hnth].
  rewrite Nat.sub_0_r in Hnth. rewrite Hnth. reflexivity.
Qed.

Lemma nth_error_combine_seq {A : Type} (l : list A) :
  forall s i x, nth_error l i = Some x ->
                In ((s + i)%nat, x) (combine (seq s (List.length l)) l).
Proof.
  induction l as [|a l IH]; intros s i x Hnth.
  - destruct i; discriminate.
  - destruct i as [|i]; cbn in *.
    + injection Hnth as ->. left. rewrite Nat.add_0_r. reflexivity.
    + right. replace (s + S i)%nat with (S s + i)%nat by lia.
      apply IH; exact Hnth.
Qed.

Lemma loc_labelled (df : frame Ind) (i : nat) (r : row Ind) :
  loc df i = Ok r -> In (i, r) (labelled df).
Proof.
  unfold loc, labelled. destruct (nth_error (rows df) i) eqn:H; [|discriminate].
  intros [= ->]. apply (nth_error_combine_seq (rows df) 0 i H).
Qed.

(** After the rows with a failure marker are dropped, [astype(float)]
    does not raise. *)
Lemma val_scores_Ok (ei : frame Ind) (names : list string) :
  forallb (has_column ei) names = true ->
  val_scores ei names
  = Ok (map (fun lr => (fst lr, map to_float (snd lr)))
            (filter no_failure_marker
                    (map (fun lr => (fst lr, map (get (snd lr)) names))
                         (labelled ei)))).
Proof.
  intros Hcols. unfold val_scores, select_columns.
  rewrite Hcols; cbn [bind].
  apply mapM_Ok. intros [i cs] Hin.
  apply filter_In in Hin as [_ Hok].
  unfold no_failure_marker in Hok; cbn [fst snd] in *.
  apply negb_true_iff in Hok.
  rewrite (mapM_Ok astype_float to_float); [reflexivity|].
  intros c Hc. apply astype_float_Ok.
  destruct (is_failure_marker c) eqn:Hm; [|reflexivity].
  assert (existsb is_failure_marker cs = true)
    by (apply existsb_exists; exists c; auto).
  congruence.
Qed.

(** [best_indices] in closed form: the labels of the sorted candidates,
    a [KeyError] for a missing column, a [ValueError] when the weights
    do not match the columns. *)
Lemma best_indices_closed (ei : frame Ind) (names : list string)
      (weights : list Q) (bigger : bool) :
  best_indices ei names weights bigger
  = if forallb (has_column ei) names
    then if Nat.eqb (List.length weights) (List.length names)
         then Ok (index (sort_values (negb bigger)
                                     (candidates ei names weights)))
         else Raise ValueError
    else Raise KeyError.
Proof.
  unfold best_indices.
  destruct (forallb (has_column ei) names) eqn:Hcols.
  - rewrite (val_scores_Ok ei names Hcols); cbn [bind].
    unfold mul_columns.
    destruct (Nat.eqb (List.length weights) (List.length names));
      cbn [bind]; [|reflexivity].
    unfold candidates. rewrite map_map. reflexivity.
  - unfold val_scores, select_columns. rewrite Hcols. reflexivity.
Qed.

Lemma zip_with_length {A B C : Type} (f : A -> B -> C) :
  forall (l : list A) (m : list B),
    List.length l = List.length m ->
    List.length (zip_with f l m) = List.length l.
Proof.
  induction l as [|a l IH]; intros [|b m] H; cbn in *; try congruence.
  injection H as H. rewrite IH; auto.
Qed.

Lemma candidates_width (ei : frame Ind) (names : list string)
      (weights : list Q) :
  List.length weights = List.length names ->
  Forall (width (List.length names)) (candidates ei names weights).
Proof.
  intros Hlen. apply Forall_forall. intros [i v] Hin.
  unfold candidates in Hin.
  apply in_map_iff in Hin as [[j cs] [Heq Hin]].
  injection Heq as <- <-.
  apply filter_In in Hin as [Hin _].
  apply in_map_iff in Hin as [[k r] [Heq _]].
  injection Heq as <- <-.
  unfold width; cbn [snd].
  rewrite zip_with_length; rewrite !length_map; congruence.
Qed.

(** A candidate is a row of the frame without a failure marker in the
    columns of the selection. *)
Lemma candidates_In (ei : frame Ind) (names : list string)
      (weights : list Q) (i : nat) :
  In i (index (candidates ei names weights)) ->
  exists r, loc ei i = Ok r /\
            forall name, In name names ->
                         is_failure_marker (get r name) = false.
Proof.
  unfold index, candidates. rewrite map_map; cbn [fst].
  intros Hin. apply in_map_iff in Hin as [[j cs] [Heq Hin]].
  cbn [fst] in Heq; subst j.
  apply filter_In in Hin as [Hin Hok].
  apply in_map_iff in Hin as [[k r] [Heq Hin]].
  injection Heq as <- <-.
  exists r. split; [apply labelled_loc; exact Hin|].
  intros name Hname.
  unfold no_failure_marker in Hok; cbn [snd] in Hok.
  apply negb_true_iff in Hok.
  destruct (is_failure_marker (get r name)) eqn:Hm; [|reflexivity].
  assert (existsb is_failure_marker (map (get r) names) = true).
  { apply existsb_exists. exists (get r name). split; [|exact Hm].
    apply in_map; exact Hname. }
  congruence.
Qed.

Lemma combine_seq_fst {A : Type} (l : list A) :
  forall s, map fst (combine (seq s (List.length l)) l)
            = seq s (List.length l).
Proof.
  induction l as [|a l IH]; intros s; cbn; [reflexivity|].
  rewrite IH. reflexivity.
Qed.

Lemma NoDup_map_fst_filter {A B : Type} (p : A * B -> bool) :
  forall l : list (A * B),
    NoDup (map fst l) -> NoDup (map fst (filter p l)).
Proof.
  induction l as [|x l IH]; intros H; cbn; [constructor|].
  inversion H as [|? ? Hnotin Hnd]; subst.
  destruct (p x); cbn; [|apply IH; exact Hnd].
  constructor; [|apply IH; exact Hnd].
  intros Hin. apply Hnotin.
  apply in_map_iff in Hin as [y [Hy Hin]].
  apply filter_In in Hin as [Hin _].
  apply in_map_iff. exists y. split; assumption.
Qed.

Lemma candidates_index_NoDup (ei : frame Ind) (names : list string)
      (weights : list Q) :
  NoDup (index (candidates ei names weights)).
Proof.
  unfold index, candidates. rewrite map_map. cbn [fst].
  apply (NoDup_map_fst_filter no_failure_marker).
  rewrite map_map. cbn [fst].
  unfold labelled. rewrite combine_seq_fst. apply seq_NoDup.
Qed.

Lemma candidates_In_conv (ei : frame Ind) (names : list string)
      (weights : list Q) (i : nat) (r : row Ind) :
  loc ei i = Ok r ->
  (forall name, In name names -> is_failure_marker (get r name) = false) ->
  In i (index (candidates ei names weights)).
Proof.
  intros Hloc Hok. unfold index, candidates. rewrite map_map. cbn [fst].
  apply in_map_iff. exists (i, map (get r) names). split; [reflexivity|].
  apply filter_In. split.
  - apply in_map_iff. exists (i, r). split; [reflexivity|].
    apply loc_labelled; exact Hloc.
  - unfold no_failure_marker. cbn [snd]. apply negb_true_iff.
    destruct (existsb is_failure_marker (map (get r) names)) eqn:H;
      [|reflexivity].
    apply existsb_exists in H as [c [Hc Hm]].
    apply in_map_iff in Hc as [name [<- Hname]].
    rewrite (Hok name Hname) in Hm. discriminate.
Qed.

(** The vector of a candidate: each score times the weight of its
    column. *)
Lemma zip_with_fmul_weighted (r : row Ind) :
  forall (names : list string) (weights : list Q),
    zip_with fmul (map to_float (map (get r) names)) weights
    = map (fun nw => match get r (fst nw) with
                     | Float q => Some (q * snd nw)%Q
                     | _ => None
                     end)
          (combine names weights).
Proof.
  induction names as [|name names IH]; intros [|wt weights]; cbn;
    try reflexivity.
  rewrite IH. destruct (get r name); reflexivity.
Qed.

Lemma candidates_In_vector (ei : frame Ind) (names : list string)
      (weights : list Q) (i : nat) (v : list (option Q)) :
  In (i, v) (candidates ei names weights) ->
  exists r, loc ei i = Ok r /\
            (forall name, In name names ->
                          is_failure_marker (get r name) = false) /\
            v = map (fun nw => match get r (fst nw) with
                               | Float q => Some (q * snd nw)%Q
                               | _ => None
                               end)
                    (combine names weights).
Proof.
  intros Hin.
  assert (Hi : In i (index (candidates ei names weights))).
  { unfold index. apply in_map_iff. exists (i, v). split; [reflexivity|].
    exact Hin. }
  apply candidates_In in Hi as [r [Hloc Hok]].
  exists r. split; [exact Hloc|]. split; [exact Hok|].
  unfold candidates in Hin.
  apply in_map_iff in Hin as [[j cs] [Heq Hin]].
  injection Heq as -> <-.
  apply filter_In in Hin as [Hin _].
  apply in_map_iff in Hin as [[k r'] [Heq Hin]].
  injection Heq as -> <-.
  apply labelled_loc in Hin. rewrite Hloc in Hin. injection Hin as <-.
  cbn [snd]. apply zip_with_fmul_weighted.
Qed.

End CandidateFacts.

(** ** The refit loop *)

Section RefitFacts.
Import Pandas Estimator.
Variables Ind RngState Evolver Data : Type.
Variable final_fit_ok : Data -> Ind -> bool.

Let estimator := estimator Ind RngState Evolver.

Lemma set_selected_twice (self : estimator) (i j : nat) (r r' : row Ind)
      (f f' : bool) :
  set_selected (set_selected self i r f) j r' f' = set_selected self j r' f'.
Proof. reflexivity. Qed.

(** Candidates whose fit raises are passed over; the first whose fit
    returns is selected and ends the loop. *)
Lemma refit_loop_first_success (XY : Data) (ei : frame Ind) (idx : nat)
      (r : row Ind) (post : list nat) :
  loc ei idx = Ok r ->
  final_fit_ok XY (Individual r) = true ->
  forall (pre : list nat) (self : estimator),
    (forall i, In i pre ->
               exists r', loc ei i = Ok r' /\
                          final_fit_ok XY (Individual r') = false) ->
    refit_loop final_fit_ok XY ei (pre ++ idx :: post) self
    = (Ok tt, set_selected self idx r true).
Proof.
  intros Hloc Hfit.
  induction pre as [|i pre IH]; intros self Hpre; cbn [app refit_loop].
  - unfold bindM, lift, get_self, put_self. rewrite Hloc, Hfit. reflexivity.
  - destruct (Hpre i (or_introl eq_refl)) as [r' [Hi Hfail]].
    unfold bindM at 1, lift at 1. rewrite Hi.
    unfold bindM at 1, get_self at 1.
    unfold bindM at 1, put_self at 1.
    rewrite Hfail.
    rewrite IH by (intros; apply Hpre; right; assumption).
    reflexivity.
Qed.

(** The loop selects among the labels it is given, or nothing. *)
Lemma refit_loop_selects (XY : Data) (ei : frame Ind) (P : row Ind -> Prop)
      (self0 : estimator) :
  forall (l : list nat) (self : estimator) (res : result unit)
         (self' : estimator),
    (forall i, In i l -> exists r, loc ei i = Ok r /\ P r) ->
    (self = self0 \/
     exists i r f, self = set_selected self0 i r f /\
                   loc ei i = Ok r /\ P r) ->
    refit_loop final_fit_ok XY ei l self = (res, self') ->
    self' = self0 \/
    exists i r f, self' = set_selected self0 i r f /\
                  loc ei i = Ok r /\ P r.
Proof.
  induction l as [|i l IH]; intros self res self' Hl Hself;
    cbn [refit_loop].
  - unfold ret. intros [= _ <-]. exact Hself.
  - destruct (Hl i (or_introl eq_refl)) as [r [Hi HP]].
    unfold bindM at 1, lift at 1. rewrite Hi.
    unfold bindM at 1, get_self at 1.
    unfold bindM at 1, put_self at 1.
    assert (Hnext : forall f,
               set_selected self i r f = self0 \/
               exists i' r' f', set_selected self i r f
                                = set_selected self0 i' r' f' /\
                                loc ei i' = Ok r' /\ P r').
    { intros f. right. exists i, r, f. split; [|auto].
      destruct Hself as [-> | [j [r' [f' [-> _]]]]]; reflexivity. }
    destruct (final_fit_ok XY (Individual r)).
    + unfold put_self. intros [= _ <-]. apply (Hnext true).
    + intros Hrun.
      apply (IH _ _ _ (fun j Hj => Hl j (or_intror Hj)) (Hnext false) Hrun).
Qed.

End RefitFacts.

(** ** The final selection *)

Section FinalSelection.
Import Pandas Estimator.
Variables Ind RngState Evolver Data : Type.
Variable get_pareto_frontier :
  frame Ind -> list string -> list Q -> frame Ind.
Variable parallel_eval_objective_list :
  string -> Data -> list Ind -> list (list cell).
Variable final_fit_ok : Data -> Ind -> bool.

Let estimator := estimator Ind RngState Evolver.

Lemma lex_cmp_ascending (u : list Q) :
  forall v, lex_cmp true (map Some u) (map Some v) <> Gt -> lex_le u v.
Proof.
  induction u as [|a u IH]; intros [|b v]; cbn; auto.
  destruct (a ?= b)%Q eqn:Hab; intros H.
  - right. split; [apply Qeq_alt; exact Hab | apply IH; exact H].
  - left. apply Qlt_alt; exact Hab.
  - congruence.
Qed.

Lemma lex_cmp_descending (u : list Q) :
  forall v, lex_cmp false (map Some u) (map Some v) <> Gt -> lex_le v u.
Proof.
  induction u as [|a u IH]; intros [|b v]; cbn; auto.
  destruct (b ?= a)%Q eqn:Hba; intros H.
  - right. split; [apply Qeq_alt; exact Hba | apply IH; exact H].
  - left. apply Qlt_alt; exact Hba.
  - congruence.
Qed.

Lemma ordered_pick (asc : bool) (x y : nat * list (option Q))
      (b c : view (list (option Q))) :
  forall a, ordered asc (a ++ x :: b ++ y :: c) ->
            comes_not_after asc x y = true.
Proof.
  unfold ordered. induction a as [|z a IH]; cbn [app]; intros H.
  - apply StronglySorted_inv in H as [_ Hall].
    rewrite Forall_forall in Hall. apply Hall.
    apply in_or_app; right; left; reflexivity.
  - apply StronglySorted_inv in H as [H _]. apply IH; exact H.
Qed.

Lemma index_perm_In {A : Type} (v w : view A) (i : nat) :
  Permutation v w -> In i (index w) -> In i (index v).
Proof.
  intros Hp Hin. unfold index in *.
  apply (Permutation_in i (Permutation_sym (Permutation_map fst Hp)) Hin).
Qed.

(** C3: the final selection of [fit], with the weights and the
    direction of the estimator. Its candidates are the rows of the table
    without failure marker in the columns of the selection, each once
    and with the vector of its scores, every score multiplied by the
    weight of its column. They are tried in sorted order, larger
    weighted vectors first when [bigger_is_better] holds and smaller
    first otherwise (rows holding [NaN] behind the others). Candidates
    whose fit raises are passed over, and the first whose fit returns
    becomes [fitted_pipeline_], fitted. *)
Theorem C3_refit_ordered_fallback :
  forall (XY : Data) (self : estimator) (ei : frame Ind)
         (names : list string) (l : list nat),
    evaluated_individuals self = Some ei ->
    objective_names_for_selection self = Some names ->
    best_indices ei names (objective_function_weights self)
                 (bigger_is_better (params self)) = Ok l ->
    (exists w,
        index w = l /\
        NoDup l /\
        (forall i v,
            In (i, v) w ->
            exists r,
              loc ei i = Ok r /\
              (forall name, In name names ->
                            is_failure_marker (get r name) = false) /\
              v = map (fun nw => match get r (fst nw) with
                                 | Float q => Some (q * snd nw)%Q
                                 | _ => None
                                 end)
                      (combine names (objective_function_weights self))) /\
        (forall i r,
            loc ei i = Ok r ->
            (forall name, In name names ->
                          is_failure_marker (get r name) = false) ->
            In i l) /\
        ordered (negb (bigger_is_better (params self))) w /\
        (forall a x b y c u v,
            w = a ++ x :: b ++ y :: c ->
            snd x = map Some u -> snd y = map Some v ->
            if bigger_is_better (params self)
            then lex_le v u else lex_le u v)) /\
    (forall pre idx post r,
        l = pre ++ idx :: post ->
        (forall i, In i pre ->
                   exists r', loc ei i = Ok r' /\
                              final_fit_ok XY (Individual r') = false) ->
        loc ei idx = Ok r ->
        final_fit_ok XY (Individual r) = true ->
        final_selection final_fit_ok XY self
        = (Ok tt, set_selected self idx r true) /\
        fitted_pipeline_ (set_selected self idx r true)
        = Some (Individual r, true)).
Proof.
  intros XY self ei names l Hei Hnames Hbest.
  pose proof Hbest as Hclosed.
  rewrite best_indices_closed in Hclosed.
  destruct (forallb (has_column ei) names); [|discriminate].
  destruct (Nat.eqb (List.length (objective_function_weights self))
                    (List.length names)) eqn:Hlen; [|discriminate].
  apply Nat.eqb_eq in Hlen.
  injection Hclosed as Hl.
  set (weights := objective_function_weights self) in *.
  set (bigger := bigger_is_better (params self)) in *.
  pose proof (sort_values_ordered (negb bigger)
                (candidates_width ei names weights Hlen)) as Hord.
  pose proof (sort_values_perm (negb bigger) (candidates ei names weights))
    as Hperm.
  assert (Hidx : Permutation (index (candidates ei names weights)) l).
  { rewrite <- Hl. apply Permutation_map. exact Hperm. }
  split.
  - exists (sort_values (negb bigger) (candidates ei names weights)).
    split; [exact Hl|]. split; [|split; [|split; [|split]]].
    + apply (Permutation_NoDup Hidx). apply candidates_index_NoDup.
    + intros i v Hin. apply candidates_In_vector.
      apply (Permutation_in _ (Permutation_sym Hperm) Hin).
    + intros i r Hloc Hok. apply (Permutation_in i Hidx).
      apply candidates_In_conv with (r := r); assumption.
    + exact Hord.
    + intros a x b y c u v Hw Hx Hy.
      rewrite Hw in Hord. apply ordered_pick in Hord.
      unfold comes_not_after in Hord. rewrite Hx, Hy in Hord.
      destruct bigger; cbn [negb] in Hord.
      * apply lex_cmp_descending.
        destruct (lex_cmp false (map Some u) (map Some v)); congruence.
      * apply lex_cmp_ascending.
        destruct (lex_cmp true (map Some u) (map Some v)); congruence.
  - intros pre idx post r -> Hpre Hloc Hfit.
    split; [|reflexivity].
    unfold final_selection, bindM at 1, get_self at 1.
    rewrite Hei, Hnames.
    unfold bindM at 1, lift at 1.
    fold weights. fold bigger. rewrite Hbest.
    apply refit_loop_first_success; assumption.
Qed.

(** C2, for the columns of the selection: the rows tried by the final selection, and so the
    row it selects, carry no [TIMEOUT] or [INVALID] marker in any of the
    columns used for selection, [objective_names_for_selection]; these
    are the objective columns unless the validation strategy is
    [reshuffled] or [split]. *)
Theorem C2_selection_skips_failed_rows :
  forall (XY : Data) (self : estimator) (ei : frame Ind)
         (names : list string) (res : result unit) (self' : estimator),
    evaluated_individuals self = Some ei ->
    objective_names_for_selection self = Some names ->
    final_selection final_fit_ok XY self = (res, self') ->
    (forall l idx,
        best_indices ei names (objective_function_weights self)
                     (bigger_is_better (params self)) = Ok l ->
        In idx l ->
        exists r, loc ei idx = Ok r /\
                  forall name, In name names ->
                               is_failure_marker (get r name) = false) /\
    (self' = self \/
     exists idx r fitted,
       self' = set_selected self idx r fitted /\
       loc ei idx = Ok r /\
       forall name, In name names ->
                    is_failure_marker (get r name) = false) /\
    (forall strategy,
        String.eqb strategy "reshuffled" || String.eqb strategy "split"
        = false ->
        validation_step get_pareto_frontier parallel_eval_objective_list
                        strategy XY self
        = (Ok tt,
           set_objective_names_for_selection self (objective_names self))).
Proof.
  intros XY self ei names res self' Hei Hnames Hrun.
  assert (Htried :
            forall l idx,
              best_indices ei names (objective_function_weights self)
                           (bigger_is_better (params self)) = Ok l ->
              In idx l ->
              exists r, loc ei idx = Ok r /\
                        forall name, In name names ->
                                     is_failure_marker (get r name) = false).
  { intros l idx Hbest Hin.
    rewrite best_indices_closed in Hbest.
    destruct (forallb (has_column ei) names); [|discriminate].
    destruct (Nat.eqb _ _); [|discriminate].
    injection Hbest as <-.
    apply candidates_In with (weights := objective_function_weights self).
    apply (@index_perm_In _ _ _ idx (sort_values_perm _ _) Hin). }
  split; [exact Htried|]. split.
  - unfold final_selection, bindM at 1, get_self at 1 in Hrun.
    rewrite Hei, Hnames in Hrun.
    unfold bindM at 1, lift at 1 in Hrun.
    destruct (best_indices ei names (objective_function_weights self)
                           (bigger_is_better (params self)))
      as [l|e] eqn:Hbest.
    + eapply refit_loop_selects
        with (P := fun r => forall name, In name names ->
                                         is_failure_marker (get r name)
                                         = false);
        [| left; reflexivity | exact Hrun].
      intros i Hi. apply (Htried l i eq_refl Hi).
    + injection Hrun as _ <-. left; reflexivity.
  - intros strategy Hs.
    unfold validation_step, bindM, get_self. rewrite Hs. reflexivity.
Qed.

End FinalSelection.

(** ** The final selection at the concrete run *)

(** The table [three_scored] (the scores 0.5, 0.9, 0.7) with the weight
    -1 and [bigger_is_better]: the weighted scores are -0.5, -0.9, -0.7,
    so that the rows are tried in the order 0, 2, 1; the fits of the
    individuals 0 and 2 raise, that of 1 returns. *)
Lemma C3_refit_ordered_fallback_witness :
  Estimator.objective_function_weights Samples.ready_negated = [- (1)] /\
  Estimator.bigger_is_better (Estimator.params Samples.ready_negated)
  = true /\
  Estimator.best_indices Example.three_scored ["score"%string] [- (1)] true
  = Ok [0; 2; 1]%nat /\
  Estimator.final_selection Example.final_fit_ok tt Samples.ready_negated
  = (Ok tt,
     Estimator.set_selected Samples.ready_negated 1
                            (Example.with_score 1 (9 # 10)) true).
Proof.
  split; [reflexivity|]. split; [reflexivity|]. split; [reflexivity|].
  refine (proj1 (proj2 (@C3_refit_ordered_fallback
                          nat nat (Pandas.frame nat) unit
                          Example.final_fit_ok tt Samples.ready_negated
                          Example.three_scored ["score"%string]
                          [0; 2; 1]%nat eq_refl eq_refl eq_refl)
                       [0; 2]%nat 1%nat [] (Example.with_score 1 (9 # 10))
                       eq_refl _ eq_refl eq_refl)).
  intros i [<- | [<- | []]]; eexists; split; reflexivity.
Defined.

(** The concrete run with the validation strategy [split]: the table has
    a record without failure marker (row 0), and the record selected and
    fitted is row 1, whose objective column [score] holds [TIMEOUT]. *)
Lemma C2_failed_row_selected_under_validation :
  match Example.fitted (Example.args_with "split" false) with
  | Some self =>
      Estimator.objective_names self = ["score"%string] /\
      Estimator.objective_names_for_selection self
      = Some ["validation_score"%string] /\
      (exists ei,
          Estimator.evaluated_individuals self = Some ei /\
          (exists r0, Pandas.loc ei 0 = Ok r0 /\
                      Pandas.get r0 "score" = Pandas.Float (9 # 10)) /\
          (exists r1, Pandas.loc ei 1 = Ok r1 /\
                      Pandas.get r1 "score" = Pandas.TIMEOUT /\
                      Estimator.selected_best_score self = Some (1%nat, r1))) /\
      Estimator.fitted_pipeline_ self = Some (1%nat, true)
  | None => False
  end.
Proof.
  vm_compute.
  repeat split.
  eexists. split; [reflexivity|]. split.
  - eexists. split; reflexivity.
  - eexists. repeat split.
Qed.

Lemma C2_selection_skips_failed_rows_witness :
  match Example.ready Example.table ["score"%string] with
  | Some self =>
      let self' :=
        snd (Estimator.final_selection Example.final_fit_ok tt self) in
      self' = self \/
      exists idx r fitted,
        self' = Estimator.set_selected self idx r fitted /\
        Pandas.loc Example.table idx = Ok r /\
        forall name, In name ["score"%string] ->
                     Pandas.is_failure_marker (Pandas.get r name) = false
  | None => True
  end.
Proof.
  destruct (Example.ready Example.table ["score"%string]) as [self|] eqn:E;
    [|exact I].
  vm_compute in E. injection E as <-.
  match goal with
  | |- context [Estimator.final_selection _ _ ?s] =>
      exact (proj1 (proj2
        (@C2_selection_skips_failed_rows nat nat (Pandas.frame nat) unit
           Example.get_pareto_frontier Example.parallel_eval_objective_list
           Example.final_fit_ok tt s Example.table ["score"%string] _ _
           eq_refl eq_refl (surjective_pairing _))))
  end.
Defined.

(** ** The [pareto_front] property *)

Section ParetoFrontFacts.
Import Pandas Estimator.
Variables Ind RngState Evolver : Type.





End ParetoFrontFacts.



(** ** The constructor *)

Section InitFacts.
Import Pandas Estimator.
Variables Ind RngState Evolver : Type.
Variable scorer_registry : string -> option scorer.
Variable default_rng : Z -> RngState.

Lemma mapM_get_scorer_Ok (l : list scoring) :
  (forall s, In (ByName s) l -> scorer_registry s <> None) ->
  exists fs, mapM (get_scorer scorer_registry) l = Ok fs /\
             List.length fs = List.length l.
Proof.
  induction l as [|x l IH]; intros H; cbn.
  - exists []. split; reflexivity.
  - destruct IH as [fs [Hfs Hlen]];
      [intros s Hs; apply H; right; exact Hs|].
    rewrite Hfs.
    destruct x as [n | f]; cbn.
    + specialize (H n (or_introl eq_refl)).
      destruct (scorer_registry n) as [f|]; [|congruence].
      cbn. exists (f :: fs). split; [reflexivity | cbn; congruence].
    + exists (f :: fs). split; [reflexivity | cbn; congruence].
Qed.

Lemma seeded_Ok (entropy : RngState) (random_state : option Z) :
  (forall seed, random_state = Some seed -> (0 <= seed)%Z) ->
  exists g, seeded default_rng entropy random_state = Ok g.
Proof.
  intros H. unfold seeded. destruct random_state as [seed|].
  - specialize (H seed eq_refl).
    replace (Z.ltb seed 0) with false by (symmetry; apply Z.ltb_ge; exact H).
    eexists; reflexivity.
  - eexists; reflexivity.
Qed.

(** C4: the constructor checks neither the four
    probabilities nor the number of weights. Whenever the scorers
    resolve and [random_state] is [None] or an integer that is not
    negative, it returns an estimator that holds the arguments unchanged,
    the weights of the scorers followed by those of the other
    objectives, no evolver and no table; this for probabilities of any
    sign and sum and for any number of weights. *)
Theorem C4_constructor_does_not_validate :
  forall a : args,
    (forall s, In (ByName s) (scorers_as_list (scorers a)) ->
               scorer_registry s <> None) ->
    (forall seed, random_state a = Some seed -> (0 <= seed)%Z) ->
    forall entropy : RngState,
    exists self : estimator Ind RngState Evolver,
      __init__ Ind Evolver scorer_registry default_rng entropy a = Ok self /\
      params self = a /\
      objective_function_weights self
      = scorers_weights a ++ other_objective_functions_weights a /\
      List.length (_scorers self)
      = List.length (scorers_as_list (scorers a)) /\
      _evolver_instance self = None /\
      evaluated_individuals self = None.
Proof.
  intros a Hscorers Hseed entropy.
  destruct (mapM_get_scorer_Ok _ Hscorers) as [fs [Hfs Hlen]].
  destruct (seeded_Ok entropy Hseed) as [g Hg].
  unfold __init__. rewrite Hg. cbn [bind]. rewrite Hfs. cbn [bind].
  eexists. split; [reflexivity|]. cbn. repeat split. exact Hlen.
Qed.

End InitFacts.

Lemma C4_constructor_does_not_validate_witness :
  exists self,
    Example.init Example.malformed_args = Ok self /\
    Estimator.params self = Example.malformed_args /\
    Estimator.objective_function_weights self = [] /\
    List.length (Estimator._scorers self) = 1%nat.
Proof.
  destruct (@C4_constructor_does_not_validate nat nat (Pandas.frame nat)
              Example.scorer_registry Example.default_rng
              Example.malformed_args)
    with (entropy := 7%nat)
    as [self [Hinit [Hparams [Hweights [Hlen _]]]]].
  - intros s [H | []]. discriminate H.
  - intros seed [= <-]. discriminate.
  - exists self. repeat split; assumption.
Defined.

(** The constructor on malformed arguments: four probabilities that sum
    to 2, one of them negative, and one objective without a weight; it
    returns an estimator, it does not raise. *)
Lemma C4_malformed_arguments_accepted :
  let a := Example.malformed_args in
  (1 < Estimator.crossover_probability a + Estimator.mutate_probability a
       + Estimator.mutate_then_crossover_probability a
       + Estimator.crossover_then_mutate_probability a)%Q /\
  (Estimator.crossover_then_mutate_probability a < 0)%Q /\
  match Example.init a with
  | Ok self =>
      List.length (Estimator.objective_names self) = 1%nat /\
      List.length (Estimator.objective_function_weights self) = 0%nat /\
      Estimator.params self = a
  | Raise _ => False
  end.
Proof.
  cbn. repeat split.
Qed.

(** ** Calling [fit] again *)

Section WarmStart.
Import Pandas Estimator.
Variables Ind RngState Evolver Data : Type.
Variable shape : Data -> nat * nat.
Variable _evolver :
  EvolverArgs.kwargs -> Data -> RngState -> Evolver * RngState.
Variable optimize : Evolver -> RngState -> Evolver * RngState.
Variable population_evaluated_individuals : Evolver -> frame Ind.

Let estimator := estimator Ind RngState Evolver.
Let fit_search :=
  fit_search shape _evolver optimize population_evaluated_individuals.




End WarmStart.



(** ** The early-stop monitor *)

Section EarlyStopFacts.
Import Estimator EarlyStop.
Variables Ind RngState Evolver : Type.
Variable scorer_registry : string -> option scorer.
Variable default_rng : Z -> RngState.

Lemma observe_one_tolerance (elapsed : Q) (score : option Q)
      (o : objective_state) :
  tolerance (observe_one elapsed score o) = tolerance o.
Proof. unfold observe_one. destruct (improves o score); reflexivity. Qed.

(** Each objective is updated from its own score and its own state. *)
Lemma observe_nth (elapsed : Q) :
  forall (st : list objective_state) (scores : list (option Q)) (i : nat)
         (o : objective_state),
    nth_error st i = Some o ->
    nth_error (observe elapsed scores st) i
    = Some (observe_one elapsed (nth i scores None) o).
Proof.
  induction st as [|o' st IH]; intros scores i o Hnth.
  - destruct i; discriminate.
  - destruct i as [|i]; cbn in Hnth |- *.
    + injection Hnth as ->. destruct scores; reflexivity.
    + rewrite (IH (tl scores) i o Hnth). destruct scores as [|s scores].
      * destruct i; reflexivity.
      * reflexivity.
Qed.

Lemma observe_keeps_disabled (elapsed : Q) :
  forall (st : list objective_state) (scores : list (option Q)),
    (exists o, In o st /\ tolerance o = None) ->
    exists o, In o (observe elapsed scores st) /\ tolerance o = None.
Proof.
  induction st as [|o' st IH]; intros scores [o [Hin Htol]].
  - destruct Hin.
  - destruct Hin as [-> | Hin]; cbn.
    + exists (observe_one elapsed (hd None scores) o).
      split; [left; reflexivity|].
      rewrite observe_one_tolerance; exact Htol.
    + destruct (IH (tl scores) (ex_intro _ o (conj Hin Htol)))
        as [o2 [Hin2 Htol2]].
      exists o2. split; [right; exact Hin2 | exact Htol2].
Qed.

Lemma run_keeps_disabled :
  forall records st,
    (exists o, In o st /\ tolerance o = None) ->
    exists o, In o (run records st) /\ tolerance o = None.
Proof.
  induction records as [|[elapsed scores] records IH]; intros st H; cbn.
  - exact H.
  - apply IH. apply observe_keeps_disabled. exact H.
Qed.

Lemma stalled_count_iff (p : nat) (o : objective_state) :
  stalled_count p o = true <->
  exists tol, tolerance o = Some tol /\ (p < since_improvement_count o)%nat.
Proof.
  unfold stalled_count. destruct (tolerance o) as [tol|].
  - rewrite Nat.ltb_lt. split.
    + intros H; exists tol; auto.
    + intros [_ [_ H]]; exact H.
  - split; [discriminate | intros [tol [H _]]; discriminate].
Qed.

Lemma stalled_seconds_iff (m : Q) (o : objective_state) :
  stalled_seconds m o = true <->
  exists tol, tolerance o = Some tol /\
              (m * 60 < since_improvement_seconds o)%Q.
Proof.
  unfold stalled_seconds. destruct (tolerance o) as [tol|].
  - destruct (Qlt_le_dec (m * 60) (since_improvement_seconds o)) as [H|H].
    + split; [intros _; exists tol; auto | reflexivity].
    + split; [discriminate|].
      intros [_ [_ H']]. exfalso. apply (Qlt_not_le _ _ H' H).
  - split; [discriminate | intros [tol [H _]]; discriminate].
Qed.

Lemma fires_disabled (es : option nat) (esm : option Q)
      (st : list objective_state) :
  (exists o, In o st /\ tolerance o = None) -> fires es esm st = false.
Proof.
  intros [o [Hin Htol]]. unfold fires.
  apply orb_false_iff. split.
  - destruct es as [p|]; [|reflexivity].
    destruct (forallb (stalled_count p) st) eqn:H; [|reflexivity].
    rewrite forallb_forall in H. specialize (H o Hin).
    unfold stalled_count in H. rewrite Htol in H. discriminate.
  - destruct esm as [m|]; [|reflexivity].
    destruct (forallb (stalled_seconds m) st) eqn:H; [|reflexivity].
    rewrite forallb_forall in H. specialize (H o Hin).
    unfold stalled_seconds in H. rewrite Htol in H. discriminate.
Qed.

(** C5: the early stop fires exactly when every objective has a
    tolerance and a counter above the patience, in records for
    [early_stop] or in seconds for [early_stop_mins]; a record updates
    each objective from its own score alone, an improvement beyond the
    tolerance putting that objective's counters back to zero; and with an
    objective without tolerance the early stop fires after no sequence of
    records, as is the case for the tolerances the constructor assembles
    when [other_objectives_early_stop_tol] is [None] and there is another
    objective. *)
Theorem C5_early_stop_needs_every_objective :
  forall (es : option nat) (esm : option Q) (st : list objective_state),
    (fires es esm st = true <->
     (exists p, es = Some p /\
                forall o, In o st ->
                          exists tol, tolerance o = Some tol /\
                                      (p < since_improvement_count o)%nat) \/
     (exists m, esm = Some m /\
                forall o, In o st ->
                          exists tol, tolerance o = Some tol /\
                                      (m * 60 < since_improvement_seconds o)%Q))
    /\
    (forall elapsed scores i o,
        nth_error st i = Some o ->
        let o' := observe_one elapsed (nth i scores None) o in
        nth_error (observe elapsed scores st) i = Some o' /\
        (improves o (nth i scores None) = true ->
         since_improvement_count o' = 0%nat /\
         since_improvement_seconds o' = 0 /\
         best_seen o' = nth i scores None) /\
        (improves o (nth i scores None) = false ->
         since_improvement_count o' = S (since_improvement_count o) /\
         best_seen o' = best_seen o)) /\
    (forall records,
        (exists o, In o st /\ tolerance o = None) ->
        fires es esm (run records st) = false) /\
    (forall (a : args) entropy (self : estimator Ind RngState Evolver)
            records,
        __init__ Ind Evolver scorer_registry default_rng entropy a
        = Ok self ->
        other_objectives_early_stop_tol a = TolOne None ->
        other_objective_functions a <> [] ->
        fires es esm (run records (start (early_stop_tol self))) = false).
Proof.
  intros es esm st. split; [|split; [|split]].
  - unfold fires. rewrite orb_true_iff. split.
    + intros [H | H].
      * left. destruct es as [p|]; [|discriminate]. exists p.
        split; [reflexivity|]. intros o Ho.
        apply stalled_count_iff. rewrite forallb_forall in H. auto.
      * right. destruct esm as [m|]; [|discriminate]. exists m.
        split; [reflexivity|]. intros o Ho.
        apply stalled_seconds_iff. rewrite forallb_forall in H. auto.
    + intros [[p [-> H]] | [m [-> H]]]; [left | right];
        apply forallb_forall; intros o Ho.
      * apply stalled_count_iff; auto.
      * apply stalled_seconds_iff; auto.
  - intros elapsed scores i o Hnth o'. subst o'.
    split; [apply observe_nth; exact Hnth|].
    unfold observe_one.
    split; intros ->; cbn; repeat split.
  - intros records H. apply fires_disabled. apply run_keeps_disabled. exact H.
  - intros a entropy self records Hinit Htol Hother.
    apply fires_disabled. apply run_keeps_disabled.
    unfold __init__ in Hinit.
  destruct (seeded default_rng entropy (random_state a)) as [g0|];
    [|discriminate].
  cbn [bind] in Hinit.
    destruct (mapM (get_scorer scorer_registry) (scorers_as_list (scorers a)))
      as [fs|e]; [|discriminate].
    cbn [bind] in Hinit. injection Hinit as <-. cbn [early_stop_tol].
    rewrite Htol. cbn [broadcast_tol].
    destruct (other_objective_functions a) as [|f fns]; [congruence|].
    exists {| tolerance := None; best_seen := None;
              since_improvement_count := 0%nat;
              since_improvement_seconds := 0 |}.
    split; [|reflexivity].
    unfold start. rewrite map_app. apply in_or_app. right.
    cbn. left. reflexivity.
Qed.

End EarlyStopFacts.

(** ** The budget controller *)

Section BudgetFacts.
Import Budget.
Variable curve : Q -> Q.
Hypothesis curve_monotone :
  forall x y, 0 <= x -> x <= y -> y <= 1 -> curve x <= curve y.
Hypothesis curve_one : curve 1 == 1.

Lemma of_nat_nonneg (n : nat) : 0 <= of_nat n.
Proof.
  unfold of_nat. change 0 with (inject_Z 0). rewrite <- Zle_Qle. lia.
Qed.

Lemma of_nat_pos (n : nat) : (0 < n)%nat -> 0 < of_nat n.
Proof.
  intros H. unfold of_nat. change 0 with (inject_Z 0).
  rewrite <- Zlt_Qlt. lia.
Qed.

Lemma of_nat_le (n m : nat) : (n <= m)%nat -> of_nat n <= of_nat m.
Proof. intros H. unfold of_nat. rewrite <- Zle_Qle. lia. Qed.

Lemma div_le (a b c : Q) : 0 < c -> a <= b -> a / c <= b / c.
Proof.
  intros Hc Hab. unfold Qdiv. apply Qmult_le_compat_r; [exact Hab|].
  apply Qinv_le_0_compat. apply Qlt_le_weak; exact Hc.
Qed.

Lemma div_self (c : Q) : 0 < c -> c / c == 1.
Proof.
  intros Hc. unfold Qdiv. apply Qmult_inv_r.
  intros H. rewrite H in Hc. apply (Qlt_irrefl 0 Hc).
Qed.

Lemma div_nonneg (a c : Q) : 0 < c -> 0 <= a -> 0 <= a / c.
Proof.
  intros Hc Ha. unfold Qdiv. apply Qmult_le_0_compat; [exact Ha|].
  apply Qinv_le_0_compat. apply Qlt_le_weak; exact Hc.
Qed.

Lemma progress_bounds (N n : nat) :
  (0 < N)%nat -> 0 <= progress N n /\ progress N n <= 1.
Proof.
  intros HN. unfold progress.
  destruct (Nat.leb N n) eqn:Hle.
  - split; [discriminate | apply Qle_refl].
  - apply Nat.leb_gt in Hle. split.
    + apply div_nonneg; [apply of_nat_pos; exact HN | apply of_nat_nonneg].
    + rewrite <- (div_self (of_nat_pos HN)).
      apply div_le; [apply of_nat_pos; exact HN | apply of_nat_le; lia].
Qed.

Lemma progress_monotone (N n m : nat) :
  (0 < N)%nat -> (n <= m)%nat -> progress N n <= progress N m.
Proof.
  intros HN Hnm. unfold progress at 2.
  destruct (Nat.leb N m) eqn:Hm.
  - apply progress_bounds; exact HN.
  - apply Nat.leb_gt in Hm. unfold progress.
    replace (Nat.leb N n) with false
      by (symmetry; apply Nat.leb_gt; lia).
    apply div_le; [apply of_nat_pos; exact HN | apply of_nat_le; exact Hnm].
Qed.

Lemma staircase_monotone (steps : nat) (x y : Q) :
  (0 < steps)%nat -> x <= y -> staircase steps x <= staircase steps y.
Proof.
  intros Hs Hxy. unfold staircase.
  apply div_le; [apply of_nat_pos; exact Hs|].
  rewrite <- Zle_Qle. apply Qfloor_resp_le.
  apply Qmult_le_compat_r; [exact Hxy | apply of_nat_nonneg].
Qed.

Lemma staircase_zero (steps : nat) :
  (0 < steps)%nat -> staircase steps 0 == 0.
Proof.
  intros Hs. unfold staircase.
  assert (H : Qfloor (0 * of_nat steps) = 0%Z).
  { rewrite (Qfloor_comp (0 * of_nat steps) 0) by apply Qmult_0_l.
    reflexivity. }
  rewrite H. unfold Qdiv. apply Qmult_0_l.
Qed.

Lemma staircase_one (steps : nat) :
  (0 < steps)%nat -> staircase steps 1 == 1.
Proof.
  intros Hs. unfold staircase.
  assert (H : Qfloor (1 * of_nat steps) = Z.of_nat steps).
  { rewrite (Qfloor_comp (1 * of_nat steps) (of_nat steps))
      by apply Qmult_1_l.
    unfold of_nat. apply Qfloor_Z. }
  rewrite H. apply (div_self (of_nat_pos Hs)).
Qed.

Lemma staircase_bounds (steps : nat) (x : Q) :
  (0 < steps)%nat -> 0 <= x -> x <= 1 ->
  0 <= staircase steps x /\ staircase steps x <= 1.
Proof.
  intros Hs H0 H1. split.
  - rewrite <- (staircase_zero Hs). apply staircase_monotone; assumption.
  - rewrite <- (staircase_one Hs). apply staircase_monotone; assumption.
Qed.

Lemma f_monotone (steps : nat) (x y : Q) :
  (0 < steps)%nat -> 0 <= x -> x <= y -> y <= 1 ->
  f curve steps x <= f curve steps y.
Proof.
  intros Hs H0 Hxy H1. unfold f. apply curve_monotone.
  - apply staircase_bounds; [exact Hs | exact H0 |].
    apply Qle_trans with y; assumption.
  - apply staircase_monotone; assumption.
  - apply staircase_bounds; [exact Hs | | exact H1].
    apply Qle_trans with x; assumption.
Qed.

Lemma f_one (steps : nat) : (0 < steps)%nat -> f curve steps 1 == 1.
Proof.
  intros Hs. unfold f. pose proof (staircase_one Hs) as H.
  apply Qle_antisym.
  - rewrite <- curve_one at 2. apply curve_monotone.
    + rewrite H. discriminate.
    + rewrite H. apply Qle_refl.
    + apply Qle_refl.
  - rewrite <- curve_one at 1. apply curve_monotone.
    + discriminate.
    + rewrite H. apply Qle_refl.
    + rewrite H. apply Qle_refl.
Qed.

Lemma clamp_monotone (lo hi v w : Q) :
  lo <= hi -> v <= w -> clamp lo hi v <= clamp lo hi w.
Proof.
  intros Hlh Hvw. unfold clamp.
  destruct (Qlt_le_dec v lo), (Qlt_le_dec w lo); try lra;
    destruct (Qlt_le_dec hi v), (Qlt_le_dec hi w); lra.
Qed.

Lemma clamp_bounds (lo hi v : Q) :
  lo <= hi -> lo <= clamp lo hi v /\ clamp lo hi v <= hi.
Proof.
  intros Hlh. unfold clamp.
  destruct (Qlt_le_dec v lo); [lra|].
  destruct (Qlt_le_dec hi v); lra.
Qed.

Lemma lower_le_upper (start stop : Q) : lower start stop <= upper start stop.
Proof. unfold lower, upper. destruct (Qlt_le_dec stop start); lra. Qed.

(** C6: with a monotone exponent curve that maps 1 to 1, the budget of
    the [n]-th submitted individual does not decrease with [n] when
    [start <= end] and does not increase when [end <= start]; it lies
    between the two ends of [budget_range]; and from
    [individuals_until_end_budget] on it is the end value. *)
Theorem C6_budget_monotone_clamped_frozen :
  forall (start stop : Q) (individuals_until_end_budget stepwise_steps : nat),
    (0 < individuals_until_end_budget)%nat ->
    (0 < stepwise_steps)%nat ->
    let b := budget curve (start, stop) individuals_until_end_budget
                    stepwise_steps in
    (forall n m, (n <= m)%nat ->
                 (start <= stop -> b n <= b m) /\
                 (stop <= start -> b m <= b n)) /\
    (forall n, (start <= stop -> start <= b n /\ b n <= stop) /\
               (stop <= start -> stop <= b n /\ b n <= start)) /\
    (forall n, (individuals_until_end_budget <= n)%nat -> b n == stop).
Proof.
  intros start stop N steps HN Hs b. subst b. unfold budget.
  pose proof (lower_le_upper start stop) as Hlu.
  split; [|split].
  - intros n m Hnm.
    pose proof (progress_bounds n HN) as [Hn0 Hn1].
    pose proof (progress_bounds m HN) as [Hm0 Hm1].
    pose proof (progress_monotone HN Hnm) as Hp.
    pose proof (f_monotone Hs Hn0 Hp Hm1) as Hf.
    split; intros Hdir; apply clamp_monotone; try exact Hlu.
    + apply Qplus_le_r.
      rewrite !(Qmult_comm (stop - start)).
      apply Qmult_le_compat_r; [exact Hf | lra].
    + apply Qplus_le_r.
      assert (H : (start - stop) * f curve steps (progress N n)
                  <= (start - stop) * f curve steps (progress N m)).
      { rewrite !(Qmult_comm (start - stop)).
        apply Qmult_le_compat_r; [exact Hf | lra]. }
      lra.
  - intros n.
    pose proof (clamp_bounds
                  (start + (stop - start)
                           * f curve steps (progress N n)) Hlu)
      as [Hlo Hhi].
    unfold lower, upper in *.
    destruct (Qlt_le_dec stop start); split; intros Hdir; lra.
  - intros n Hn. unfold progress.
    replace (Nat.leb N n) with true by (symmetry; apply Nat.leb_le; exact Hn).
    pose proof (f_one Hs) as Hone.
    assert (Hv : start + (stop - start) * f curve steps 1 == stop)
      by (rewrite Hone; lra).
    unfold clamp, lower, upper.
    destruct (Qlt_le_dec stop start);
      destruct (Qlt_le_dec (start + (stop - start) * f curve steps 1) _);
      try lra;
      destruct (Qlt_le_dec _ (start + (stop - start) * f curve steps 1));
      lra.
Qed.

End BudgetFacts.

(** ** The steady-state loop *)

Section SteadyStateFacts.
Import Estimator SteadyState.
Variables Ind RngState : Type.
Variable generate : RngState -> Ind * RngState.
Variable vary : list (Ind * outcome) -> RngState -> Ind * RngState.
Variable objective : Ind -> outcome.
Variable kw : EvolverArgs.kwargs.
Variable w : world.

Let state := state Ind RngState.
Let step (concurrency : nat) : state -> state -> Prop :=
  step generate vary objective kw w concurrency.
Let steps (concurrency : nat) : nat -> state -> state -> Prop :=
  steps generate vary objective kw w concurrency.

Lemma complete_in_flight (s : state) (ind : Ind) (others : list Ind) :
  (List.length (in_flight (complete vary objective kw w s ind others))
   <= S (List.length others))%nat.
Proof.
  unfold complete.
  destruct (negb _ && _).
  - destruct (vary _ _) as [child g]. cbn.
    rewrite length_app. cbn. lia.
  - cbn. lia.
Qed.

(** No more evaluations are in flight than the limit allows. *)
Lemma step_in_flight (c : nat) (s s' : state) :
  step c s s' ->
  (List.length (in_flight s) <= c)%nat ->
  (List.length (in_flight s') <= c)%nat.
Proof.
  intros Hstep Hinv. destruct Hstep as [s ind g _ _ Hfree _ | s b ind a Hfl].
  - cbn. rewrite length_app. cbn. lia.
  - eapply Nat.le_trans; [apply complete_in_flight|].
    rewrite Hfl in Hinv. rewrite length_app in *. cbn in Hinv. lia.
Qed.

(** Every completion adds one record, and nothing else does. *)
Lemma step_store (c : nat) (s s' : state) :
  step c s s' ->
  store s' = store s \/
  exists ind, store s' = store s ++ [(ind, evaluate objective kw w
                                             (List.length (store s)) ind)].
Proof.
  intros Hstep. destruct Hstep as [s ind g _ _ _ _ | s b ind a Hfl].
  - left. reflexivity.
  - right. exists ind. unfold complete.
    destruct (negb _ && _).
    + destruct (vary _ _) as [child g]. reflexivity.
    + reflexivity.
Qed.

Lemma split_singleton (b a b' a' : list Ind) (x y : Ind) :
  (List.length (b ++ x :: a) <= 1)%nat ->
  b ++ x :: a = b' ++ y :: a' ->
  x = y /\ b ++ a = b' ++ a'.
Proof.
  intros Hlen Heq.
  assert (Hlen' : (List.length (b' ++ y :: a') <= 1)%nat)
    by (rewrite <- Heq; exact Hlen).
  rewrite length_app in Hlen, Hlen'. cbn in Hlen, Hlen'.
  destruct b as [|? b]; [|cbn in Hlen; lia].
  destruct a as [|? a]; [|cbn in Hlen; lia].
  destruct b' as [|? b']; [|cbn in Hlen'; lia].
  destruct a' as [|? a']; [|cbn in Hlen'; lia].
  cbn in Heq. injection Heq as ->. split; reflexivity.
Qed.

(** With one evaluation in flight at most, the state has one successor
    in a given world. *)
Lemma step_functional (s s1 s2 : state) :
  (List.length (in_flight s) <= 1)%nat ->
  step 1 s s1 -> step 1 s s2 -> s1 = s2.
Proof.
  intros Hinv H1 H2.
  destruct H1 as [s ind1 g1 _ _ Hfree1 Hgen1 | s b1 ind1 a1 Hfl1].
  - inversion H2 as [s' ind2 g2 _ _ _ Hgen2 | s' b2 ind2 a2 Hfl2]; subst.
    + rewrite Hgen1 in Hgen2. injection Hgen2 as <- <-. reflexivity.
    + rewrite Hfl2 in Hfree1. rewrite length_app in Hfree1.
      cbn in Hfree1. lia.
  - inversion H2 as [s' ind2 g2 _ _ Hfree2 _ | s' b2 ind2 a2 Hfl2]; subst.
    + rewrite Hfl1 in Hfree2. rewrite length_app in Hfree2.
      cbn in Hfree2. lia.
    + rewrite Hfl1 in Hfl2, Hinv.
      destruct (@split_singleton _ _ _ _ _ _ Hinv Hfl2) as [<- ->].
      reflexivity.
Qed.

Lemma steps_functional :
  forall (n : nat) (s s1 s2 : state),
    (List.length (in_flight s) <= 1)%nat ->
    steps 1 n s s1 -> steps 1 n s s2 -> s1 = s2.
Proof.
  induction n as [|n IH]; intros s s1 s2 Hinv H1 H2.
  - inversion H1; inversion H2; subst. reflexivity.
  - inversion H1 as [|? ? s1' ? Hs1 Hr1]; subst.
    inversion H2 as [|? ? s2' ? Hs2 Hr2]; subst.
    assert (s1' = s2') by (apply (step_functional Hinv Hs1 Hs2)).
    subst s2'.
    apply (IH s1' s1 s2); [|assumption|assumption].
    apply (step_in_flight Hs1 Hinv).
Qed.

End SteadyStateFacts.

Section Determinism.
Import Estimator SteadyState.
Variables Ind RngState Evolver : Type.
Variable scorer_registry : string -> option scorer.
Variable default_rng : Z -> RngState.
Variable generate : RngState -> Ind * RngState.
Variable vary : list (Ind * outcome) -> RngState -> Ind * RngState.
Variable objective : Ind -> outcome.

(** With an integer seed the constructor does not read the entropy of
    the system. *)
Lemma init_seeded_ignores_entropy (a : args) (seed : Z)
      (entropy1 entropy2 : RngState) :
  random_state a = Some seed ->
  __init__ Ind Evolver scorer_registry default_rng entropy1 a
  = __init__ Ind Evolver scorer_registry default_rng entropy2 a.
Proof.
  intros Hseed. unfold __init__, seeded. rewrite Hseed. reflexivity.
Qed.

(** C8, as it holds: two estimators constructed from the same
    arguments with an integer [random_state] are equal, whatever the
    entropy of the system, and their generator is in the state of
    [default_rng] at the seed. When each runs the loop for the first
    time, with one evaluation in flight at most and in the same world
    (every evaluation takes as long in one run as in the other, the
    completions are as far apart, the cancellation comes at the same
    record), the two runs are in the same state after the same number of
    steps: the same individuals generated in the same order, the same
    records. *)
Theorem C8_fixed_seed_same_world_deterministic :
  forall (a : args) (seed : Z) (entropy1 entropy2 : RngState)
         (self1 self2 : estimator Ind RngState Evolver) (w : world)
         (n : nat) (s1 s2 : state Ind RngState),
    random_state a = Some seed ->
    __init__ Ind Evolver scorer_registry default_rng entropy1 a = Ok self1 ->
    __init__ Ind Evolver scorer_registry default_rng entropy2 a = Ok self2 ->
    steps generate vary objective (evolver_kwargs self1) w 1 n
          (init Ind (evolver_kwargs self1) (Estimator.rng self1)) s1 ->
    steps generate vary objective (evolver_kwargs self2) w 1 n
          (init Ind (evolver_kwargs self2) (Estimator.rng self2)) s2 ->
    self1 = self2 /\
    Estimator.rng self1 = default_rng seed /\
    generated s1 = generated s2 /\
    store s1 = store s2 /\
    s1 = s2.
Proof.
  intros a seed entropy1 entropy2 self1 self2 w n s1 s2 Hseed H1 H2
         Hrun1 Hrun2.
  rewrite (init_seeded_ignores_entropy a entropy1 entropy2 Hseed) in H1.
  rewrite H1 in H2. injection H2 as <-.
  assert (Hrng : Estimator.rng self1 = default_rng seed).
  { unfold __init__, seeded in H1. rewrite Hseed in H1.
    destruct (Z.ltb seed 0); [discriminate|]. cbn [bind] in H1.
    destruct (mapM (get_scorer scorer_registry) (scorers_as_list (scorers a)));
      [|discriminate].
    cbn [bind] in H1. injection H1 as <-. reflexivity. }
  assert (Heq : s1 = s2).
  { eapply steps_functional; [|exact Hrun1 | exact Hrun2]. cbn. lia. }
  subst s2. repeat split. exact Hrng.
Qed.

End Determinism.

(** With two evaluations in flight the order of completion is open: two
    runs of one estimator in one world record different individuals
    first. *)
Lemma two_in_flight_diverge :
  let self := Samples.loop_estimator in
  exists s1 s2,
    Example.loop_steps self Example.on_time 2 3 s1 /\
    Example.loop_steps self Example.on_time 2 3 s2 /\
    SteadyState.store s1 = [(0%nat, SteadyState.Scored [0])] /\
    SteadyState.store s2 = [(1%nat, SteadyState.Scored [1])].
Proof.
  unfold Example.loop_steps.
  eexists. eexists. split; [|split].
  - eapply SteadyState.steps_S;
      [eapply SteadyState.step_warmup;
       [reflexivity | cbn; lia | cbn; lia | reflexivity]|].
    eapply SteadyState.steps_S;
      [eapply SteadyState.step_warmup;
       [reflexivity | cbn; lia | cbn; lia | reflexivity]|].
    eapply SteadyState.steps_S;
      [eapply (@SteadyState.step_complete _ _ _ _ _ _ _ _ _
                 [] 0%nat [1%nat]);
       reflexivity|].
    apply SteadyState.steps_O.
  - eapply SteadyState.steps_S;
      [eapply SteadyState.step_warmup;
       [reflexivity | cbn; lia | cbn; lia | reflexivity]|].
    eapply SteadyState.steps_S;
      [eapply SteadyState.step_warmup;
       [reflexivity | cbn; lia | cbn; lia | reflexivity]|].
    eapply SteadyState.steps_S;
      [eapply (@SteadyState.step_complete _ _ _ _ _ _ _ _ _
                 [0%nat] 1%nat []);
       reflexivity|].
    apply SteadyState.steps_O.
  - split; reflexivity.
Qed.

(** ** The evolver's parts at concrete runs *)

(** The scenario of the spec: after the five records the counter is 3,
    which is not above the patience 3; a sixth record without improvement
    makes the early stop fire. *)
Lemma C5_early_stop_needs_every_objective_witness :
  let start := EarlyStop.start [Some 0] in
  let sixth := [(1, [Some (2 # 10)])] in
  EarlyStop.fires (Some 3%nat) None
                  (EarlyStop.run (Example.scenario ++ sixth) start) = true /\
  EarlyStop.fires (Some 3%nat) None (EarlyStop.run Example.scenario start)
  = false /\
  map EarlyStop.since_improvement_count
      (EarlyStop.run Example.scenario start) = [3%nat].
Proof.
  cbv zeta. split; [|split; reflexivity].
  apply (proj2 (proj1
    (@C5_early_stop_needs_every_objective nat nat (Pandas.frame nat)
       Example.scorer_registry Example.default_rng (Some 3%nat) None _))).
  left. exists 3%nat. split; [reflexivity|].
  intros o [<- | []]. eexists. split; [reflexivity|]. cbn. lia.
Defined.

Lemma C6_budget_monotone_clamped_frozen_witness :
  Budget.budget Example.square (1, 10) 100 5 100 == 10 /\
  Budget.budget Example.square (1, 10) 100 5 0
  <= Budget.budget Example.square (1, 10) 100 5 50 /\
  1 <= Budget.budget Example.square (1, 10) 100 5 50.
Proof.
  assert (Hmono : forall x y, 0 <= x -> x <= y -> y <= 1 ->
                              Example.square x <= Example.square y).
  { intros x y H0 Hxy _. unfold Example.square.
    apply Qmult_le_compat_nonneg; split; assumption. }
  assert (Hone : Example.square 1 == 1) by reflexivity.
  destruct (@C6_budget_monotone_clamped_frozen Example.square Hmono Hone
              1 10 100%nat 5%nat ltac:(lia) ltac:(lia))
    as [Hm [Hb Hf]].
  split; [apply Hf; lia|]. split.
  - apply (Hm 0%nat 50%nat); [lia | discriminate].
  - apply (Hb 50%nat). discriminate.
Defined.

(** The run of the loop estimator with one evaluation in flight, four
    steps long, in the world where every evaluation takes a second. *)
Lemma loop_run_on_time :
  exists s,
    Example.loop_steps Samples.loop_estimator Example.on_time 1 4 s /\
    SteadyState.generated s = [0; 1; 202]%nat /\
    SteadyState.store s
    = [(0%nat, SteadyState.Scored [0]); (1%nat, SteadyState.Scored [1])].
Proof.
  unfold Example.loop_steps.
  eexists. split; [|split].
  - eapply SteadyState.steps_S;
      [eapply SteadyState.step_warmup;
       [reflexivity | cbn; lia | cbn; lia | reflexivity]|].
    eapply SteadyState.steps_S;
      [eapply (@SteadyState.step_complete _ _ _ _ _ _ _ _ _ [] 0%nat []);
       reflexivity|].
    eapply SteadyState.steps_S;
      [eapply SteadyState.step_warmup;
       [reflexivity | cbn; lia | cbn; lia | reflexivity]|].
    eapply SteadyState.steps_S;
      [eapply (@SteadyState.step_complete _ _ _ _ _ _ _ _ _ [] 1%nat []);
       reflexivity|].
    apply SteadyState.steps_O.
  - reflexivity.
  - reflexivity.
Qed.

(** The same run in the world where the first evaluation takes eleven
    minutes, which is past the deadline of ten. *)
Lemma loop_run_first_late :
  exists s,
    Example.loop_steps Samples.loop_estimator Example.first_late 1 4 s /\
    SteadyState.generated s = [0; 1; 102]%nat /\
    SteadyState.store s
    = [(0%nat, SteadyState.Timeout); (1%nat, SteadyState.Scored [1])].
Proof.
  unfold Example.loop_steps.
  eexists. split; [|split].
  - eapply SteadyState.steps_S;
      [eapply SteadyState.step_warmup;
       [reflexivity | cbn; lia | cbn; lia | reflexivity]|].
    eapply SteadyState.steps_S;
      [eapply (@SteadyState.step_complete _ _ _ _ _ _ _ _ _ [] 0%nat []);
       reflexivity|].
    eapply SteadyState.steps_S;
      [eapply SteadyState.step_warmup;
       [reflexivity | cbn; lia | cbn; lia | reflexivity]|].
    eapply SteadyState.steps_S;
      [eapply (@SteadyState.step_complete _ _ _ _ _ _ _ _ _ [] 1%nat []);
       reflexivity|].
    apply SteadyState.steps_O.
  - reflexivity.
  - reflexivity.
Qed.

Lemma C8_fixed_seed_same_world_deterministic_witness :
  Example.init Example.loop_args = Ok Samples.loop_estimator /\
  exists s,
    Example.loop_steps Samples.loop_estimator Example.on_time 1 4 s /\
    SteadyState.generated s = [0; 1; 202]%nat /\
    forall s',
      Example.loop_steps Samples.loop_estimator Example.on_time 1 4 s' ->
      s' = s.
Proof.
  split; [reflexivity|].
  destruct loop_run_on_time as [s [Hrun [Hgen _]]].
  exists s. split; [exact Hrun|]. split; [exact Hgen|].
  intros s' Hrun'.
  apply (proj2 (proj2 (proj2 (proj2
    (@C8_fixed_seed_same_world_deterministic
       nat nat (Pandas.frame nat) Example.scorer_registry
       Example.default_rng Example.generate Example.vary Example.objective
       Example.loop_args 42%Z 8%nat 7%nat
       Samples.loop_estimator Samples.loop_estimator Example.on_time
       4%nat s' s eq_refl eq_refl eq_refl Hrun' Hrun))))).
Defined.

(** One estimator with the seed 42, one evaluation in flight at most,
    two worlds that differ in how long the first evaluation takes: on
    time it is recorded with its score, eleven minutes long it is
    recorded as [TIMEOUT]; the third individual is made from the records
    and differs. Each world allows this one run. *)
Lemma C8_same_seed_other_timing_diverges :
  let self := Samples.loop_estimator in
  Estimator.random_state (Estimator.params self) = Some 42%Z /\
  exists s1 s2,
    Example.loop_steps self Example.on_time 1 4 s1 /\
    Example.loop_steps self Example.first_late 1 4 s2 /\
    (forall s, Example.loop_steps self Example.on_time 1 4 s -> s = s1) /\
    (forall s, Example.loop_steps self Example.first_late 1 4 s -> s = s2) /\
    SteadyState.store s1
    = [(0%nat, SteadyState.Scored [0]); (1%nat, SteadyState.Scored [1])] /\
    SteadyState.store s2
    = [(0%nat, SteadyState.Timeout); (1%nat, SteadyState.Scored [1])] /\
    SteadyState.generated s1 = [0; 1; 202]%nat /\
    SteadyState.generated s2 = [0; 1; 102]%nat /\
    SteadyState.store s1 <> SteadyState.store s2 /\
    SteadyState.generated s1 <> SteadyState.generated s2.
Proof.
  cbv zeta. split; [reflexivity|].
  destruct loop_run_on_time as [s1 [Hrun1 [Hgen1 Hstore1]]].
  destruct loop_run_first_late as [s2 [Hrun2 [Hgen2 Hstore2]]].
  exists s1, s2.
  split; [exact Hrun1|]. split; [exact Hrun2|].
  split; [|split].
  - intros s Hrun. unfold Example.loop_steps in *.
    eapply steps_functional; [|exact Hrun | exact Hrun1]. cbn. lia.
  - intros s Hrun. unfold Example.loop_steps in *.
    eapply steps_functional; [|exact Hrun | exact Hrun2]. cbn. lia.
  - rewrite Hstore1, Hstore2, Hgen1, Hgen2.
    repeat split; discriminate.
Qed.


(** * Further properties of the code *)

(** ** The candidates of the final selection, completely *)

Section CandidatesComplete.
Import Pandas Estimator.
Variables Ind RngState Evolver Data : Type.
Variable final_fit_ok : Data -> Ind -> bool.

(** The labels tried by the final selection are, without repetition,
    exactly the labels of the rows that carry no failure marker in the
    columns of the selection. *)
Theorem best_indices_exactly_unfailed :
  forall (ei : frame Ind) (names : list string) (weights : list Q)
         (bigger : bool) (l : list nat),
    best_indices ei names weights bigger = Ok l ->
    NoDup l /\
    forall idx,
      In idx l <->
      exists r, loc ei idx = Ok r /\
                forall name, In name names ->
                             is_failure_marker (get r name) = false.
Proof.
  intros ei names weights bigger l Hbest.
  rewrite best_indices_closed in Hbest.
  destruct (forallb (has_column ei) names); [|discriminate].
  destruct (Nat.eqb _ _); [|discriminate].
  injection Hbest as <-.
  pose proof (sort_values_perm (negb bigger) (candidates ei names weights))
    as Hperm.
  assert (Hidx : Permutation (index (candidates ei names weights))
                             (index (sort_values (negb bigger)
                                       (candidates ei names weights))))
    by (apply Permutation_map; exact Hperm).
  split.
  - apply (Permutation_NoDup Hidx). apply candidates_index_NoDup.
  - intros idx. split.
    + intros Hin. apply candidates_In with (weights := weights).
      apply (Permutation_in idx (Permutation_sym Hidx) Hin).
    + intros [r [Hloc Hok]].
      apply (Permutation_in idx Hidx).
      apply candidates_In_conv with (r := r); assumption.
Qed.

(** The final selection raises only for a column that the table does not
    have ([KeyError]) or, with all columns there, for a number of weights
    that is not the number of columns ([ValueError]), and this also on a
    table without rows; the conversion to floats never raises. *)
Theorem best_indices_errors :
  forall (ei : frame Ind) (names : list string) (weights : list Q)
         (bigger : bool),
    (best_indices ei names weights bigger = Raise KeyError <->
     exists name, In name names /\ has_column ei name = false) /\
    (best_indices ei names weights bigger = Raise ValueError <->
     (forall name, In name names -> has_column ei name = true) /\
     List.length weights <> List.length names) /\
    ((exists l, best_indices ei names weights bigger = Ok l) <->
     (forall name, In name names -> has_column ei name = true) /\
     List.length weights = List.length names).
Proof.
  intros ei names weights bigger. rewrite best_indices_closed.
  destruct (forallb (has_column ei) names) eqn:Hcols.
  - rewrite forallb_forall in Hcols.
    assert (Hnone : ~ exists name, In name names /\ has_column ei name = false).
    { intros [name [Hin Hno]]. rewrite (Hcols name Hin) in Hno.
      discriminate. }
    destruct (Nat.eqb (List.length weights) (List.length names)) eqn:Hlen.
    + apply Nat.eqb_eq in Hlen.
      split; [split; intros H; [discriminate H | contradiction]|].
      split; [split; intros H; [discriminate H | destruct H; congruence]|].
      split; intros H; [split; assumption | eexists; reflexivity].
    + apply Nat.eqb_neq in Hlen.
      split; [split; intros H; [discriminate H | contradiction]|].
      split; [split; intros H; [split; assumption | reflexivity]|].
      split; intros H;
        [destruct H as [l H]; discriminate H | destruct H; congruence].
  - assert (Hmiss : exists name, In name names /\ has_column ei name = false).
    { destruct (existsb (fun n => negb (has_column ei n)) names) eqn:He.
      - apply existsb_exists in He as [name [Hin Hn]].
        exists name. split; [exact Hin | apply negb_true_iff; exact Hn].
      - exfalso. enough (forallb (has_column ei) names = true) by congruence.
        apply forallb_forall. intros name Hin.
        destruct (has_column ei name) eqn:Hc; [reflexivity|].
        assert (existsb (fun n => negb (has_column ei n)) names = true).
        { apply existsb_exists. exists name. rewrite Hc. auto. }
        congruence. }
    assert (Hnot : ~ forall name, In name names -> has_column ei name = true).
    { intros Hall. destruct Hmiss as [name [Hin Hno]].
      rewrite (Hall name Hin) in Hno. discriminate. }
    split; [split; intros H; [exact Hmiss | reflexivity]|].
    split; [split; intros H; [discriminate H | destruct H; contradiction]|].
    split; intros H;
      [destruct H as [l H]; discriminate H | destruct H; contradiction].
Qed.

(** When the fit of every candidate raises, the loop still ends without
    an exception: [fitted_pipeline_] is then the pipeline of the last
    candidate, not fitted; without any candidate the attributes stay as
    they were. *)
Theorem refit_loop_nothing_fits :
  forall (XY : Data) (ei : frame Ind)
         (self : estimator Ind RngState Evolver),
    refit_loop final_fit_ok XY ei [] self = (Ok tt, self) /\
    forall (front : list nat) (idx : nat) (r : row Ind),
      (forall i, In i front ->
                 exists r', loc ei i = Ok r' /\
                            final_fit_ok XY (Individual r') = false) ->
      loc ei idx = Ok r ->
      final_fit_ok XY (Individual r) = false ->
      refit_loop final_fit_ok XY ei (front ++ [idx]) self
      = (Ok tt, set_selected self idx r false) /\
      fitted_pipeline_ (set_selected self idx r false)
      = Some (Individual r, false).
Proof.
  intros XY ei self. split; [reflexivity|].
  intros front idx r Hfront Hloc Hfail. split; [|reflexivity].
  revert self. induction front as [|i front IH]; intros self;
    cbn [app refit_loop].
  - unfold bindM, lift, get_self, put_self, ret. rewrite Hloc, Hfail.
    reflexivity.
  - destruct (Hfront i (or_introl eq_refl)) as [r' [Hi Hf]].
    unfold bindM at 1, lift at 1. rewrite Hi.
    unfold bindM at 1, get_self at 1.
    unfold bindM at 1, put_self at 1.
    rewrite Hf.
    rewrite IH by (intros; apply Hfront; right; assumption).
    reflexivity.
Qed.

End CandidatesComplete.

(** ** [fit] and the parameters *)

Section FitKeepsConfiguration.
Import Pandas Estimator Attributes.
Variables Ind RngState Evolver Data : Type.
Variable shape : Data -> nat * nat.
Variable _evolver :
  EvolverArgs.kwargs -> Data -> RngState -> Evolver * RngState.
Variable optimize : Evolver -> RngState -> Evolver * RngState.
Variable population_evaluated_individuals : Evolver -> frame Ind.
Variable get_pareto_frontier :
  frame Ind -> list string -> list Q -> frame Ind.
Variable simple_parallel_optuna : Data -> list Ind -> list (Ind * list cell).
Variable parallel_eval_objective_list :
  string -> Data -> list Ind -> list (list cell).
Variable final_fit_ok : Data -> Ind -> bool.
Variable check_if_y_is_encoded : Data -> bool.
Variable labels_of : Data -> list string.

Let estimator := estimator Ind RngState Evolver.

Lemma keeps_bind {A B : Type} (m : M estimator A) (k : A -> M estimator B) :
  keeps m -> (forall a, keeps (k a)) -> keeps (bindM m k).
Proof.
  intros Hm Hk self. unfold bindM. specialize (Hm self).
  destruct (m self) as [[a|e] self1]; cbn [snd] in *.
  - rewrite (Hk a self1). exact Hm.
  - exact Hm.
Qed.

Lemma keeps_ret {A : Type} (a : A) : @keeps Ind RngState Evolver _
    (ret (S := estimator) a).
Proof. intros self. reflexivity. Qed.

Lemma keeps_lift {A : Type} (r : result A) : @keeps Ind RngState Evolver _
    (lift (S := estimator) r).
Proof. intros self. reflexivity. Qed.

Lemma keeps_evolve_step (XY : Data) :
  @keeps Ind RngState Evolver _
    (evolve_step _evolver optimize XY).
Proof.
  intros self. unfold evolve_step, bindM, get_self, put_self, ret, lift.
  destruct (negb _).
  - destruct (_evolver (evolver_kwargs self) XY (Estimator.rng self))
      as [inst g]. cbn.
    destruct (optimize inst g) as [inst' g']. reflexivity.
  - destruct (_evolver_instance self) as [inst|]; [|reflexivity].
    destruct (optimize inst (Estimator.rng self)) as [inst' g']. reflexivity.
Qed.

Lemma keeps_make_evaluated_individuals :
  @keeps Ind RngState Evolver _
    (make_evaluated_individuals population_evaluated_individuals).
Proof.
  intros self.
  unfold make_evaluated_individuals, bindM, get_self, put_self, ret, lift.
  destruct (evaluated_individuals self); [reflexivity|].
  destruct (_evolver_instance self); reflexivity.
Qed.

Lemma keeps_optuna_step (XY : Data) :
  @keeps Ind RngState Evolver _
    (optuna_step simple_parallel_optuna XY).
Proof.
  intros self. unfold optuna_step, bindM, get_self, put_self, ret, lift.
  destruct (optuna_optimize_pareto_front (params self)); [|reflexivity].
  destruct (pareto_front self); [|reflexivity].
  destruct (evaluated_individuals self); [|reflexivity].
  destruct (Nat.ltb _ _); reflexivity.
Qed.

Lemma keeps_pareto_step : @keeps Ind RngState Evolver _
    (pareto_step get_pareto_frontier).
Proof.
  intros self. unfold pareto_step, bindM, get_self, put_self, lift.
  destruct (evaluated_individuals self); reflexivity.
Qed.

Lemma keeps_validation_step (strategy : string) (XY : Data) :
  @keeps Ind RngState Evolver _
    (validation_step get_pareto_frontier parallel_eval_objective_list
                         strategy XY).
Proof.
  intros self. unfold validation_step, bindM, get_self, put_self, lift.
  destruct (_ || _); [|reflexivity].
  destruct (pareto_front self); [|reflexivity].
  destruct (evaluated_individuals self); [|reflexivity].
  destruct (loc_set _ _ _ _); reflexivity.
Qed.

Lemma keeps_refit_loop (XY : Data) (ei : frame Ind) :
  forall l, @keeps Ind RngState Evolver _
    (refit_loop final_fit_ok XY ei l).
Proof.
  induction l as [|i l IH]; intros self; cbn [refit_loop].
  - reflexivity.
  - unfold bindM at 1, lift at 1.
    destruct (loc ei i) as [r|e]; [|reflexivity].
    unfold bindM at 1, get_self at 1.
    unfold bindM at 1, put_self at 1.
    destruct (final_fit_ok XY (Individual r)).
    + reflexivity.
    + rewrite (IH (set_selected self i r false)). reflexivity.
Qed.

Lemma keeps_final_selection (XY : Data) :
  @keeps Ind RngState Evolver _
    (final_selection final_fit_ok XY).
Proof.
  intros self. unfold final_selection, bindM at 1, get_self at 1.
  destruct (evaluated_individuals self) as [ei|]; [|reflexivity].
  destruct (objective_names_for_selection self) as [names|]; [|reflexivity].
  unfold bindM, lift.
  destruct (best_indices _ _ _ _) as [l|e]; [|reflexivity].
  apply keeps_refit_loop.
Qed.

Lemma keeps_fit_search (XY : Data) :
  @keeps Ind RngState Evolver _
    (fit_search shape _evolver optimize
                    population_evaluated_individuals XY).
Proof.
  intros self. unfold fit_search.
  unfold bindM at 1, get_self at 1.
  unfold bindM at 1, put_self at 1.
  unfold bindM at 1, lift at 1.
  destruct (resolve_validation_strategy shape (params self) XY)
    as [strategy|e]; [|reflexivity].
  assert (H : @keeps Ind RngState Evolver _
    (do _ <- evolve_step _evolver optimize XY;
                     do _ <- make_evaluated_individuals
                               population_evaluated_individuals;
                     ret strategy)).
  { apply keeps_bind; [apply keeps_evolve_step|]. intros _.
    apply keeps_bind; [apply keeps_make_evaluated_individuals|]. intros _.
    apply keeps_ret. }
  rewrite (H (set_evaluated_individuals self None)). reflexivity.
Qed.

Lemma keeps_set_up (XY : Data) :
  @keeps Ind RngState Evolver _
    (set_up check_if_y_is_encoded labels_of XY).
Proof. intros self. reflexivity. Qed.

Lemma keeps_shut_down :
  @keeps Ind RngState Evolver _ (@shut_down Ind RngState Evolver).
Proof. intros self. reflexivity. Qed.

(** [fit] never changes the parameters of the estimator nor what
    [__init__] derived from them (the scorers, the weights, the names of
    the objectives, the tolerances), whatever the collaborators return and
    whether [fit] returns or raises. *)
Theorem fit_keeps_configuration :
  forall (XY : Data) (self : estimator),
    configuration
      (snd (fit shape _evolver optimize population_evaluated_individuals
                get_pareto_frontier simple_parallel_optuna
                parallel_eval_objective_list final_fit_ok
                check_if_y_is_encoded labels_of XY self))
    = configuration self.
Proof.
  intros XY. change (@keeps Ind RngState Evolver _
    (fit shape _evolver optimize
                                population_evaluated_individuals
                                get_pareto_frontier simple_parallel_optuna
                                parallel_eval_objective_list final_fit_ok
                                check_if_y_is_encoded labels_of XY)).
  unfold fit.
  apply keeps_bind; [apply keeps_set_up|]. intros _.
  apply keeps_bind; [apply keeps_fit_search|]. intros strategy.
  apply keeps_bind; [apply keeps_optuna_step|]. intros _.
  apply keeps_bind; [apply keeps_pareto_step|]. intros _.
  apply keeps_bind; [apply keeps_validation_step|]. intros _.
  apply keeps_bind; [apply keeps_final_selection|]. intros _.
  apply keeps_shut_down.
Qed.

End FitKeepsConfiguration.

(** ** The constructor, further *)

Section InitFurther.
Import Pandas Estimator.
Variables Ind RngState Evolver : Type.
Variable scorer_registry : string -> option scorer.
Variable default_rng : Z -> RngState.

Lemma mapM_get_scorer_Raise (l : list scoring) :
  (exists s, In (ByName s) l /\ scorer_registry s = None) ->
  mapM (get_scorer scorer_registry) l = Raise ValueError.
Proof.
  induction l as [|x l IH]; intros [s [Hin Hnone]].
  - destruct Hin.
  - cbn. destruct Hin as [-> | Hin].
    + cbn. rewrite Hnone. reflexivity.
    + rewrite (IH (ex_intro _ s (conj Hin Hnone))).
      destruct x as [n | f]; cbn; [|reflexivity].
      destruct (scorer_registry n); reflexivity.
Qed.

(** On arguments of the types of [args], the constructor raises exactly
    when [random_state] is a negative integer or a scorer is given by a
    name that sklearn does not know, and then with a [ValueError]; it
    returns an estimator exactly when neither is the case. *)
Theorem init_raises_iff_bad_seed_or_scorer :
  forall (entropy : RngState) (a : args),
    (__init__ Ind Evolver scorer_registry default_rng entropy a
     = Raise ValueError <->
     (exists seed, random_state a = Some seed /\ (seed < 0)%Z) \/
     (exists s, In (ByName s) (scorers_as_list (scorers a)) /\
                scorer_registry s = None)) /\
    ((exists self : estimator Ind RngState Evolver,
         __init__ Ind Evolver scorer_registry default_rng entropy a
         = Ok self) <->
     (forall seed, random_state a = Some seed -> (0 <= seed)%Z) /\
     (forall s, In (ByName s) (scorers_as_list (scorers a)) ->
                scorer_registry s <> None)) /\
    (forall e,
        __init__ Ind Evolver scorer_registry default_rng entropy a
        = Raise e -> e = ValueError).
Proof.
  intros entropy a.
  assert (Hdec : (exists s, In (ByName s) (scorers_as_list (scorers a)) /\
                            scorer_registry s = None) \/
                 (forall s, In (ByName s) (scorers_as_list (scorers a)) ->
                            scorer_registry s <> None)).
  { induction (scorers_as_list (scorers a)) as [|x l IH].
    - right. intros s0 [].
    - destruct IH as [[s0 [Hin Hn]] | Hall].
      + left. exists s0. split; [right; exact Hin | exact Hn].
      + destruct x as [n | f].
        * destruct (scorer_registry n) eqn:Hn.
          -- right. intros s0 [Heq | Hin]; [|apply Hall; exact Hin].
             injection Heq as <-. congruence.
          -- left. exists n. split; [left; reflexivity | exact Hn].
        * right. intros s0 [Heq | Hin];
            [discriminate | apply Hall; exact Hin].
  }
  assert (Hseed : (exists seed, random_state a = Some seed /\ (seed < 0)%Z)
                  \/ (forall seed, random_state a = Some seed ->
                                   (0 <= seed)%Z)).
  { destruct (random_state a) as [seed|].
    - destruct (Z.ltb_spec seed 0) as [Hneg | Hpos].
      + left. exists seed. split; [reflexivity | exact Hneg].
      + right. intros seed' [= <-]. exact Hpos.
    - right. intros seed' [=]. }
  destruct Hseed as [Hneg | Hpos].
  - assert (Hraise : __init__ Ind Evolver scorer_registry default_rng
                              entropy a = Raise ValueError).
    { destruct Hneg as [seed [Hs Hlt]]. unfold __init__, seeded.
      rewrite Hs. apply Z.ltb_lt in Hlt. rewrite Hlt. reflexivity. }
    rewrite Hraise. split; [|split].
    + split; [intros _; left; exact Hneg | reflexivity].
    + split.
      * intros [self H]. discriminate.
      * intros [Hall _]. destruct Hneg as [seed [Hs Hlt]].
        specialize (Hall seed Hs). lia.
    + intros e [= <-]. reflexivity.
  - destruct (seeded_Ok default_rng entropy Hpos) as [g Hg].
    destruct Hdec as [Hbad | Hgood].
    + assert (Hraise : __init__ Ind Evolver scorer_registry default_rng
                                entropy a = Raise ValueError).
      { unfold __init__. rewrite Hg. cbn [bind].
        rewrite (mapM_get_scorer_Raise _ Hbad). reflexivity. }
      rewrite Hraise. split; [|split].
      * split; [intros _; right; exact Hbad | reflexivity].
      * split.
        -- intros [self H]. discriminate.
        -- intros [_ Hall]. destruct Hbad as [s [Hin Hnone]].
           destruct (Hall s Hin Hnone).
      * intros e [= <-]. reflexivity.
    + destruct (mapM_get_scorer_Ok scorer_registry _ Hgood)
        as [fs [Hfs _]].
      unfold __init__. rewrite Hg. cbn [bind]. rewrite Hfs. cbn [bind].
      split; [|split].
      * split; [discriminate|].
        intros [[seed [Hs Hlt]] | [s [Hin Hnone]]].
        -- specialize (Hpos seed Hs). lia.
        -- destruct (Hgood s Hin Hnone).
      * split; [intros _; split; assumption|].
        intros _. eexists. reflexivity.
      * discriminate.
Qed.


(** A tolerance passed as a list is taken as it is: the constructor does
    not compare its length with the number of objectives. *)
Theorem init_takes_tolerance_lists_as_given :
  forall (entropy : RngState) (a : args)
         (self : estimator Ind RngState Evolver)
         (tols_scorers tols_others : list (option Q)),
    __init__ Ind Evolver scorer_registry default_rng entropy a = Ok self ->
    scorers_early_stop_tol a = TolList tols_scorers ->
    other_objectives_early_stop_tol a = TolList tols_others ->
    early_stop_tol self = tols_scorers ++ tols_others.
Proof.
  intros entropy a self ts to Hinit Hts Hto.
  unfold __init__ in Hinit.
  destruct (seeded default_rng entropy (random_state a)) as [g0|];
    [|discriminate].
  cbn [bind] in Hinit.
  destruct (mapM (get_scorer scorer_registry) (scorers_as_list (scorers a)));
    [|discriminate].
  cbn [bind] in Hinit. injection Hinit as <-. cbn [early_stop_tol].
  rewrite Hts, Hto. reflexivity.
Qed.

End InitFurther.

(** ** The table and its front *)

Section TableFurther.
Import Pandas Estimator.
Variables Ind RngState Evolver : Type.
Variable population_evaluated_individuals : Evolver -> frame Ind.

Let estimator := estimator Ind RngState Evolver.

Lemma labelled_index (df : frame Ind) :
  index (labelled df) = seq 0 (List.length (rows df)).
Proof. unfold index, labelled. apply combine_seq_fst. Qed.

(** The front is a part of the table under the labels of the table: every
    row of it is the row the table has at that label, no label comes
    twice, and a table without a column [Pareto_Front] is its own front. *)
Theorem pareto_front_rows_of_table :
  forall (self : estimator) (ei : frame Ind),
    evaluated_individuals self = Some ei ->
    exists front,
      pareto_front self = Some front /\
      (forall i r, In (i, r) front -> loc ei i = Ok r) /\
      NoDup (index front) /\
      (has_column ei "Pareto_Front" = false -> front = labelled ei).
Proof.
  intros self ei Hei. unfold pareto_front. rewrite Hei.
  destruct (has_column ei "Pareto_Front") eqn:Hcol; cbn [negb].
  - exists (where_eq_one ei "Pareto_Front").
    split; [reflexivity|]. split; [|split].
    + intros i r Hin. unfold where_eq_one in Hin.
      apply filter_In in Hin as [Hin _]. apply labelled_loc; exact Hin.
    + unfold index, where_eq_one. apply NoDup_map_fst_filter.
      change (NoDup (index (labelled ei))).
      rewrite labelled_index. apply seq_NoDup.
    + discriminate.
  - exists (labelled ei).
    split; [reflexivity|]. split; [|split].
    + intros i r Hin. apply labelled_loc; exact Hin.
    + rewrite labelled_index. apply seq_NoDup.
    + reflexivity.
Qed.

(** [make_evaluated_individuals] builds the table once: with a table in
    place it returns that table and reads nothing from the evolver, so a
    later change of the evolver does not show; with neither table nor
    evolver it raises and changes nothing. *)
Theorem make_evaluated_individuals_keeps_table :
  forall (self : estimator),
    (forall df,
        evaluated_individuals self = Some df ->
        forall (inst : Evolver) (g : RngState),
          make_evaluated_individuals population_evaluated_individuals
                                     (set_evolver_instance self inst g)
          = (Ok (Some df), set_evolver_instance self inst g)) /\
    (forall inst,
        evaluated_individuals self = None ->
        _evolver_instance self = Some inst ->
        let df := with_instances (population_evaluated_individuals inst) in
        make_evaluated_individuals population_evaluated_individuals self
        = (Ok (Some df), set_evaluated_individuals self (Some df)) /\
        rows df = rows (population_evaluated_individuals inst) /\
        has_column df "Instance" = true) /\
    (evaluated_individuals self = None ->
     _evolver_instance self = None ->
     make_evaluated_individuals population_evaluated_individuals self
     = (Raise AttributeError, self)).
Proof.
  intros self. split; [|split].
  - intros df Hdf inst g.
    unfold make_evaluated_individuals, bindM, get_self, ret.
    cbn [evaluated_individuals set_evolver_instance]. rewrite Hdf.
    reflexivity.
  - intros inst Hnone Hinst df. subst df. split; [|split].
    + unfold make_evaluated_individuals, bindM, get_self, put_self, ret.
      rewrite Hnone, Hinst. reflexivity.
    + reflexivity.
    + unfold has_column, with_instances. cbn [columns].
      rewrite existsb_app. cbn. rewrite orb_true_r. reflexivity.
  - intros Hnone Hinst.
    unfold make_evaluated_individuals, bindM, get_self, lift.
    rewrite Hnone, Hinst. reflexivity.
Qed.

End TableFurther.

(** ** The validation strategy *)

Section ValidationStrategy.
Import Pandas Estimator.
Variables Ind RngState Evolver Data : Type.
Variable shape : Data -> nat * nat.
Variable _evolver :
  EvolverArgs.kwargs -> Data -> RngState -> Evolver * RngState.
Variable optimize : Evolver -> RngState -> Evolver * RngState.
Variable population_evaluated_individuals : Evolver -> frame Ind.
Variable get_pareto_frontier :
  frame Ind -> list string -> list Q -> frame Ind.
Variable simple_parallel_optuna : Data -> list Ind -> list (Ind * list cell).
Variable parallel_eval_objective_list :
  string -> Data -> list Ind -> list (list cell).
Variable final_fit_ok : Data -> Ind -> bool.
Variable check_if_y_is_encoded : Data -> bool.
Variable labels_of : Data -> list string.

Let estimator := estimator Ind RngState Evolver.

Lemma ratio_lt (n c k : nat) :
  (0 < c)%nat ->
  (inject_Z (Z.of_nat n) / inject_Z (Z.of_nat c) < inject_Z (Z.of_nat k)
   <-> (n < k * c)%nat)%Q.
Proof.
  intros Hc.
  assert (Hc' : 0 < inject_Z (Z.of_nat c)).
  { change 0 with (inject_Z 0). rewrite <- Zlt_Qlt. lia. }
  split.
  - intros H. destruct (Nat.lt_ge_cases n (k * c)) as [Hlt | Hge];
      [exact Hlt|].
    exfalso. apply (Qlt_not_le _ _ H).
    apply Qle_shift_div_l; [exact Hc'|].
    rewrite <- inject_Z_mult, <- Zle_Qle. lia.
  - intros H. apply Qlt_shift_div_r; [exact Hc'|].
    rewrite <- inject_Z_mult, <- Zlt_Qlt. lia.
Qed.

(** With the strategy [auto] and a table of [nrows] rows and [ncols > 0]
    columns, the strategy is [reshuffled] below 20 rows per column, [split]
    from there to below 100, and [none] from 100 on; without columns the
    division raises; any other strategy is passed through as written. *)
Theorem resolve_validation_strategy_thresholds :
  forall (a : args) (XY : Data) (nrows ncols : nat),
    shape XY = (nrows, ncols) ->
    (validation_strategy a = "auto"%string ->
     (ncols = 0%nat ->
      resolve_validation_strategy shape a XY = Raise ZeroDivisionError) /\
     ((0 < ncols)%nat ->
      resolve_validation_strategy shape a XY
      = Ok (if Nat.ltb nrows (20 * ncols) then "reshuffled"
            else if Nat.ltb nrows (100 * ncols) then "split"
                 else "none")%string)) /\
    (validation_strategy a <> "auto"%string ->
     resolve_validation_strategy shape a XY = Ok (validation_strategy a)).
Proof.
  intros a XY nrows ncols Hshape. unfold resolve_validation_strategy.
  split.
  - intros ->. cbn [String.eqb Ascii.eqb Bool.eqb]. rewrite Hshape.
    split.
    + intros ->. reflexivity.
    + intros Hc. replace (Nat.eqb ncols 0) with false
        by (symmetry; apply Nat.eqb_neq; lia).
      pose proof (ratio_lt nrows 20 Hc) as H20.
      pose proof (ratio_lt nrows 100 Hc) as H100.
      change (inject_Z (Z.of_nat 20)) with 20 in H20.
      change (inject_Z (Z.of_nat 100)) with 100 in H100.
      destruct (Qlt_le_dec _ 20) as [Hlt | Hge].
      * apply H20 in Hlt. apply Nat.ltb_lt in Hlt. rewrite Hlt. reflexivity.
      * assert (Hn20 : Nat.ltb nrows (20 * ncols) = false).
        { apply Nat.ltb_ge. destruct (Nat.lt_ge_cases nrows (20 * ncols))
            as [Hlt | Hok]; [|exact Hok].
          apply H20 in Hlt. exfalso. apply (Qlt_not_le _ _ Hlt Hge). }
        rewrite Hn20.
        destruct (Qlt_le_dec _ 100) as [Hlt | Hge'].
        -- apply H100 in Hlt. apply Nat.ltb_lt in Hlt. rewrite Hlt.
           reflexivity.
        -- assert (Hn100 : Nat.ltb nrows (100 * ncols) = false).
           { apply Nat.ltb_ge.
             destruct (Nat.lt_ge_cases nrows (100 * ncols))
               as [Hlt | Hok]; [|exact Hok].
             apply H100 in Hlt. exfalso. apply (Qlt_not_le _ _ Hlt Hge'). }
           rewrite Hn100. reflexivity.
  - intros Hne.
    destruct (String.eqb (validation_strategy a) "auto") eqn:Heq;
      [|reflexivity].
    apply String.eqb_eq in Heq. contradiction.
Qed.

(** With the strategy [auto] and a table without columns, [fit] raises
    the error of the division. By then it has started a cluster when no
    client was passed in, which it leaves open; it has put a new label
    encoder in place of the one before when the labels of a
    classification are not encoded (and the encoder is not disabled);
    and it has dropped the table of the run before. The parameters, the
    generator, the evolver and the selection of the run before are as
    they were. *)
Theorem fit_auto_without_columns :
  forall (XY : Data) (self : estimator) (nrows : nat),
    validation_strategy (params self) = "auto"%string ->
    shape XY = (nrows, 0%nat) ->
    let out :=
      fit shape _evolver optimize population_evaluated_individuals
          get_pareto_frontier simple_parallel_optuna
          parallel_eval_objective_list final_fit_ok
          check_if_y_is_encoded labels_of XY self in
    fst out = Raise ZeroDivisionError /\
    snd out
    = set_evaluated_individuals
        (set_up_state check_if_y_is_encoded labels_of XY self) None /\
    evaluated_individuals (snd out) = None /\
    open_clusters (snd out)
    = match client (params self) with
      | Some _ => open_clusters self
      | None => S (open_clusters self)
      end /\
    label_encoder_ (snd out)
    = (if classification (params self)
          && negb (disable_label_encoder (params self))
          && negb (check_if_y_is_encoded XY)
       then Some {| classes_ := labels_of XY |}
       else label_encoder_ self) /\
    params (snd out) = params self /\
    rng (snd out) = rng self /\
    _evolver_instance (snd out) = _evolver_instance self /\
    objective_names_for_selection (snd out)
    = objective_names_for_selection self /\
    selected_best_score (snd out) = selected_best_score self /\
    fitted_pipeline_ (snd out) = fitted_pipeline_ self.
Proof.
  intros XY self nrows Hauto Hshape out.
  assert (Hout : out = (Raise ZeroDivisionError,
                        set_evaluated_individuals
                          (set_up_state check_if_y_is_encoded labels_of
                                        XY self) None)).
  { subst out. unfold fit, set_up, fit_search.
    unfold bindM, get_self, put_self, lift.
    unfold resolve_validation_strategy.
    cbn [params set_evaluated_individuals set_up_state].
    rewrite Hauto, Hshape. reflexivity. }
  rewrite Hout. cbn [fst snd]. repeat split.
Qed.

(** A strategy that is none of [auto], [reshuffled] and [split], such as
    a misspelt one, is accepted without an error and has the effect of
    [none]: no validation, and the selection on the objective columns. *)
Theorem unknown_validation_strategy_is_none :
  forall (XY : Data) (self : estimator),
    validation_strategy (params self) <> "auto"%string ->
    validation_strategy (params self) <> "reshuffled"%string ->
    validation_strategy (params self) <> "split"%string ->
    resolve_validation_strategy shape (params self) XY
    = Ok (validation_strategy (params self)) /\
    validation_step get_pareto_frontier parallel_eval_objective_list
                    (validation_strategy (params self)) XY self
    = (Ok tt, set_objective_names_for_selection self (objective_names self)).
Proof.
  intros XY self Hauto Hre Hsplit.
  split.
  - unfold resolve_validation_strategy.
    destruct (String.eqb _ "auto") eqn:H; [|reflexivity].
    apply String.eqb_eq in H. contradiction.
  - unfold validation_step, bindM, get_self.
    destruct (String.eqb _ "reshuffled") eqn:H1;
      [apply String.eqb_eq in H1; contradiction|].
    destruct (String.eqb _ "split") eqn:H2;
      [apply String.eqb_eq in H2; contradiction|].
    reflexivity.
Qed.

End ValidationStrategy.

(** ** [SkipTransformer], on any array *)

(** [SkipTransformer.transform] raises an [IndexError] on an array
    without dimension; on any other array it returns an array of two
    dimensions, the first dimension of the input and 0, with no element,
    whatever the other dimensions and the elements of the input. *)
Theorem skip_transformer_any_array :
  forall (Self : Type) (self : Self) (X : Numpy.ndarray),
    (Numpy.ndim X = 0%nat ->
     SkipTransformer.transform self X = (self, Raise IndexError)) /\
    (forall r rest,
        Numpy.shape X = r :: rest ->
        exists out,
          SkipTransformer.transform self X = (self, Ok out) /\
          Numpy.shape out = [r; 0%nat] /\
          Numpy.data out = [] /\
          Numpy.well_formed out).
Proof.
  intros Self self X. split.
  - unfold Numpy.ndim. intros H.
    destruct (Numpy.shape X) eqn:Hs; [|discriminate].
    unfold SkipTransformer.transform, Numpy.shape_at. rewrite Hs.
    reflexivity.
  - intros r rest Hs.
    unfold SkipTransformer.transform, Numpy.shape_at. rewrite Hs.
    cbn [nth_error bind]. unfold Numpy.reshape, Numpy.size_of.
    cbn [fold_right Numpy.array Numpy.data List.length].
    rewrite Nat.mul_0_l, Nat.mul_0_r. cbn [Nat.eqb].
    eexists. split; [reflexivity|]. cbn. repeat split.
    unfold Numpy.well_formed, Numpy.size_of. cbn. lia.
Qed.

(** ** The set-up of [fit] *)

(** The log level of the cluster is 30 from [verbose] 4 on and 50 below;
    the level 40 that the source writes for [verbose >= 5] is never
    chosen. *)
Theorem silence_logs_never_40 :
  forall verbose : Z,
    FitSetup.silence_logs verbose <> 40%Z /\
    (FitSetup.silence_logs verbose = 30%Z <-> (4 <= verbose)%Z) /\
    (FitSetup.silence_logs verbose = 50%Z <-> (verbose < 4)%Z).
Proof.
  intros verbose. unfold FitSetup.silence_logs.
  destruct (Z.leb 4 verbose) eqn:H4.
  - apply Z.leb_le in H4. repeat split; try discriminate; lia.
  - apply Z.leb_gt in H4.
    replace (Z.leb 5 verbose) with false by (symmetry; apply Z.leb_gt; lia).
    repeat split; try discriminate; lia.
Qed.

Section PreprocessingFacts.
Import FitSetup.
Variable P : Type.

(** The default preprocessing pipeline always imputes the numeric
    columns, under step names that differ; it has a one-hot encoder
    exactly when categorical features were passed or the data frame has
    columns of dtype [object], and then the encoder comes last, after an
    imputer of the same columns. A list of categorical features is used
    as passed, also an empty one. *)
Theorem default_preprocessing_steps :
  forall (categorical_features : option (list string))
         (X_is_DataFrame : bool) (object_columns : list string),
    let steps := pipeline_steps categorical_features X_is_DataFrame
                                object_columns in
    In "impute_numeric"%string (map fst steps) /\
    NoDup (map fst steps) /\
    ((exists t, In t (map snd steps) /\ is_imputer t = false) <->
     categorical_features <> None \/
     (X_is_DataFrame = true /\ object_columns <> [])) /\
    (forall t, In t (map snd steps) -> is_imputer t = false ->
               exists front strategy,
                 steps = front ++ [("ColumnOneHotEncoder"%string, t)] /\
                 t = ColumnOneHotEncoder (columns_of t) strategy /\
                 In ("impute_categorical"%string,
                     ColumnSimpleImputer (columns_of t) strategy) front) /\
    (forall features t,
        categorical_features = Some features ->
        In t (map snd steps) ->
        columns_of t = Listed features \/ columns_of t = Numeric).
Proof.
  intros cf df oc steps. subst steps. unfold pipeline_steps.
  assert (Hnd3 : NoDup ["impute_categorical"; "impute_numeric";
                        "ColumnOneHotEncoder"]%string).
  { repeat constructor; cbn; intros H;
      repeat (destruct H as [H | H]; [discriminate H|]); exact H. }
  assert (Hnd1 : NoDup ["impute_numeric"%string])
    by (repeat constructor; intros []).
  destruct cf as [features|].
  - cbn [map fst snd]. split; [right; left; reflexivity|].
    split; [exact Hnd3|]. split; [|split].
    + split; [intros _; left; discriminate|].
      intros _. eexists. split; [right; right; left; reflexivity|].
      reflexivity.
    + intros t Ht Himp.
      destruct Ht as [<- | [<- | [<- | []]]]; try discriminate Himp.
      eexists [_; _], _. split; [reflexivity|]. split; [reflexivity|].
      left. reflexivity.
    + intros f t [= <-] Ht.
      destruct Ht as [<- | [<- | [<- | []]]]; cbn; auto.
  - assert (Hone : forall l : list (string * transformer),
               l = [("impute_numeric"%string,
                     ColumnSimpleImputer AllColumns "mean")] ->
               In "impute_numeric"%string (map fst l) /\
               NoDup (map fst l) /\
               ~ (exists t, In t (map snd l) /\ is_imputer t = false)).
    { intros l ->. cbn. split; [left; reflexivity|].
      split; [exact Hnd1|].
      intros [t [[<- | []] Ht]]. discriminate Ht. }
    destruct df.
    + destruct oc as [|c oc]; cbn [List.length Nat.ltb Nat.leb].
      * destruct (Hone _ eq_refl) as [H1 [H2 H3]].
        split; [exact H1|]. split; [exact H2|]. split; [|split].
        -- split; [intros H; destruct (H3 H)|].
           intros [H | [_ H]]; congruence.
        -- intros t Ht Himp. exfalso. apply H3. exists t. auto.
        -- discriminate.
      * cbn [map fst snd]. split; [right; left; reflexivity|].
        split; [exact Hnd3|]. split; [|split].
        -- split; [intros _; right; split; [reflexivity | discriminate]|].
           intros _. eexists. split; [right; right; left; reflexivity|].
           reflexivity.
        -- intros t Ht Himp.
           destruct Ht as [<- | [<- | [<- | []]]]; try discriminate Himp.
           eexists [_; _], _. split; [reflexivity|]. split; [reflexivity|].
           left. reflexivity.
        -- discriminate.
    + destruct (Hone _ eq_refl) as [H1 [H2 H3]].
      split; [exact H1|]. split; [exact H2|]. split; [|split].
      * split; [intros H; destruct (H3 H)|].
        intros [H | [H _]]; congruence.
      * intros t Ht Himp. exfalso. apply H3. exists t. auto.
      * discriminate.
Qed.

(** An estimator passed as [preprocessing] is used as it is, and
    [categorical_features] is then not read; anything false, a [Pipeline]
    without steps included, gives no preprocessing; anything else true
    gives the default pipeline. *)
Theorem preprocessing_argument_cases :
  forall (preprocessing : preprocessing_arg P)
         (categorical_features : option (list string))
         (X_is_DataFrame : bool) (object_columns : list string),
    let made := make_preprocessing_pipeline preprocessing
                  categorical_features X_is_DataFrame object_columns in
    (truth preprocessing = false -> made = NoPipeline) /\
    (forall p, preprocessing = PreEstimator p true -> made = Given p) /\
    (truth preprocessing = true ->
     (forall p t, preprocessing <> PreEstimator p t) ->
     made = Pipeline (pipeline_steps categorical_features X_is_DataFrame
                                     object_columns)) /\
    (made = NoPipeline <-> truth preprocessing = false).
Proof.
  intros pre cf df oc made. subst made. unfold make_preprocessing_pipeline.
  split; [|split; [|split]].
  - intros ->. reflexivity.
  - intros p ->. reflexivity.
  - intros Ht Hne. rewrite Ht.
    destruct pre as [b | p t | t]; try reflexivity.
    destruct (Hne p t eq_refl).
  - destruct (truth pre) eqn:Ht.
    + split; [|discriminate]. destruct pre; discriminate.
    + split; reflexivity.
Qed.

End PreprocessingFacts.

(** ** [setup.py]: the version *)

Section SetupFacts.
Import Setup.

Lemma split_not_nil (sep : Ascii.ascii) (s : string) : split sep s <> [].
Proof.
  destruct s as [|c s]; cbn; [discriminate|].
  destruct (Ascii.eqb c sep); [discriminate|].
  destruct (split sep s); discriminate.
Qed.

Lemma split_free (sep : Ascii.ascii) :
  forall s, has_char sep s = false -> split sep s = [s].
Proof.
  induction s as [|c s IH]; cbn; [reflexivity|].
  intros H. apply orb_false_iff in H as [Hc Hs].
  rewrite Hc, (IH Hs). reflexivity.
Qed.

Lemma split_app (sep : Ascii.ascii) (b : string) :
  forall a, has_char sep a = false ->
            split sep (String.append a (String sep b)) = a :: split sep b.
Proof.
  induction a as [|c a IH]; cbn.
  - intros _. rewrite Ascii.eqb_refl. reflexivity.
  - intros H. apply orb_false_iff in H as [Hc Ha].
    rewrite Hc, (IH Ha). reflexivity.
Qed.

Lemma split_two (sep : Ascii.ascii) :
  forall s, has_char sep s = true ->
            exists p1 p2 ps, split sep s = p1 :: p2 :: ps.
Proof.
  induction s as [|c s IH]; cbn; [discriminate|].
  intros H. destruct (Ascii.eqb c sep) eqn:Hc.
  - pose proof (split_not_nil sep s) as Hne.
    destruct (split sep s) as [|p ps]; [congruence|].
    exists EmptyString, p, ps. reflexivity.
  - cbn in H. destruct (IH H) as [p1 [p2 [ps Hs]]].
    rewrite Hs. exists (String c p1), p2, ps. reflexivity.
Qed.

(** Splitting what was joined gives back the pieces. *)
Lemma split_join (sep : Ascii.ascii) :
  forall pieces,
    pieces <> [] ->
    Forall (fun piece => has_char sep piece = false) pieces ->
    split sep (join sep pieces) = pieces.
Proof.
  induction pieces as [|piece rest IH]; intros Hne Hfree; [congruence|].
  inversion Hfree as [|? ? Hp Hrest]; subst.
  destruct rest as [|piece' rest].
  - cbn. apply split_free; exact Hp.
  - change (join sep (piece :: piece' :: rest))
      with (String.append piece (String sep (join sep (piece' :: rest)))).
    rewrite (split_app sep _ piece Hp).
    rewrite IH; [reflexivity | discriminate | exact Hrest].
Qed.

Lemma filter_first {A : Type} (p : A -> bool) (x : A) (after : list A) :
  forall before,
    Forall (fun y => p y = false) before -> p x = true ->
    filter p (before ++ x :: after) = x :: filter p after.
Proof.
  induction before as [|y before IH]; intros Hb Hx; cbn.
  - rewrite Hx. reflexivity.
  - inversion Hb as [|? ? Hy Hrest]; subst. rewrite Hy.
    apply IH; assumption.
Qed.

(** [calculate_version] returns what stands between the first two
    quotes of the first line that mentions [__version__], whatever the
    lines around it and whatever follows the second quote. *)
Theorem calculate_version_reads_first_quoted :
  forall (before after : list string) (prefix version rest : string),
    let line :=
      String.append prefix (String quote
                              (String.append version (String quote rest))) in
    Forall (fun l => has_char newline l = false)
           (before ++ line :: after) ->
    Forall (fun l => contains "__version__" l = false) before ->
    contains "__version__" line = true ->
    has_char quote prefix = false ->
    has_char quote version = false ->
    calculate_version (join newline (before ++ line :: after)) = Ok version.
Proof.
  intros before after prefix version rest line Hnl Hbefore Hline Hp Hv.
  unfold calculate_version.
  rewrite split_join; [|destruct before; discriminate | exact Hnl].
  rewrite (@filter_first _ _ line after before Hbefore Hline).
  subst line. rewrite (split_app quote _ prefix Hp).
  rewrite (split_app quote _ version Hv). reflexivity.
Qed.

(** [calculate_version] raises an [IndexError] when no line mentions
    [__version__], and when the first line that does has no single quote,
    as with a version written between double quotes; one quote on that
    line is enough for a result. *)
Theorem calculate_version_errors :
  forall (before after : list string) (line : string),
    Forall (fun l => has_char newline l = false)
           (before ++ line :: after) ->
    Forall (fun l => contains "__version__" l = false) before ->
    (contains "__version__" line = false ->
     Forall (fun l => contains "__version__" l = false) after ->
     calculate_version (join newline (before ++ line :: after))
     = Raise IndexError) /\
    (contains "__version__" line = true ->
     (has_char quote line = false <->
      calculate_version (join newline (before ++ line :: after))
      = Raise IndexError)).
Proof.
  intros before after line Hnl Hbefore.
  assert (Hsplit : split newline (join newline (before ++ line :: after))
                   = before ++ line :: after)
    by (apply split_join; [destruct before; discriminate | exact Hnl]).
  unfold calculate_version. rewrite Hsplit. split.
  - intros Hline Hafter.
    assert (Hall : Forall (fun l => contains "__version__" l = false)
                          (before ++ line :: after)).
    { apply Forall_app. split; [exact Hbefore|].
      constructor; assumption. }
    assert (Hnil : filter (contains "__version__") (before ++ line :: after)
                   = []).
    { clear -Hall. induction Hall as [|l ls Hl _ IH]; cbn; [reflexivity|].
      rewrite Hl. exact IH. }
    rewrite Hnil. reflexivity.
  - intros Hline.
    rewrite (@filter_first _ _ line after before Hbefore Hline).
    split.
    + intros Hq. rewrite (split_free quote line Hq). reflexivity.
    + intros Herr. destruct (has_char quote line) eqn:Hq; [|reflexivity].
      exfalso. destruct (split_two quote line Hq) as [p1 [p2 [ps Hs]]].
      rewrite Hs in Herr. discriminate.
Qed.

End SetupFacts.

(** ** Rows without a number, and the rows of optuna *)

Section LateRows.
Import Pandas Estimator.
Variables Ind RngState Evolver Data : Type.
Variable simple_parallel_optuna : Data -> list Ind -> list (Ind * list cell).

Let estimator := estimator Ind RngState Evolver.

(** Whatever the direction of the sort, a candidate with [NaN] in the
    first column of the selection is tried after every candidate that has
    a number there. *)
Theorem nan_candidates_are_tried_last :
  forall (ei : frame Ind) (names : list string) (weights : list Q)
         (bigger : bool) (l : list nat),
    names <> [] ->
    best_indices ei names weights bigger = Ok l ->
    let tried := sort_values (negb bigger) (candidates ei names weights) in
    l = index tried /\
    forall a x b y c,
      tried = a ++ x :: b ++ y :: c ->
      hd_error (snd x) = Some None ->
      hd_error (snd y) = Some None.
Proof.
  intros ei names weights bigger l Hnames Hbest tried.
  rewrite best_indices_closed in Hbest.
  destruct (forallb (has_column ei) names); [|discriminate].
  destruct (Nat.eqb (List.length weights) (List.length names)) eqn:Hlen;
    [|discriminate].
  apply Nat.eqb_eq in Hlen. injection Hbest as <-.
  split; [reflexivity|].
  intros a x b y c Hsplit Hx.
  pose proof (candidates_width ei names weights Hlen) as Hw.
  pose proof (sort_values_ordered (negb bigger) Hw) as Hord.
  fold tried in Hord. rewrite Hsplit in Hord.
  apply ordered_pick in Hord.
  assert (Hwy : width (List.length names) y).
  { pose proof (Permutation_Forall
                  (sort_values_perm (negb bigger)
                     (candidates ei names weights)) Hw) as Hall.
    fold tried in Hall. rewrite Hsplit in Hall.
    rewrite Forall_forall in Hall. apply Hall.
    apply in_or_app. right. right. apply in_or_app. right. left.
    reflexivity. }
  unfold width in Hwy. unfold comes_not_after in Hord.
  destruct (snd x) as [|kx vx]; [discriminate|].
  injection Hx as ->.
  destruct (snd y) as [|ky vy].
  - destruct names; [congruence | discriminate].
  - destruct ky as [q|]; [|reflexivity].
    cbn in Hord. discriminate.
Qed.

Lemma get_combine_missing (r : Ind) (names : list string) (name : string) :
  ~ In name names ->
  forall cs, get {| Individual := r; values := combine names cs |} name = NaN.
Proof.
  intros Hnot. unfold get. cbn [values].
  induction names as [|n names IH]; intros cs; [reflexivity|].
  destruct cs as [|c cs]; [reflexivity|]. cbn.
  destruct (String.eqb n name) eqn:Hn.
  - apply String.eqb_eq in Hn. exfalso. apply Hnot. left. exact Hn.
  - apply IH. intros H. apply Hnot. right. exact H.
Qed.

(** The optuna step leaves the attributes as they are when it is
    switched off. Switched on, it changes nothing of the rows the table
    has: they stay under their labels, and the graphs that optuna returns
    are added behind them as rows under the next labels, which read [NaN]
    in [Pareto_Front] (given that no objective has that name); without a
    graph the table is as before. *)
Theorem optuna_rows_are_appended :
  forall (XY : Data) (self : estimator) (ei : frame Ind)
         (front : view (row Ind)),
    evaluated_individuals self = Some ei ->
    pareto_front self = Some front ->
    (optuna_optimize_pareto_front (params self) = false ->
     optuna_step simple_parallel_optuna XY self = (Ok tt, self)) /\
    (optuna_optimize_pareto_front (params self) = true ->
     let graphs :=
       simple_parallel_optuna XY
         (map (fun lr => Individual (snd lr)) front) in
     exists ei',
       evaluated_individuals
         (snd (optuna_step simple_parallel_optuna XY self)) = Some ei' /\
       fst (optuna_step simple_parallel_optuna XY self) = Ok tt /\
       (graphs = [] -> ei' = ei) /\
       List.length (rows ei')
       = (List.length (rows ei) + List.length graphs)%nat /\
       (forall i r, loc ei i = Ok r -> loc ei' i = Ok r) /\
       (forall k g,
           nth_error graphs k = Some g ->
           exists r,
             loc ei' (List.length (rows ei) + k) = Ok r /\
             Individual r = fst g /\
             (~ In "Pareto_Front"%string (objective_names self) ->
              get r "Pareto_Front" = NaN))).
Proof.
  intros XY self ei front Hei Hfront. split.
  - intros Hoff. unfold optuna_step, bindM, get_self, ret. rewrite Hoff.
    reflexivity.
  - intros Hon graphs.
    unfold optuna_step, bindM, get_self, put_self, ret.
    rewrite Hon, Hfront, Hei. fold graphs.
    destruct graphs as [|g0 graphs'] eqn:Hg; cbn [List.length Nat.ltb Nat.leb].
    + exists ei. cbn [fst snd]. rewrite Hei.
      split; [reflexivity|]. split; [reflexivity|].
      split; [reflexivity|]. split; [lia|]. split; [auto|].
      intros k g Hk. destruct k; discriminate.
    + eexists. cbn [fst snd evaluated_individuals set_evaluated_individuals].
      split; [reflexivity|]. split; [reflexivity|].
      split; [discriminate|]. split; [|split].
      * unfold concat_optuna. cbn [rows].
        rewrite length_app, length_map. reflexivity.
      * intros i r Hloc. unfold loc, concat_optuna in *. cbn [rows].
        destruct (nth_error (rows ei) i) as [r'|] eqn:Hnth; [|discriminate].
        rewrite nth_error_app1
          by (apply nth_error_Some; rewrite Hnth; discriminate).
        rewrite Hnth. exact Hloc.
      * intros k g Hk. unfold loc, concat_optuna. cbn [rows].
        rewrite nth_error_app2 by lia.
        replace (List.length (rows ei) + k - List.length (rows ei))%nat
          with k by lia.
        rewrite nth_error_map, Hk. cbn [option_map].
        eexists. split; [reflexivity|]. split; [reflexivity|].
        intros Hnot. apply get_combine_missing. exact Hnot.
Qed.

End LateRows.

(** ** The further properties at concrete inputs *)

Lemma best_indices_exactly_unfailed_witness :
  Estimator.best_indices Example.table ["score"%string] [1] true
  = Ok [0%nat] /\
  NoDup [0%nat] /\
  ~ In 1%nat [0%nat].
Proof.
  destruct (@best_indices_exactly_unfailed nat Example.table
              ["score"%string] [1] true [0%nat] eq_refl) as [Hnd Hiff].
  split; [reflexivity|]. split; [exact Hnd|].
  intros Hin. apply Hiff in Hin as [r [Hloc Hok]].
  vm_compute in Hloc. injection Hloc as <-.
  specialize (Hok "score"%string (or_introl eq_refl)). discriminate Hok.
Defined.

Lemma refit_loop_nothing_fits_witness :
  Estimator.refit_loop Example.final_fit_ok tt Example.table [0%nat]
                       (Samples.with_table "none")
  = (Ok tt,
     Estimator.set_selected (Samples.with_table "none") 0 Example.scored
                            false).
Proof.
  apply (proj1 (proj2 (@refit_loop_nothing_fits nat nat (Pandas.frame nat)
                         unit Example.final_fit_ok tt Example.table
                         (Samples.with_table "none"))
                      [] 0%nat Example.scored
                      (fun i (H : In i []) => match H with end)
                      eq_refl eq_refl)).
Defined.


Lemma init_takes_tolerance_lists_as_given_witness :
  match Estimator.__init__ nat (Pandas.frame nat) Example.scorer_registry
                           Example.default_rng 7%nat
                           Samples.args_with_tolerance_lists with
  | Ok self =>
      Estimator.early_stop_tol self = [Some (1 # 100); Some (1 # 10); None] /\
      List.length (Estimator.objective_names self) = 1%nat
  | Raise _ => False
  end.
Proof.
  destruct (Estimator.__init__ nat (Pandas.frame nat) Example.scorer_registry
              Example.default_rng 7%nat Samples.args_with_tolerance_lists)
    as [self|e] eqn:E; [|discriminate E].
  split.
  - apply (@init_takes_tolerance_lists_as_given nat nat (Pandas.frame nat)
             Example.scorer_registry Example.default_rng 7%nat
             Samples.args_with_tolerance_lists self
             [Some (1 # 100); Some (1 # 10)] [None] E eq_refl eq_refl).
  - vm_compute in E. injection E as <-. reflexivity.
Defined.

Lemma pareto_front_rows_of_table_witness :
  exists front,
    Estimator.pareto_front (Samples.with_table "none") = Some front /\
    NoDup (Pandas.index front).
Proof.
  destruct (@pareto_front_rows_of_table nat nat (Pandas.frame nat)
              (Samples.with_table "none") Example.table eq_refl)
    as [front [Hfront [_ [Hnd _]]]].
  exists front. split; assumption.
Defined.

Lemma make_evaluated_individuals_keeps_table_witness :
  Estimator.make_evaluated_individuals
    Example.population_evaluated_individuals
    (Estimator.set_evolver_instance (Samples.with_table "none")
                                    Example.ranked 3%nat)
  = (Ok (Some Example.table),
     Estimator.set_evolver_instance (Samples.with_table "none")
                                    Example.ranked 3%nat).
Proof.
  apply (proj1 (@make_evaluated_individuals_keeps_table
                  nat nat (Pandas.frame nat)
                  Example.population_evaluated_individuals
                  (Samples.with_table "none"))
               Example.table eq_refl Example.ranked 3%nat).
Defined.

Lemma resolve_validation_strategy_thresholds_witness :
  Estimator.resolve_validation_strategy
    Samples.shape_90_5 (Example.args_with "auto" false) tt
  = Ok "reshuffled"%string.
Proof.
  destruct (@resolve_validation_strategy_thresholds unit Samples.shape_90_5
              (Example.args_with "auto" false) tt 90%nat 5%nat eq_refl)
    as [Hauto _].
  destruct (Hauto eq_refl) as [_ Hpos].
  apply Hpos. lia.
Defined.

Lemma fit_auto_without_columns_witness :
  let out :=
    Estimator.fit Samples.shape_no_columns Example._evolver Example.optimize
                  Example.population_evaluated_individuals
                  Example.get_pareto_frontier Example.simple_parallel_optuna
                  Example.parallel_eval_objective_list Example.final_fit_ok
                  Samples.not_encoded Samples.cat_and_dog
                  tt Samples.classifier in
  fst out = Raise ZeroDivisionError /\
  Estimator.evaluated_individuals (snd out) = None /\
  Estimator.open_clusters Samples.classifier = 0%nat /\
  Estimator.open_clusters (snd out) = 1%nat /\
  Estimator.label_encoder_ Samples.classifier = None /\
  Estimator.label_encoder_ (snd out)
  = Some {| Estimator.classes_ := ["cat"; "dog"]%string |}.
Proof.
  destruct (@fit_auto_without_columns nat nat (Pandas.frame nat) unit
              Samples.shape_no_columns Example._evolver Example.optimize
              Example.population_evaluated_individuals
              Example.get_pareto_frontier Example.simple_parallel_optuna
              Example.parallel_eval_objective_list Example.final_fit_ok
              Samples.not_encoded Samples.cat_and_dog
              tt Samples.classifier 90%nat eq_refl eq_refl)
    as [Hraise [_ [Hnone [Hopen [Henc _]]]]].
  split; [exact Hraise|]. split; [exact Hnone|].
  split; [reflexivity|]. split; [exact Hopen|].
  split; [reflexivity|]. exact Henc.
Defined.

Lemma unknown_validation_strategy_is_none_witness :
  Estimator.validation_step
    Example.get_pareto_frontier Example.parallel_eval_objective_list
    "Split" tt (Samples.with_table "Split")
  = (Ok tt,
     Estimator.set_objective_names_for_selection
       (Samples.with_table "Split") ["score"%string]).
Proof.
  apply (proj2 (@unknown_validation_strategy_is_none
                  nat nat (Pandas.frame nat) unit Example.shape
                  Example.get_pareto_frontier
                  Example.parallel_eval_objective_list
                  tt (Samples.with_table "Split")
                  ltac:(discriminate) ltac:(discriminate)
                  ltac:(discriminate))).
Defined.

Lemma skip_transformer_any_array_witness :
  exists out,
    SkipTransformer.transform tt
      (Numpy.mk_ndarray [2; 1; 3]%nat [1; 2; 3; 4; 5; 6]) = (tt, Ok out) /\
    Numpy.shape out = [2; 0]%nat.
Proof.
  destruct (proj2 (@skip_transformer_any_array unit tt
                     (Numpy.mk_ndarray [2; 1; 3]%nat [1; 2; 3; 4; 5; 6]))
                  2%nat [1; 3]%nat eq_refl)
    as [out [Hrun [Hshape _]]].
  exists out. split; assumption.
Defined.

Lemma preprocessing_argument_cases_witness :
  FitSetup.make_preprocessing_pipeline
    (FitSetup.PreEstimator 5%nat false) (Some ["colour"%string]) true []
  = FitSetup.NoPipeline.
Proof.
  apply (proj1 (@preprocessing_argument_cases nat
                  (FitSetup.PreEstimator 5%nat false)
                  (Some ["colour"%string]) true [])).
  reflexivity.
Defined.

Lemma calculate_version_reads_first_quoted_witness :
  Setup.calculate_version
    (Setup.join Setup.newline
                ["# the version"%string; Samples.version_line; ""%string])
  = Ok "1.0.4"%string.
Proof.
  apply (@calculate_version_reads_first_quoted
           ["# the version"%string] [""%string]
           "__version__ = "%string "1.0.4"%string ""%string).
  - repeat constructor.
  - repeat constructor.
  - reflexivity.
  - reflexivity.
  - reflexivity.
Defined.

Lemma calculate_version_errors_witness :
  Setup.calculate_version
    (Setup.join Setup.newline
                ["# the version"%string; Samples.double_quoted_line;
                 ""%string])
  = Raise IndexError.
Proof.
  destruct (@calculate_version_errors
              ["# the version"%string] [""%string]
              Samples.double_quoted_line
              ltac:(repeat constructor) ltac:(repeat constructor))
    as [_ Hline].
  apply (Hline eq_refl). reflexivity.
Defined.

Lemma nan_candidates_are_tried_last_witness :
  Estimator.best_indices Samples.scored_and_not ["score"%string] [1] true
  = Ok [2; 0; 1]%nat /\
  Estimator.best_indices Samples.scored_and_not ["score"%string] [1] false
  = Ok [0; 2; 1]%nat /\
  [2; 0; 1]%nat
  = Pandas.index
      (Pandas.sort_values (negb true)
         (Estimator.candidates Samples.scored_and_not ["score"%string] [1])).
Proof.
  split; [reflexivity|]. split; [reflexivity|].
  apply (proj1 (@nan_candidates_are_tried_last nat Samples.scored_and_not
                  ["score"%string] [1] true [2; 0; 1]%nat
                  ltac:(discriminate) eq_refl)).
Defined.

Lemma optuna_rows_are_appended_witness :
  exists ei' r,
    Estimator.evaluated_individuals
      (snd (Estimator.optuna_step Samples.one_graph tt
                                  Samples.with_table_and_optuna))
    = Some ei' /\
    Pandas.loc ei' 0 = Ok Example.scored /\
    Pandas.loc ei' 2 = Ok r /\
    Pandas.Individual r = 7%nat /\
    Pandas.get r "Pareto_Front" = Pandas.NaN.
Proof.
  destruct (@optuna_rows_are_appended nat nat (Pandas.frame nat) unit
              Samples.one_graph tt Samples.with_table_and_optuna
              Example.table [(0%nat, Example.scored)] eq_refl eq_refl)
    as [_ Hon].
  destruct (Hon eq_refl) as [ei' [Hei [_ [_ [_ [Hold Hnew]]]]]].
  destruct (Hnew 0%nat (7%nat, [Pandas.Float (95 # 100)]) eq_refl)
    as [r [Hloc [Hind Hnan]]].
  exists ei', r. split; [exact Hei|]. split; [apply Hold; reflexivity|].
  split; [exact Hloc|]. split; [exact Hind|].
  apply Hnan. intros [H | []]. discriminate H.
Defined.

(** ** What a returned [fit] leaves *)

Section FitOutcome.
Import Pandas Estimator.
Variables Ind RngState Evolver Data : Type.
Variable shape : Data -> nat * nat.
Variable _evolver :
  EvolverArgs.kwargs -> Data -> RngState -> Evolver * RngState.
Variable optimize : Evolver -> RngState -> Evolver * RngState.
Variable population_evaluated_individuals : Evolver -> frame Ind.
Variable get_pareto_frontier :
  frame Ind -> list string -> list Q -> frame Ind.
Variable simple_parallel_optuna : Data -> list Ind -> list (Ind * list cell).
Variable parallel_eval_objective_list :
  string -> Data -> list Ind -> list (list cell).
Variable final_fit_ok : Data -> Ind -> bool.
Variable check_if_y_is_encoded : Data -> bool.
Variable labels_of : Data -> list string.

Let estimator := estimator Ind RngState Evolver.

(** When every row of the table carries a failure marker in a column of
    the selection, the final selection has no candidate: it returns
    without an exception and without touching [fitted_pipeline_] or
    [selected_best_score]. *)
Theorem final_selection_without_candidates :
  forall (XY : Data) (self : estimator) (ei : frame Ind)
         (names : list string),
    evaluated_individuals self = Some ei ->
    objective_names_for_selection self = Some names ->
    (forall name, In name names -> has_column ei name = true) ->
    List.length (objective_function_weights self) = List.length names ->
    (forall i r, loc ei i = Ok r ->
                 exists name, In name names /\
                              is_failure_marker (get r name) = true) ->
    best_indices ei names (objective_function_weights self)
                 (bigger_is_better (params self)) = Ok [] /\
    final_selection final_fit_ok XY self = (Ok tt, self).
Proof.
  intros XY self ei names Hei Hnames Hcols Hlen Hfailed.
  assert (Hl : best_indices ei names (objective_function_weights self)
                            (bigger_is_better (params self)) = Ok []).
  { rewrite best_indices_closed.
    replace (forallb (has_column ei) names) with true
      by (symmetry; apply forallb_forall; exact Hcols).
    replace (Nat.eqb (List.length (objective_function_weights self))
                     (List.length names)) with true
      by (symmetry; apply Nat.eqb_eq; exact Hlen).
    destruct (sort_values (negb (bigger_is_better (params self)))
                (candidates ei names (objective_function_weights self)))
      as [|[i v] rest] eqn:Hsort; [reflexivity|].
    exfalso.
    assert (Hin : In i (index (candidates ei names
                                 (objective_function_weights self)))).
    { apply (@index_perm_In _ _ _ i
               (sort_values_perm (negb (bigger_is_better (params self)))
                  (candidates ei names (objective_function_weights self)))).
      rewrite Hsort. left. reflexivity. }
    apply candidates_In in Hin as [r [Hloc Hok]].
    destruct (Hfailed i r Hloc) as [name [Hname Hm]].
    rewrite (Hok name Hname) in Hm. discriminate. }
  split; [exact Hl|].
  unfold final_selection, bindM, get_self, lift.
  rewrite Hei, Hnames, Hl. reflexivity.
Qed.

Lemma fit_search_searched (XY : Data) (self s1 : estimator)
      (strategy : string) :
  fit_search shape _evolver optimize population_evaluated_individuals
             XY self = (Ok strategy, s1) ->
  Attributes.searched s1 /\ objective_names s1 = objective_names self.
Proof.
  unfold fit_search.
  unfold bindM at 1, get_self at 1.
  unfold bindM at 1, put_self at 1.
  unfold bindM at 1, lift at 1.
  destruct (resolve_validation_strategy shape (params self) XY)
    as [st|e]; [|discriminate].
  unfold bindM at 1. unfold evolve_step.
  unfold bindM, get_self, put_self, ret, lift, make_evaluated_individuals.
  cbn [params _evolver_instance Estimator.rng set_evaluated_individuals
       evaluated_individuals].
  destruct (negb _).
  - destruct (_evolver _ XY (Estimator.rng self)) as [inst g]. cbn.
    destruct (optimize inst g) as [inst' g']. cbn.
    intros [= _ <-]. split; [split; eexists; reflexivity | reflexivity].
  - cbn. destruct (_evolver_instance self) as [inst|]; [|discriminate].
    destruct (optimize inst (Estimator.rng self)) as [inst' g']. cbn.
    intros [= _ <-]. split; [split; eexists; reflexivity | reflexivity].
Qed.

Lemma optuna_step_searched (XY : Data) (self s' : estimator)
      (r : result unit) :
  optuna_step simple_parallel_optuna XY self = (r, s') ->
  Attributes.searched self ->
  Attributes.searched s' /\ objective_names s' = objective_names self.
Proof.
  unfold optuna_step, bindM, get_self, put_self, ret, lift.
  intros Hrun [Hinst [ei Hei]].
  destruct (optuna_optimize_pareto_front (params self));
    [|injection Hrun as _ <-; split; [split; [exact Hinst | exists ei; exact Hei] | reflexivity]].
  destruct (pareto_front self);
    [|injection Hrun as _ <-; split; [split; [exact Hinst | exists ei; exact Hei] | reflexivity]].
  rewrite Hei in Hrun.
  destruct (Nat.ltb _ _); injection Hrun as _ <-.
  - split; [split; [exact Hinst | eexists; reflexivity] | reflexivity].
  - split; [split; [exact Hinst | exists ei; exact Hei] | reflexivity].
Qed.

Lemma pareto_step_searched (self s' : estimator) (r : result unit) :
  pareto_step get_pareto_frontier self = (r, s') ->
  Attributes.searched self ->
  Attributes.searched s' /\ objective_names s' = objective_names self.
Proof.
  unfold pareto_step, bindM, get_self, put_self, lift.
  intros Hrun [Hinst [ei Hei]]. rewrite Hei in Hrun.
  injection Hrun as _ <-.
  split; [split; [exact Hinst | eexists; reflexivity] | reflexivity].
Qed.

Lemma validation_step_searched (strategy : string) (XY : Data)
      (self s' : estimator) :
  validation_step get_pareto_frontier parallel_eval_objective_list
                  strategy XY self = (Ok tt, s') ->
  Attributes.searched self ->
  Attributes.searched s' /\ objective_names s' = objective_names self /\
  Attributes.selection_on_objectives s'.
Proof.
  unfold validation_step, bindM, get_self, put_self, lift.
  intros Hrun [Hinst [ei Hei]].
  destruct (_ || _).
  - destruct (pareto_front self); [|discriminate].
    rewrite Hei in Hrun.
    destruct (loc_set _ _ _ _); [|discriminate].
    injection Hrun as <-.
    split; [split; [exact Hinst | eexists; reflexivity]|].
    split; [reflexivity|]. right. reflexivity.
  - injection Hrun as <-.
    split; [split; [exact Hinst | exists ei; exact Hei]|].
    split; [reflexivity|]. left. reflexivity.
Qed.

Lemma refit_loop_search_result (XY : Data) (ei : frame Ind) :
  forall (l : list nat) (self : estimator),
    Attributes.search_result (snd (refit_loop final_fit_ok XY ei l self))
    = Attributes.search_result self.
Proof.
  induction l as [|i l IH]; intros self; cbn [refit_loop].
  - reflexivity.
  - unfold bindM at 1, lift at 1.
    destruct (loc ei i) as [r|e]; [|reflexivity].
    unfold bindM at 1, get_self at 1.
    unfold bindM at 1, put_self at 1.
    destruct (final_fit_ok XY (Individual r)).
    + reflexivity.
    + rewrite (IH (set_selected self i r false)). reflexivity.
Qed.

Lemma final_selection_search_result (XY : Data) (self : estimator) :
  Attributes.search_result (snd (final_selection final_fit_ok XY self))
  = Attributes.search_result self.
Proof.
  unfold final_selection, bindM at 1, get_self at 1.
  destruct (evaluated_individuals self) as [ei|]; [|reflexivity].
  destruct (objective_names_for_selection self) as [names|]; [|reflexivity].
  unfold bindM, lift.
  destruct (best_indices _ _ _ _) as [l|e]; [|reflexivity].
  apply refit_loop_search_result.
Qed.

(** A [fit] that returns leaves an evolver and a table, so that
    [pareto_front] is a table too, and has selected on the objective
    columns or on their validation columns; it may return without
    [fitted_pipeline_], as it does when no row is a candidate. *)
Theorem fit_returned_leaves_search :
  forall (XY : Data) (self self' : estimator),
    fit shape _evolver optimize population_evaluated_individuals
        get_pareto_frontier simple_parallel_optuna
        parallel_eval_objective_list final_fit_ok
        check_if_y_is_encoded labels_of XY self = (Ok tt, self') ->
    Attributes.searched self' /\
    Attributes.selection_on_objectives self' /\
    objective_names self' = objective_names self /\
    exists front, pareto_front self' = Some front.
Proof.
  intros XY self self' Hfit. unfold fit in Hfit.
  unfold bindM at 1, set_up at 1, bindM at 1, get_self at 1, put_self at 1
    in Hfit.
  unfold bindM at 1 in Hfit.
  destruct (fit_search _ _ _ _ XY
              (set_up_state check_if_y_is_encoded labels_of XY self))
    as [[strategy|e] s1] eqn:H1; [|discriminate].
  unfold bindM at 1 in Hfit.
  destruct (optuna_step _ XY s1) as [[[]|e] s2] eqn:H2; [|discriminate].
  unfold bindM at 1 in Hfit.
  destruct (pareto_step _ s2) as [[[]|e] s3] eqn:H3; [|discriminate].
  unfold bindM at 1 in Hfit.
  destruct (validation_step _ _ strategy XY s3) as [[[]|e] s4] eqn:H4;
    [|discriminate].
  apply fit_search_searched in H1 as [S1 N1].
  apply optuna_step_searched in H2 as [S2 N2]; [|exact S1].
  apply pareto_step_searched in H3 as [S3 N3]; [|exact S2].
  apply validation_step_searched in H4 as [S4 [N4 Q4]]; [|exact S3].
  cbn [objective_names set_up_state] in N1.
  pose proof (final_selection_search_result XY s4) as Hres.
  unfold bindM at 1 in Hfit.
  destruct (final_selection final_fit_ok XY s4) as [[[]|e] s5];
    [|discriminate].
  unfold shut_down, bindM, get_self, put_self in Hfit.
  injection Hfit as <-. cbn [snd] in Hres.
  unfold Attributes.search_result in Hres.
  injection Hres as Hinst Hei Hsel Hnames.
  unfold Attributes.searched, Attributes.selection_on_objectives.
  cbn [_evolver_instance evaluated_individuals
       objective_names_for_selection objective_names shut_down_state].
  fold (Attributes.searched s5). fold (Attributes.selection_on_objectives s5).
  assert (Hsearched : Attributes.searched s5).
  { destruct S4 as [[inst Hi] [ei He]].
    split; [exists inst | exists ei]; congruence. }
  split; [exact Hsearched|]. split; [|split].
  - unfold Attributes.selection_on_objectives in *.
    rewrite Hsel, Hnames. exact Q4.
  - congruence.
  - destruct Hsearched as [_ [ei He]]. unfold pareto_front.
    cbn [evaluated_individuals shut_down_state]. rewrite He.
    destruct (negb _); eexists; reflexivity.
Qed.

End FitOutcome.

Lemma final_selection_without_candidates_witness :
  Estimator.final_selection Example.final_fit_ok tt Samples.ready_all_failed
  = (Ok tt, Samples.ready_all_failed) /\
  Estimator.fitted_pipeline_ Samples.ready_all_failed = None.
Proof.
  split; [|reflexivity].
  refine (proj2 (@final_selection_without_candidates
                  nat nat (Pandas.frame nat) unit Example.final_fit_ok tt
                  Samples.ready_all_failed Samples.all_failed
                  ["score"%string] eq_refl eq_refl _ eq_refl _)).
  - intros name [<- | []]; reflexivity.
  - intros i r Hloc. exists "score"%string. split; [left; reflexivity|].
    destruct i as [|[|i]].
    + injection Hloc as <-. reflexivity.
    + injection Hloc as <-. reflexivity.
    + destruct i; discriminate Hloc.
Defined.

Lemma fit_returned_leaves_search_witness :
  match Estimator.fit Example.shape Example._evolver Example.optimize
              Example.population_evaluated_individuals
              Example.get_pareto_frontier Example.simple_parallel_optuna
              Example.parallel_eval_objective_list Example.final_fit_ok
              Example.check_if_y_is_encoded Example.labels_of
              tt (Samples.constructed "split") with
  | (Ok _, self') =>
      Attributes.searched self' /\
      Attributes.selection_on_objectives self'
  | (Raise _, _) => False
  end.
Proof.
  destruct (Estimator.fit Example.shape Example._evolver Example.optimize
              Example.population_evaluated_individuals
              Example.get_pareto_frontier Example.simple_parallel_optuna
              Example.parallel_eval_objective_list Example.final_fit_ok
              Example.check_if_y_is_encoded Example.labels_of
              tt (Samples.constructed "split"))
    as [[[]|e] self'] eqn:E; [|vm_compute in E; discriminate E].
  destruct (fit_returned_leaves_search _ _ _ _ _ _ _ _ _ _ _ _ E)
    as [Hs [Hq _]].
  split; [exact Hs | exact Hq].
Defined.
